(** * memcachedstats: the Munin plugin for Memcached

    A shallow embedding of [pymunin/plugins/memcachedstats.py]: the
    constructor [MuninMemcachedPlugin.__init__], which decides the graphs and
    fields of the plugin, and [retrieveVals], which fills in the values of one
    polling cycle.

    Python values are modelled by [pyval]; a [dict] with string keys is a
    [gmap string pyval]; an exception is the [Raise] case of [result].
    Numbers are those of Python 3: integers of any size and binary64 floats.
    The plugin object carries, next to its attributes, the content of the
    state file and the list of the calls it has made to its collaborators,
    in their order. *)

From Stdlib Require Import ZArith SpecFloat String List Lia.
From stdpp Require Import base option list gmap strings.

Open Scope string_scope.
Open Scope list_scope.

(** ** Python values

    A number is an [int], of any size, or a [float].  A [float] is an IEEE
    754 binary64 value; the operations on it are those of the Standard
    Library's [SpecFloat] at precision 53 and maximal exponent 1024. *)

Inductive pyval : Type :=
  | PNone
  | PInt (z : Z)
  | PFloat (f : spec_float).

Inductive exn : Type :=
  | Exception (msg : string)
  | KeyError (key : string)
  | TypeError
  | OverflowError
  | ZeroDivisionError.

Inductive result (A : Type) : Type :=
  | Ok (a : A)
  | Raise (e : exn).

Arguments Ok {A} a.
Arguments Raise {A} e.

#[global] Instance result_ret : MRet result := fun A a => Ok a.
#[global] Instance result_bind : MBind result := fun A B f m =>
  match m with
  | Ok a => f a
  | Raise e => Raise e
  end.

(** The float nearest to the integer [z], ties to even; an infinity when [z]
    is beyond the range of a float. *)
Definition Z2F (z : Z) : spec_float := binary_normalize 53 1024 z 0 false.

(** The conversion of an [int] operand of a float operation: "int too large
    to convert to float" when it is beyond the range. *)
Definition float_of_int (z : Z) : result spec_float :=
  match Z2F z with
  | S754_infinity _ => Raise OverflowError
  | f => Ok f
  end.

(** The operand [v] of a float operation. *)
Definition to_float (v : pyval) : result spec_float :=
  match v with
  | PNone => Raise TypeError
  | PInt z => float_of_int z
  | PFloat f => Ok f
  end.

(** [a - b] *)
Definition py_sub (a b : pyval) : result pyval :=
  match a, b with
  | PNone, _ | _, PNone => Raise TypeError
  | PInt x, PInt y => Ok (PInt (x - y))
  | _, _ =>
      x ← to_float a;
      y ← to_float b;
      mret (PFloat (SFsub 53 1024 x y))
  end.

(** [a + b] *)
Definition py_add (a b : pyval) : result pyval :=
  match a, b with
  | PNone, _ | _, PNone => Raise TypeError
  | PInt x, PInt y => Ok (PInt (x + y))
  | _, _ =>
      x ← to_float a;
      y ← to_float b;
      mret (PFloat (SFadd 53 1024 x y))
  end.

(** [a > 0] *)
Definition py_gt0 (a : pyval) : result bool :=
  match a with
  | PNone => Raise TypeError
  | PInt z => Ok (0 <? z)%Z
  | PFloat f => Ok (SFltb (S754_zero false) f)
  end.

(** The float [100.0]. *)
Definition f100 : spec_float := S754_finite false 7036874417766400 (-46).

Definition is_zero (f : spec_float) : bool :=
  match f with
  | S754_zero _ => true
  | _ => false
  end.

(** [100.0 * hits / total]: the product is a float, and so is the quotient;
    a float division by zero raises. *)
Definition py_percent (hits total : pyval) : result pyval :=
  h ← to_float hits;
  let product := SFmul 53 1024 f100 h in
  t ← to_float total;
  if is_zero t then Raise ZeroDivisionError
  else mret (PFloat (SFdiv 53 1024 product t)).

(** The integer nearest to [n / d], for [d > 0], ties to the even one. *)
Definition round_half_even_div (n d : Z) : Z :=
  let q := (n / d)%Z in
  match (2 * (n mod d) ?= d)%Z with
  | Lt => q
  | Gt => (q + 1)%Z
  | Eq => if Z.even q then q else (q + 1)%Z
  end.

(** The integer nearest to [100 * m * 2^e], ties to the even one: the digits
    of the float [m * 2^e] correctly rounded to two decimal places. *)
Definition hundredths (m : positive) (e : Z) : Z :=
  if (0 <=? e)%Z then (100 * Z.pos m * 2 ^ e)%Z
  else round_half_even_div (100 * Z.pos m) (2 ^ (- e)).

(** The float nearest to [k / 100], for [k >= 0], with the sign [s]. *)
Definition decimal2 (s : bool) (k : Z) : spec_float :=
  match k with
  | Z.pos p => SFdiv 53 1024 (S754_finite s p 0) (S754_finite false 100 0)
  | _ => S754_zero s
  end.

(** [round(f, 2)] of a float, as Python 3 has it: the value of [f] is
    rounded to two decimal places, ties to even, and the result is the float
    nearest to that decimal; an infinity or a NaN is returned as it is. *)
Definition round2 (f : spec_float) : spec_float :=
  match f with
  | S754_finite s m e => decimal2 s (hundredths m e)
  | _ => f
  end.

(** [round(v, 2)]: an integer is returned as it is. *)
Definition py_round2 (v : pyval) : result pyval :=
  match v with
  | PNone => Raise TypeError
  | PInt z => Ok (PInt z)
  | PFloat f => Ok (PFloat (round2 f))
  end.

(** ** Dictionaries *)

Abbreviation pydict := (gmap string pyval).

(** [k in d] *)
Definition dict_in (k : string) (d : pydict) : bool := bool_decide (is_Some (d !! k)).

(** [d.get(k)] *)
Definition dict_get (d : pydict) (k : string) : pyval := default PNone (d !! k).

(** [d[k]] *)
Definition dict_item (d : pydict) (k : string) : result pyval :=
  match d !! k with
  | Some v => Ok v
  | None => Raise (KeyError k)
  end.

(** [if d:] for a dictionary or [None] *)
Definition truthy (d : option pydict) : bool :=
  match d with
  | None => false
  | Some m => negb (bool_decide (m = ∅))
  end.

(** ** The plugin object

    [MuninPlugin] and [MuninGraph] are imported from the [pymunin] package;
    the plugin uses them through [graphEnabled], [appendGraph], [hasGraph],
    [graphHasField], [setGraphVal], [saveState] and [restoreState]. *)

Record MuninField : Type := Field {
  field_name : string;
  field_draw : string;
  field_type : string
}.

Record MuninGraph : Type := Graph {
  graph_title : string;
  graph_fields : list MuninField
}.

(** Calls of the plugin to its collaborators, in the order they are made. *)
Inductive event : Type :=
  | RestoreState
  | GetStats
  | SaveState (stats : pydict)
  | SetGraphVal (gname fname : string) (val : pyval).

Record plugin : Type := Plugin {
  enabled_graphs : gset string;
  _stats : option pydict;
  _prev_stats : option pydict;
  graphs : list (string * MuninGraph);
  graph_vals : gmap (string * string) pyval;
  state_file : option pydict;
  calls : list event
}.

Abbreviation write := (string * string * pyval)%type.

(** Modelled from the spec: [MuninGraph(title, ...)] of the [pymunin]
    package, a named graph that holds an ordered sequence of fields. *)
Definition newGraph (title : string) : MuninGraph :=
  {| graph_title := title; graph_fields := [] |}.

(** Modelled from the spec: [MuninGraph.addField] of the [pymunin] package;
    fields keep the order in which they are added. *)
Definition addField (name draw type : string) (g : MuninGraph) : MuninGraph :=
  {| graph_title := graph_title g;
     graph_fields := graph_fields g ++ [Field name draw type] |}.

(** Modelled from the spec: [MuninPlugin.graphEnabled] of the [pymunin]
    package; a graph is enabled when its name is in the set of enabled graph
    names. *)
Definition graphEnabled (self : plugin) (name : string) : bool :=
  bool_decide (name ∈ enabled_graphs self).

(** Modelled from the spec: [MuninPlugin.hasGraph] of the [pymunin] package. *)
Definition hasGraph (self : plugin) (name : string) : bool :=
  existsb (fun p => String.eqb (fst p) name) (graphs self).

Definition has_field (g : MuninGraph) (fname : string) : bool :=
  existsb (fun f => String.eqb (field_name f) fname) (graph_fields g).

(** Modelled from the spec: [MuninPlugin.graphHasField] of the [pymunin]
    package.  Every graph name is appended at most once. *)
Definition graphHasField (self : plugin) (gname fname : string) : bool :=
  existsb (fun p => String.eqb (fst p) gname && has_field (snd p) fname) (graphs self).

(** Modelled from the spec: [MuninPlugin.setGraphVal] of the [pymunin]
    package; the value of a field of a graph for this cycle. *)
Definition setGraphVal (self : plugin) (w : write) : plugin :=
  let '(gname, fname, val) := w in
  {| enabled_graphs := enabled_graphs self;
     _stats := _stats self;
     _prev_stats := _prev_stats self;
     graphs := graphs self;
     graph_vals := <[(gname, fname) := val]> (graph_vals self);
     state_file := state_file self;
     calls := calls self ++ [SetGraphVal gname fname val] |}.

(** Modelled from the spec: [MuninPlugin.saveState] of the [pymunin] package;
    the saved mapping is what [restoreState] returns in the next invocation. *)
Definition saveState (stats : pydict) (self : plugin) : plugin :=
  {| enabled_graphs := enabled_graphs self;
     _stats := _stats self;
     _prev_stats := _prev_stats self;
     graphs := graphs self;
     graph_vals := graph_vals self;
     state_file := Some stats;
     calls := calls self ++ [SaveState stats] |}.

(** The value reported for a field in this cycle; [None] when no value was
    set or the value is Python's [None]. *)
Definition field_value (self : plugin) (gname fname : string) : option pyval :=
  match graph_vals self !! (gname, fname) with
  | Some PNone => None
  | o => o
  end.

(** ** [__init__]: the graphs of the plugin *)

Notation "x |> f" := (f x) (at level 45, left associativity, only parsing).

(** The body of the two [for (fname, fstat, fstr) in ...] loops: a field is
    added when its counter [fstat] is in [stats]. *)
Definition add_fields_in (stats : pydict) (draw type : string)
    (flds : list (string * string * string)) (graph : MuninGraph) : MuninGraph :=
  fold_left (fun graph '(fname, fstat, fstr) =>
               if dict_in fstat stats then addField fname draw type graph else graph)
            flds graph.

Definition reqrate_fields : list (string * string * string) :=
  [("set", "cmd_set", "Set"); ("get", "cmd_get", "Get");
   ("del", "delete_hits", "Delete"); ("cas", "cas_hits", "CAS");
   ("incr", "incr_hits", "Increment"); ("decr", "decr_hits", "Decrement")].

Definition hitpct_loop_fields : list (string * string * string) :=
  [("get", "cmd_get", "Get");
   ("del", "delete_hits", "Delete"); ("cas", "cas_hits", "CAS");
   ("incr", "incr_hits", "Increment"); ("decr", "decr_hits", "Decrement")].

Section graphs.
Variable self : plugin.
Variable stats : pydict.

Definition graph_connections : list (string * MuninGraph) :=
  if graphEnabled self "memcached_connections" && dict_in "curr_connections" stats then
    [("memcached_connections",
      newGraph "Memcached - Active Connections"
      |> addField "conn" "LINE2" "GAUGE")]
  else [].

Definition graph_items : list (string * MuninGraph) :=
  if graphEnabled self "memcached_items" && dict_in "curr_items" stats then
    [("memcached_items",
      newGraph "Memcached - Items"
      |> addField "items" "LINE2" "GAUGE")]
  else [].

Definition graph_memory : list (string * MuninGraph) :=
  if graphEnabled self "memcached_memory" && dict_in "bytes" stats then
    [("memcached_memory",
      newGraph "Memcached - Memory Usage"
      |> addField "bytes" "LINE2" "GAUGE")]
  else [].

Definition graph_connrate : list (string * MuninGraph) :=
  if graphEnabled self "memcached_connrate" && dict_in "total_connections" stats then
    [("memcached_connrate",
      newGraph "Memcached - Throughput - Connections"
      |> addField "conn" "LINE2" "DERIVE")]
  else [].

Definition graph_traffic : list (string * MuninGraph) :=
  if graphEnabled self "memcached_traffic"
     && dict_in "bytes_read" stats && dict_in "bytes_written" stats then
    [("memcached_traffic",
      newGraph "Memcached - Throughput - Network"
      |> addField "rxbytes" "LINE2" "DERIVE"
      |> addField "txbytes" "LINE2" "DERIVE")]
  else [].

Definition graph_reqrate : list (string * MuninGraph) :=
  if graphEnabled self "memcached_reqrate"
     && dict_in "cmd_set" stats && dict_in "cmd_get" stats then
    [("memcached_reqrate",
      newGraph "Memcached - Throughput - Request Rate"
      |> add_fields_in stats "AREASTACK" "DERIVE" reqrate_fields)]
  else [].

Definition graph_statget : list (string * MuninGraph) :=
  if graphEnabled self "memcached_statget" && dict_in "cmd_get" stats then
    [("memcached_statget",
      newGraph "Memcached - Stats - Get"
      |> addField "hit" "AREASTACK" "DERIVE"
      |> addField "miss" "AREASTACK" "DERIVE"
      |> addField "total" "LINE1" "DERIVE")]
  else [].

Definition graph_statset : list (string * MuninGraph) :=
  if graphEnabled self "memcached_statset" && dict_in "cmd_set" stats then
    [("memcached_statset",
      newGraph "Memcached - Stats - Set"
      |> addField "hit" "AREASTACK" "DERIVE"
      |> addField "miss" "AREASTACK" "DERIVE"
      |> addField "total" "LINE1" "DERIVE")]
  else [].

Definition graph_statdel : list (string * MuninGraph) :=
  if graphEnabled self "memcached_statdel" && dict_in "delete_hits" stats then
    [("memcached_statdel",
      newGraph "Memcached - Stats - Delete"
      |> addField "hit" "AREASTACK" "DERIVE"
      |> addField "miss" "AREASTACK" "DERIVE"
      |> addField "total" "LINE1" "DERIVE")]
  else [].

Definition graph_statcas : list (string * MuninGraph) :=
  if graphEnabled self "memcached_statcas" && dict_in "cas_hits" stats then
    [("memcached_statcas",
      newGraph "Memcached - Stats - CAS"
      |> addField "hit" "AREASTACK" "DERIVE"
      |> addField "miss" "AREASTACK" "DERIVE"
      |> addField "badval" "AREASTACK" "DERIVE"
      |> addField "total" "LINE1" "DERIVE")]
  else [].

Definition graph_statincrdecr : list (string * MuninGraph) :=
  if graphEnabled self "memcached_statincrdecr"
     && dict_in "incr_hits" stats && dict_in "decr_hits" stats then
    [("memcached_statincrdecr",
      newGraph "Memcached - Stats - Incr / Decr"
      |> addField "incr_hit" "AREASTACK" "DERIVE"
      |> addField "decr_hit" "AREASTACK" "DERIVE"
      |> addField "incr_miss" "AREASTACK" "DERIVE"
      |> addField "decr_miss" "AREASTACK" "DERIVE"
      |> addField "total" "LINE1" "DERIVE")]
  else [].

Definition graph_statevict : list (string * MuninGraph) :=
  if graphEnabled self "memcached_statevict" && dict_in "evictions" stats then
    [("memcached_statevict",
      newGraph "Memcached - Stats - Evictions"
      |> addField "evict" "LINE2" "DERIVE"
      |> (fun graph => if dict_in "reclaimed" stats
                       then addField "reclaim" "LINE2" "DERIVE" graph
                       else graph))]
  else [].

Definition graph_statauth : list (string * MuninGraph) :=
  if graphEnabled self "memcached_statauth" && dict_in "auth_cmds" stats then
    [("memcached_statauth",
      newGraph "Memcached - Stats - Authentication"
      |> addField "reqs" "LINE2" "DERIVE"
      |> addField "errors" "LINE2" "DERIVE")]
  else [].

Definition graph_hitpct : list (string * MuninGraph) :=
  if graphEnabled self "memcached_hitpct"
     && dict_in "cmd_set" stats && dict_in "cmd_get" stats then
    [("memcached_hitpct",
      newGraph "Memcached - Hit Percent"
      |> addField "set" "LINE2" "GAUGE"
      |> add_fields_in stats "LINE2" "GAUGE" hitpct_loop_fields)]
  else [].

(** The [appendGraph] calls of [__init__], in their order. *)
Definition appended_graphs : list (string * MuninGraph) :=
  graph_connections ++ graph_items ++ graph_memory ++ graph_connrate
  ++ graph_traffic ++ graph_reqrate ++ graph_statget ++ graph_statset
  ++ graph_statdel ++ graph_statcas ++ graph_statincrdecr
  ++ graph_statevict ++ graph_statauth ++ graph_hitpct.
End graphs.

(** Modelled from the spec: [MuninPlugin.appendGraph] of the [pymunin]
    package; graphs keep the order in which they are appended. *)
Definition appendGraphs (gs : list (string * MuninGraph)) (self : plugin) : plugin :=
  {| enabled_graphs := enabled_graphs self;
     _stats := _stats self;
     _prev_stats := _prev_stats self;
     graphs := graphs self ++ gs;
     graph_vals := graph_vals self;
     state_file := state_file self;
     calls := calls self |}.

Definition no_stats : exn := Exception "Undetermined error accesing stats.".

(** [MuninMemcachedPlugin.__init__]: [enabled] are the enabled graph names,
    [state] is what [restoreState] returns and [server] what
    [MemcachedInfo.getStats] returns. *)
Definition __init__ (enabled : gset string) (state server : option pydict) : result plugin :=
  let self :=
    {| enabled_graphs := enabled; _stats := None; _prev_stats := state;
       graphs := []; graph_vals := ∅; state_file := state;
       calls := [RestoreState] |} in
  let self :=
    match _prev_stats self with
    | None =>
        {| enabled_graphs := enabled; _stats := server; _prev_stats := state;
           graphs := []; graph_vals := ∅; state_file := state;
           calls := [RestoreState; GetStats] |}
    | Some _ => self
    end in
  let stats :=
    match _prev_stats self with
    | None => _stats self
    | Some prev => Some prev
    end in
  match stats with
  | None => Raise no_stats
  | Some stats => Ok (appendGraphs (appended_graphs self stats) self)
  end.

(** ** [retrieveVals]: the values of one cycle *)

(** Lines 314 to 316: [set_hits] is always assigned, [set_misses] when both
    [cmd_set] and [total_items] are in [stats]. *)
Definition set_hits_misses (stats : pydict) : result pydict :=
  let stats := <["set_hits" := dict_get stats "total_items"]> stats in
  if dict_in "cmd_set" stats && dict_in "total_items" stats then
    cmd_set ← dict_item stats "cmd_set";
    total_items ← dict_item stats "total_items";
    set_misses ← py_sub cmd_set total_items;
    mret (<["set_misses" := set_misses]> stats)
  else mret stats.

Definition hitpct_fields : list (string * string * string) :=
  [("set", "set_hits", "set_misses");
   ("get", "get_hits", "get_misses");
   ("del", "delete_hits", "delete_misses");
   ("cas", "cas_hits", "cas_misses");
   ("incr", "incr_hits", "incr_misses");
   ("decr", "decr_hits", "decr_misses")].

(** The body of the loop over [hitpct_fields]. *)
Definition hitpct_field (stats : pydict) (prev_stats : option pydict)
    (fld : string * string * string) : result (list write) :=
  let '(fname, field_hits, field_misses) := fld in
  if truthy prev_stats then
    let prev := default ∅ prev_stats in
    if dict_in field_hits stats && dict_in field_hits prev
       && dict_in field_misses stats && dict_in field_misses prev then
      a ← dict_item stats field_hits;
      b ← dict_item prev field_hits;
      hits ← py_sub a b;
      c ← dict_item stats field_misses;
      d ← dict_item prev field_misses;
      misses ← py_sub c d;
      total ← py_add hits misses;
      positive ← py_gt0 total;
      val ← (if positive : bool then py_percent hits total else mret (PInt 0));
      rounded ← py_round2 val;
      mret [("memcached_hitpct", fname, rounded)]
    else mret []
  else mret [].

Section values.
(** [safe_sum] is imported from [pysysinfo.util]. *)
Variable safe_sum : list pyval -> pyval.
Variable self : plugin.
Variable stats : pydict.

Definition vals_connections : list write :=
  if hasGraph self "memcached_connections" then
    [("memcached_connections", "conn", dict_get stats "curr_connections")]
  else [].

Definition vals_items : list write :=
  if hasGraph self "memcached_items" then
    [("memcached_items", "items", dict_get stats "curr_items")]
  else [].

Definition vals_memory : list write :=
  if hasGraph self "memcached_memory" then
    [("memcached_memory", "bytes", dict_get stats "bytes")]
  else [].

Definition vals_connrate : list write :=
  if hasGraph self "memcached_connrate" then
    [("memcached_connrate", "conn", dict_get stats "total_connections")]
  else [].

Definition vals_traffic : list write :=
  if hasGraph self "memcached_traffic" then
    [("memcached_traffic", "rxbytes", dict_get stats "bytes_read");
     ("memcached_traffic", "txbytes", dict_get stats "bytes_written")]
  else [].

Definition vals_reqrate : list write :=
  if hasGraph self "memcached_reqrate" then
    [("memcached_reqrate", "set", dict_get stats "cmd_set");
     ("memcached_reqrate", "get", dict_get stats "cmd_get")]
    ++ (if graphHasField self "memcached_reqrate" "del" then
          [("memcached_reqrate", "del",
            safe_sum [dict_get stats "delete_hits";
                      dict_get stats "delete_misses"])]
        else [])
    ++ (if graphHasField self "memcached_reqrate" "cas" then
          [("memcached_reqrate", "cas",
            safe_sum [dict_get stats "cas_hits";
                      dict_get stats "cas_misses";
                      dict_get stats "cas_badval"])]
        else [])
    ++ (if graphHasField self "memcached_reqrate" "incr" then
          [("memcached_reqrate", "incr",
            safe_sum [dict_get stats "incr_hits";
                      dict_get stats "incr_misses"])]
        else [])
    ++ (if graphHasField self "memcached_reqrate" "decr" then
          [("memcached_reqrate", "decr",
            safe_sum [dict_get stats "decr_hits";
                      dict_get stats "decr_misses"])]
        else [])
  else [].

Definition vals_statget : list write :=
  if hasGraph self "memcached_statget" then
    [("memcached_statget", "hit", dict_get stats "get_hits");
     ("memcached_statget", "miss", dict_get stats "get_misses");
     ("memcached_statget", "total",
      safe_sum [dict_get stats "get_hits"; dict_get stats "get_misses"])]
  else [].

Definition vals_statset : list write :=
  if hasGraph self "memcached_statset" then
    [("memcached_statset", "hit", dict_get stats "set_hits");
     ("memcached_statset", "miss", dict_get stats "set_misses");
     ("memcached_statset", "total",
      safe_sum [dict_get stats "set_hits"; dict_get stats "set_misses"])]
  else [].

Definition vals_statdel : list write :=
  if hasGraph self "memcached_statdel" then
    [("memcached_statdel", "hit", dict_get stats "delete_hits");
     ("memcached_statdel", "miss", dict_get stats "delete_misses");
     ("memcached_statdel", "total",
      safe_sum [dict_get stats "delete_hits"; dict_get stats "delete_misses"])]
  else [].

Definition vals_statcas : list write :=
  if hasGraph self "memcached_statcas" then
    [("memcached_statcas", "hit", dict_get stats "cas_hits");
     ("memcached_statcas", "miss", dict_get stats "cas_misses");
     ("memcached_statcas", "badval", dict_get stats "cas_badval");
     ("memcached_statcas", "total",
      safe_sum [dict_get stats "cas_hits"; dict_get stats "cas_misses";
                dict_get stats "cas_badval"])]
  else [].

Definition vals_statincrdecr : list write :=
  if hasGraph self "memcached_statincrdecr" then
    [("memcached_statincrdecr", "incr_hit", dict_get stats "incr_hits");
     ("memcached_statincrdecr", "decr_hit", dict_get stats "decr_hits");
     ("memcached_statincrdecr", "incr_miss", dict_get stats "incr_misses");
     ("memcached_statincrdecr", "decr_miss", dict_get stats "decr_misses");
     ("memcached_statincrdecr", "total",
      safe_sum [dict_get stats "incr_hits"; dict_get stats "decr_hits";
                dict_get stats "incr_misses"; dict_get stats "decr_misses"])]
  else [].

Definition vals_statevict : list write :=
  if hasGraph self "memcached_statevict" then
    [("memcached_statevict", "evict", dict_get stats "evictions")]
    ++ (if graphHasField self "memcached_statevict" "reclaim" then
          [("memcached_statevict", "reclaim", dict_get stats "reclaimed")]
        else [])
  else [].

Definition vals_statauth : list write :=
  if hasGraph self "memcached_statauth" then
    [("memcached_statauth", "reqs", dict_get stats "auth_cmds");
     ("memcached_statauth", "errors", dict_get stats "auth_errors")]
  else [].

Definition vals_hitpct : result (list write) :=
  if hasGraph self "memcached_hitpct" then
    let prev_stats := _prev_stats self in
    vals ← mapM (hitpct_field stats prev_stats) hitpct_fields;
    mret (concat vals)
  else mret [].

(** The [setGraphVal] calls of lines 318 to 416, in their order. *)
Definition counter_vals : list write :=
  vals_connections ++ vals_items ++ vals_memory ++ vals_connrate
  ++ vals_traffic ++ vals_reqrate ++ vals_statget ++ vals_statset
  ++ vals_statdel ++ vals_statcas ++ vals_statincrdecr
  ++ vals_statevict ++ vals_statauth.
End values.

Definition log_call (e : event) (self : plugin) : plugin :=
  {| enabled_graphs := enabled_graphs self;
     _stats := _stats self;
     _prev_stats := _prev_stats self;
     graphs := graphs self;
     graph_vals := graph_vals self;
     state_file := state_file self;
     calls := calls self ++ [e] |}.

Definition set_stats (stats : pydict) (self : plugin) : plugin :=
  {| enabled_graphs := enabled_graphs self;
     _stats := Some stats;
     _prev_stats := _prev_stats self;
     graphs := graphs self;
     graph_vals := graph_vals self;
     state_file := state_file self;
     calls := calls self |}.

Definition setGraphVals (vals : list write) (self : plugin) : plugin :=
  fold_left setGraphVal vals self.

(** [MuninMemcachedPlugin.retrieveVals]; [server] is what
    [MemcachedInfo.getStats] returns when it is called.  When [self._stats]
    is set, [stats] is that very dictionary, and the assignments to
    [set_hits] and [set_misses] change it in place. *)
Definition retrieveVals (safe_sum : list pyval -> pyval) (server : option pydict)
    (self : plugin) : result plugin :=
  let fetched :=
    match _stats self with
    | None => (server, log_call GetStats self)
    | Some stats => (Some stats, self)
    end in
  match fetched with
  | (None, _) => Raise no_stats
  | (Some stats, self1) =>
      stats ← set_hits_misses stats;
      let self2 :=
        match _stats self1 with
        | None => self1
        | Some _ => set_stats stats self1
        end in
      let self3 := saveState stats self2 in
      let self4 := setGraphVals (counter_vals safe_sum self3 stats) self3 in
      vals ← vals_hitpct self4 stats;
      mret (setGraphVals vals self4)
  end.

(** Several cycles on one plugin object. *)
Definition cycles (safe_sum : list pyval -> pyval) (servers : list (option pydict))
    (self : plugin) : result plugin :=
  fold_left (fun r server => self ← r; retrieveVals safe_sum server self)
            servers (Ok self).

(** One invocation of the plugin: construction, then one cycle. *)
Definition invocation (safe_sum : list pyval -> pyval) (enabled : gset string)
    (state server : option pydict) : result plugin :=
  self ← __init__ enabled state server;
  retrieveVals safe_sum server self.

(** Modelled from the spec: [safe_sum] of [pysysinfo.util], which the plugin
    imports; the sum of the counters of the list that are present, an absent
    counter contributing 0, and absent when every counter of the list is
    absent. *)
Definition safe_sum_spec (seq : list pyval) : pyval :=
  if forallb (fun v => match v with PNone => true | _ => false end) seq then PNone
  else fold_left (fun acc v =>
                    match v with
                    | PNone => acc
                    | _ => match py_add acc v with Ok r => r | Raise _ => acc end
                    end) seq (PInt 0).

(** The names of all graphs of the plugin. *)
Definition all_graphs : gset string :=
  list_to_set
    ["memcached_connections"; "memcached_items"; "memcached_memory";
     "memcached_traffic"; "memcached_connrate"; "memcached_reqrate";
     "memcached_statget"; "memcached_statset"; "memcached_statdel";
     "memcached_statcas"; "memcached_statincrdecr"; "memcached_statevict";
     "memcached_statauth"; "memcached_hitpct"].

Definition dict (l : list (string * Z)) : pydict :=
  list_to_map (prod_map id PInt <$> l).

(** * Vocabulary of the properties *)

(** The last value that a sequence of [setGraphVal] calls gives to a field. *)
Fixpoint written (k : string * string) (vals : list write) : option pyval :=
  match vals with
  | [] => None
  | (gname, fname, val) :: vals' =>
      match written k vals' with
      | Some v => Some v
      | None =>
          if String.eqb gname (fst k) && String.eqb fname (snd k) then Some val else None
      end
  end.

Definition set_event (w : write) : event :=
  let '(gname, fname, val) := w in SetGraphVal gname fname val.

Definition is_set (e : event) : bool :=
  match e with
  | SetGraphVal _ _ _ => true
  | _ => false
  end.

(** The statistics a cycle works on: those kept by [__init__], or those
    fetched from the server. *)
Definition current_stats (self : plugin) (server : option pydict) : option pydict :=
  match _stats self with
  | None => server
  | Some stats => Some stats
  end.

(** The plugin after a cycle that worked on [stats] (after lines 314 to 316)
    and whose loop over [hitpct_fields] set [vals]. *)
Definition after_cycle (safe_sum : list pyval -> pyval) (self : plugin)
    (stats : pydict) (vals : list write) : plugin :=
  {| enabled_graphs := enabled_graphs self;
     _stats := match _stats self with None => None | Some _ => Some stats end;
     _prev_stats := _prev_stats self;
     graphs := graphs self;
     graph_vals :=
       graph_vals (setGraphVals (counter_vals safe_sum self stats ++ vals) self);
     state_file := Some stats;
     calls :=
       calls self
       ++ match _stats self with None => [GetStats] | Some _ => [] end
       ++ SaveState stats :: map set_event (counter_vals safe_sum self stats ++ vals) |}.

(** The float that a number is in a float operation. *)
Definition as_float (v : pyval) : spec_float :=
  match v with
  | PNone => S754_nan
  | PInt z => Z2F z
  | PFloat f => f
  end.

(** The difference and the sum of two numbers: exact on two integers, and
    the float operation when one of them is a float. *)
Definition num_sub (a b : pyval) : pyval :=
  match a, b with
  | PInt x, PInt y => PInt (x - y)
  | _, _ => PFloat (SFsub 53 1024 (as_float a) (as_float b))
  end.

Definition num_add (a b : pyval) : pyval :=
  match a, b with
  | PInt x, PInt y => PInt (x + y)
  | _, _ => PFloat (SFadd 53 1024 (as_float a) (as_float b))
  end.

(** A number above zero. *)
Definition num_pos (v : pyval) : bool :=
  match v with
  | PNone => false
  | PInt z => (0 <? z)%Z
  | PFloat f => SFltb (S754_zero false) f
  end.

(** The percentage as the specification gives it: [hits] and [misses] are the
    differences between the current and the previous counters; the product
    [100.0 * hits], the quotient by [total] and the rounding to two decimal
    places are those of floats. *)
Definition percentage (hits misses : pyval) : pyval :=
  let total := num_add hits misses in
  if num_pos total then
    PFloat (round2 (SFdiv 53 1024 (SFmul 53 1024 f100 (as_float hits)) (as_float total)))
  else PInt 0.

(** An integer below [2^bits] in absolute value; a float is not bounded. *)
Definition within (bits : Z) (v : pyval) : Prop :=
  match v with
  | PInt z => (Z.abs z < 2 ^ bits)%Z
  | _ => True
  end.

(** Every counter of the dictionary has a number as its value, an integer
    one within 64 bits, as the counters of memcached are. *)
Definition numeric (d : pydict) : Prop :=
  forall k v, d !! k = Some v -> v <> PNone /\ within 64 v.

(** What a server reports: numbers, and a [set_misses] counter of its own
    only together with [total_items]. *)
Definition reported (raw : pydict) : Prop :=
  numeric raw /\ (is_Some (raw !! "set_misses") -> is_Some (raw !! "total_items")).

(** What a cycle saves for such a server: only [set_hits] may be [None], and
    then there is no [set_misses]; [set_misses] is a difference of two
    counters. *)
Definition saved_ok (d : pydict) : Prop :=
  forall k v, d !! k = Some v ->
    within 65 v /\ (v = PNone -> k = "set_hits" /\ d !! "set_misses" = None).

Definition prev_ok (prev_stats : option pydict) : Prop :=
  forall prev, prev_stats = Some prev -> saved_ok prev.

(** The plugin of an invocation that has restored [prev] and has only the
    hit percent graph, with its field [get]. *)
Definition hitpct_plugin (prev : pydict) : plugin :=
  {| enabled_graphs := all_graphs;
     _stats := None;
     _prev_stats := Some prev;
     graphs := [("memcached_hitpct",
                 newGraph "Memcached - Hit Percent" |> addField "get" "LINE2" "GAUGE")];
     graph_vals := ∅;
     state_file := Some prev;
     calls := [RestoreState] |}.

(** The fields whose value is a sum of counters, with these counters. *)
Definition combined_fields : list (string * string * list string) :=
  [("memcached_reqrate", "del", ["delete_hits"; "delete_misses"]);
   ("memcached_reqrate", "cas", ["cas_hits"; "cas_misses"; "cas_badval"]);
   ("memcached_reqrate", "incr", ["incr_hits"; "incr_misses"]);
   ("memcached_reqrate", "decr", ["decr_hits"; "decr_misses"]);
   ("memcached_statget", "total", ["get_hits"; "get_misses"]);
   ("memcached_statset", "total", ["set_hits"; "set_misses"]);
   ("memcached_statdel", "total", ["delete_hits"; "delete_misses"]);
   ("memcached_statcas", "total", ["cas_hits"; "cas_misses"; "cas_badval"]);
   ("memcached_statincrdecr", "total",
    ["incr_hits"; "decr_hits"; "incr_misses"; "decr_misses"])].

(** An integer counter, or 0 for an absent one. *)
Definition int_or_zero (v : pyval) : Z :=
  match v with
  | PInt z => z
  | _ => 0
  end.

Definition int_or_absent (v : pyval) : Prop :=
  match v with
  | PFloat _ => False
  | _ => True
  end.

Definition sum_Z (l : list Z) : Z := fold_right Z.add 0%Z l.

(** The plugin that [__init__] builds; [state] is what [restoreState]
    returns and [server] what the server reports. *)
Definition built (enabled : gset string) (state server : option pydict) : plugin :=
  match __init__ enabled state server with
  | Ok self => self
  | Raise _ => Plugin enabled None state [] ∅ state []
  end.

(** The statistics from which [__init__] decides the graphs. *)
Definition build_stats (state server : option pydict) : option pydict :=
  match state with
  | Some prev => Some prev
  | None => server
  end.

(** The graphs of the plugin, each with the counters it requires. *)
Definition graph_catalog : list (string * list string) :=
  [("memcached_connections", ["curr_connections"]);
   ("memcached_items", ["curr_items"]);
   ("memcached_memory", ["bytes"]);
   ("memcached_connrate", ["total_connections"]);
   ("memcached_traffic", ["bytes_read"; "bytes_written"]);
   ("memcached_reqrate", ["cmd_set"; "cmd_get"]);
   ("memcached_statget", ["cmd_get"]);
   ("memcached_statset", ["cmd_set"]);
   ("memcached_statdel", ["delete_hits"]);
   ("memcached_statcas", ["cas_hits"]);
   ("memcached_statincrdecr", ["incr_hits"; "decr_hits"]);
   ("memcached_statevict", ["evictions"]);
   ("memcached_statauth", ["auth_cmds"]);
   ("memcached_hitpct", ["cmd_set"; "cmd_get"])].

(** The fields of the graphs, each with the counter it requires, if any. *)
Definition field_catalog : list (string * string * option string) :=
  [("memcached_connections", "conn", None);
   ("memcached_items", "items", None);
   ("memcached_memory", "bytes", None);
   ("memcached_connrate", "conn", None);
   ("memcached_traffic", "rxbytes", None);
   ("memcached_traffic", "txbytes", None);
   ("memcached_reqrate", "set", Some "cmd_set");
   ("memcached_reqrate", "get", Some "cmd_get");
   ("memcached_reqrate", "del", Some "delete_hits");
   ("memcached_reqrate", "cas", Some "cas_hits");
   ("memcached_reqrate", "incr", Some "incr_hits");
   ("memcached_reqrate", "decr", Some "decr_hits");
   ("memcached_statget", "hit", None);
   ("memcached_statget", "miss", None);
   ("memcached_statget", "total", None);
   ("memcached_statset", "hit", None);
   ("memcached_statset", "miss", None);
   ("memcached_statset", "total", None);
   ("memcached_statdel", "hit", None);
   ("memcached_statdel", "miss", None);
   ("memcached_statdel", "total", None);
   ("memcached_statcas", "hit", None);
   ("memcached_statcas", "miss", None);
   ("memcached_statcas", "badval", None);
   ("memcached_statcas", "total", None);
   ("memcached_statincrdecr", "incr_hit", None);
   ("memcached_statincrdecr", "decr_hit", None);
   ("memcached_statincrdecr", "incr_miss", None);
   ("memcached_statincrdecr", "decr_miss", None);
   ("memcached_statincrdecr", "total", None);
   ("memcached_statevict", "evict", None);
   ("memcached_statevict", "reclaim", Some "reclaimed");
   ("memcached_statauth", "reqs", None);
   ("memcached_statauth", "errors", None);
   ("memcached_hitpct", "set", None);
   ("memcached_hitpct", "get", Some "cmd_get");
   ("memcached_hitpct", "del", Some "delete_hits");
   ("memcached_hitpct", "cas", Some "cas_hits");
   ("memcached_hitpct", "incr", Some "incr_hits");
   ("memcached_hitpct", "decr", Some "decr_hits")].

Definition field_condition (stats : pydict) (cond : option string) : bool :=
  match cond with
  | None => true
  | Some k => dict_in k stats
  end.

(** The counters that a graph requires. *)
Definition graph_reqs (g : string) : list string :=
  match List.find (fun p => String.eqb (fst p) g) graph_catalog with
  | Some p => snd p
  | None => []
  end.

(** The gating of the fields of the hit percent graph as the specification
    states it: each field on its hit counter. *)
Definition gated_on_hit_counters (self : plugin) (stats : pydict) : Prop :=
  forall fname h m,
    In (fname, h, m) hitpct_fields ->
    graphHasField self "memcached_hitpct" fname = true <-> is_Some (stats !! h).

(** A schema in which the fields that [retrieveVals] sets without asking
    [graphHasField] are there. *)
Definition schema_ok (self : plugin) (stats0 : pydict) : Prop :=
  (forall g reqs,
      In (g, reqs) graph_catalog ->
      hasGraph self g
      = graphEnabled self g && forallb (fun k => dict_in k stats0) reqs) /\
  (forall g f cond,
      In (g, f, cond) field_catalog ->
      graphHasField self g f = hasGraph self g && field_condition stats0 cond).

Definition is_ok {A} (r : result A) : bool :=
  match r with
  | Ok _ => true
  | Raise _ => false
  end.

(** The plugin that a run ends with, for a run that does not raise. *)
Definition ended (r : result plugin) : plugin :=
  match r with
  | Ok self => self
  | Raise _ => Plugin ∅ None None [] ∅ None []
  end.

(** The order that the specification states: the statistics are saved after
    every value of the cycle is set. *)
Definition saved_after_values (l : list event) : Prop :=
  forall i j stats g f v,
    l !! i = Some (SaveState stats) -> l !! j = Some (SetGraphVal g f v) ->
    (j < i)%nat.

(** The exceptions of the arithmetic: an operand that is [None], or an
    integer operand of a float operation that is beyond the range of a
    float. *)
Definition arith_error (e : exn) : Prop := e = TypeError \/ e = OverflowError.

(** The fields whose value is one counter of the statistics, with this
    counter. *)
Definition counter_fields : list (string * string * string) :=
  [("memcached_connections", "conn", "curr_connections");
   ("memcached_items", "items", "curr_items");
   ("memcached_memory", "bytes", "bytes");
   ("memcached_connrate", "conn", "total_connections");
   ("memcached_traffic", "rxbytes", "bytes_read");
   ("memcached_traffic", "txbytes", "bytes_written");
   ("memcached_reqrate", "set", "cmd_set");
   ("memcached_reqrate", "get", "cmd_get");
   ("memcached_statget", "hit", "get_hits");
   ("memcached_statget", "miss", "get_misses");
   ("memcached_statset", "hit", "set_hits");
   ("memcached_statset", "miss", "set_misses");
   ("memcached_statdel", "hit", "delete_hits");
   ("memcached_statdel", "miss", "delete_misses");
   ("memcached_statcas", "hit", "cas_hits");
   ("memcached_statcas", "miss", "cas_misses");
   ("memcached_statcas", "badval", "cas_badval");
   ("memcached_statincrdecr", "incr_hit", "incr_hits");
   ("memcached_statincrdecr", "decr_hit", "decr_hits");
   ("memcached_statincrdecr", "incr_miss", "incr_misses");
   ("memcached_statincrdecr", "decr_miss", "decr_misses");
   ("memcached_statevict", "evict", "evictions");
   ("memcached_statevict", "reclaim", "reclaimed");
   ("memcached_statauth", "reqs", "auth_cmds");
   ("memcached_statauth", "errors", "auth_errors")].

(** Consecutive invocations of the plugin: each one restores the state that
    the one before it saved.  The result is the content of the state file
    after the last one. *)
Fixpoint invocations (safe_sum : list pyval -> pyval) (enabled : gset string)
    (state : option pydict) (servers : list (option pydict)) : result (option pydict) :=
  match servers with
  | [] => Ok state
  | server :: servers' =>
      self ← invocation safe_sum enabled state server;
      invocations safe_sum enabled (state_file self) servers'
  end.

(** The names of the graphs of the catalog, in its order, that are enabled
    and whose required counters are in [stats]. *)
Definition catalog_graphs (enabled : gset string) (stats : pydict) : list string :=
  List.filter (fun g => bool_decide (g ∈ enabled)
                        && forallb (fun k => dict_in k stats) (graph_reqs g))
              (map fst graph_catalog).

(** The names of the fields of the catalog for graph [g], in its order, whose
    condition [stats] meets. *)
Definition catalog_fields (stats : pydict) (g : string) : list string :=
  map (fun x => snd (fst x))
      (List.filter (fun x => String.eqb (fst (fst x)) g && field_condition stats (snd x))
                   field_catalog).

Definition is_GetStats (e : event) : bool :=
  match e with
  | GetStats => true
  | _ => false
  end.
(** * Properties *)

(** The percentages of 15 hits in 20, of 1 in 3, of 1 in 4000 (the float
    [100.0 * 1 / 4000] is above 0.025), of 107 in 4000 (the float is below
    2.675) and of 1 in 800 (the float is 0.125, a tie). *)
Example percentage_75 : percentage (PInt 15) (PInt 5) = PFloat (Z2F 75).
Proof. reflexivity. Qed.

Example percentage_third : percentage (PInt 1) (PInt 2) = PFloat (decimal2 false 3333).
Proof. reflexivity. Qed.

Example percentage_1_in_4000 :
  percentage (PInt 1) (PInt 3999) = PFloat (decimal2 false 3).
Proof. reflexivity. Qed.

Example percentage_107_in_4000 :
  percentage (PInt 107) (PInt 3893) = PFloat (decimal2 false 267).
Proof. reflexivity. Qed.

Example percentage_1_in_800 :
  percentage (PInt 1) (PInt 799) = PFloat (decimal2 false 12).
Proof. reflexivity. Qed.

Example f100_is_100 : f100 = Z2F 100.
Proof. reflexivity. Qed.

(** ** Values set in a cycle *)

Lemma pair_eqb_eq (g f : string) (k : string * string) :
  String.eqb g (fst k) && String.eqb f (snd k) = true <-> (g, f) = k.
Proof.
  destruct k as [g' f']; simpl.
  rewrite andb_true_iff, !String.eqb_eq. split; [intros [-> ->] | intros [= -> ->]]; auto.
Qed.

Lemma setGraphVals_graphs vals self : graphs (setGraphVals vals self) = graphs self.
Proof.
  revert self; induction vals as [|[[g f] v] vals IH]; intros self; simpl; [done|].
  unfold setGraphVals in *; simpl. by rewrite IH.
Qed.

Lemma setGraphVals_prev_stats vals self :
  _prev_stats (setGraphVals vals self) = _prev_stats self.
Proof.
  revert self; induction vals as [|[[g f] v] vals IH]; intros self; simpl; [done|].
  unfold setGraphVals in *; simpl. by rewrite IH.
Qed.

Lemma setGraphVals_stats vals self : _stats (setGraphVals vals self) = _stats self.
Proof.
  revert self; induction vals as [|[[g f] v] vals IH]; intros self; simpl; [done|].
  unfold setGraphVals in *; simpl. by rewrite IH.
Qed.

Lemma setGraphVals_state_file vals self :
  state_file (setGraphVals vals self) = state_file self.
Proof.
  revert self; induction vals as [|[[g f] v] vals IH]; intros self; simpl; [done|].
  unfold setGraphVals in *; simpl. by rewrite IH.
Qed.

Lemma setGraphVals_enabled vals self :
  enabled_graphs (setGraphVals vals self) = enabled_graphs self.
Proof.
  revert self; induction vals as [|[[g f] v] vals IH]; intros self; simpl; [done|].
  unfold setGraphVals in *; simpl. by rewrite IH.
Qed.

Lemma setGraphVals_calls vals self :
  calls (setGraphVals vals self) = calls self ++ map set_event vals.
Proof.
  revert self; induction vals as [|[[g f] v] vals IH]; intros self; simpl.
  - by rewrite app_nil_r.
  - unfold setGraphVals in *; simpl. rewrite IH; simpl. by rewrite <- app_assoc.
Qed.

Lemma setGraphVals_lookup vals self k :
  graph_vals (setGraphVals vals self) !! k
  = match written k vals with
    | Some v => Some v
    | None => graph_vals self !! k
    end.
Proof.
  revert self; induction vals as [|[[g f] v] vals IH]; intros self; simpl; [done|].
  unfold setGraphVals in *; simpl. rewrite IH; simpl.
  destruct (written k vals); [done|].
  destruct (String.eqb g (fst k) && String.eqb f (snd k)) eqn:E.
  - apply pair_eqb_eq in E as <-. apply lookup_insert_eq.
  - apply lookup_insert_ne. intros H. apply pair_eqb_eq in H. congruence.
Qed.

Lemma setGraphVals_app vals1 vals2 self :
  setGraphVals (vals1 ++ vals2) self = setGraphVals vals2 (setGraphVals vals1 self).
Proof. unfold setGraphVals. apply fold_left_app. Qed.

Lemma written_app k vals1 vals2 :
  written k (vals1 ++ vals2)
  = match written k vals2 with
    | Some v => Some v
    | None => written k vals1
    end.
Proof.
  induction vals1 as [|[[g f] v] vals1 IH]; simpl.
  - by destruct (written k vals2).
  - rewrite IH. by destruct (written k vals2).
Qed.

Lemma written_if k (c : bool) vals :
  written k (if c then vals else []) = if c then written k vals else None.
Proof. by destruct c. Qed.

Lemma written_In k vals v :
  written k vals = Some v -> In (fst k, snd k, v) vals.
Proof.
  induction vals as [|[[g f] v'] vals IH]; simpl; [done|].
  destruct (written k vals); [intros [= ->]; auto|].
  destruct (String.eqb g (fst k) && String.eqb f (snd k)) eqn:E; [|done].
  apply pair_eqb_eq in E as <-. intros [= ->]; auto.
Qed.

(** Writing the same values a second time changes nothing. *)
Lemma setGraphVals_twice vals self :
  graph_vals (setGraphVals vals (setGraphVals vals self))
  = graph_vals (setGraphVals vals self).
Proof.
  apply map_eq; intros k. rewrite !setGraphVals_lookup.
  by destruct (written k vals).
Qed.

(** ** The shape of a cycle *)

Lemma plugin_eq (p q : plugin) :
  enabled_graphs p = enabled_graphs q -> _stats p = _stats q ->
  _prev_stats p = _prev_stats q -> graphs p = graphs q ->
  graph_vals p = graph_vals q -> state_file p = state_file q ->
  calls p = calls q -> p = q.
Proof. destruct p, q; simpl; intros; congruence. Qed.

Lemma counter_vals_ext safe_sum s1 s2 stats :
  graphs s1 = graphs s2 -> counter_vals safe_sum s1 stats = counter_vals safe_sum s2 stats.
Proof.
  intros H. unfold counter_vals, vals_connections, vals_items, vals_memory,
    vals_connrate, vals_traffic, vals_reqrate, vals_statget, vals_statset,
    vals_statdel, vals_statcas, vals_statincrdecr, vals_statevict, vals_statauth,
    hasGraph, graphHasField.
  by rewrite H.
Qed.

Lemma vals_hitpct_ext s1 s2 stats :
  graphs s1 = graphs s2 -> _prev_stats s1 = _prev_stats s2 ->
  vals_hitpct s1 stats = vals_hitpct s2 stats.
Proof. intros H1 H2. unfold vals_hitpct, hasGraph. by rewrite H1, H2. Qed.

Lemma setGraphVals_vals_ext vals s1 s2 :
  graph_vals s1 = graph_vals s2 ->
  graph_vals (setGraphVals vals s1) = graph_vals (setGraphVals vals s2).
Proof.
  intros H. apply map_eq; intros k. by rewrite !setGraphVals_lookup, H.
Qed.

Lemma retrieveVals_eq safe_sum server self :
  retrieveVals safe_sum server self
  = match current_stats self server with
    | None => Raise no_stats
    | Some raw =>
        stats ← set_hits_misses raw;
        vals ← vals_hitpct self stats;
        mret (after_cycle safe_sum self stats vals)
    end.
Proof.
  assert (Hext : forall stats s, graphs s = graphs self ->
            _prev_stats s = _prev_stats self ->
            vals_hitpct (setGraphVals (counter_vals safe_sum s stats) s) stats
            = vals_hitpct self stats).
  { intros stats s Hg Hp. apply vals_hitpct_ext.
    - by rewrite setGraphVals_graphs.
    - by rewrite setGraphVals_prev_stats. }
  assert (Hfin : forall stats vals s,
            enabled_graphs s = enabled_graphs self -> graphs s = graphs self ->
            _prev_stats s = _prev_stats self -> graph_vals s = graph_vals self ->
            _stats s = match _stats self with None => None | Some _ => Some stats end ->
            calls s = calls self ++ match _stats self with None => [GetStats] | Some _ => [] end ->
            setGraphVals vals (setGraphVals (counter_vals safe_sum (saveState stats s) stats)
                                 (saveState stats s))
            = after_cycle safe_sum self stats vals).
  { intros stats vals s He Hg Hp Hv Hst Hc.
    apply plugin_eq; simpl;
      rewrite ?setGraphVals_enabled, ?setGraphVals_stats, ?setGraphVals_prev_stats,
        ?setGraphVals_graphs, ?setGraphVals_state_file, ?setGraphVals_calls; simpl;
      try done.
    - rewrite setGraphVals_app, (counter_vals_ext _ _ self) by done.
      by do 2 apply setGraphVals_vals_ext.
    - rewrite (counter_vals_ext _ _ self), Hc, map_app by done.
      by rewrite <- ?app_assoc. }
  unfold retrieveVals, current_stats.
  destruct (_stats self) as [kept|] eqn:Hs.
  - destruct (set_hits_misses kept) as [stats|e]; simpl; [|done].
    rewrite Hs, Hext by done.
    destruct (vals_hitpct self stats) as [vals|e]; simpl; [|done].
    unfold mret, result_ret. f_equal. apply Hfin; simpl; rewrite ?Hs, ?app_nil_r; done.
  - destruct server as [raw|]; [|done].
    destruct (set_hits_misses raw) as [stats|e]; simpl; [|done].
    rewrite Hs, Hext by done.
    destruct (vals_hitpct self stats) as [vals|e]; simpl; [|done].
    unfold mret, result_ret. f_equal. apply Hfin; simpl; rewrite ?Hs; done.
Qed.
(** ** The conversion of an integer to a float *)

Lemma digits2_pos_size (p : positive) : digits2_pos p = Pos.size p.
Proof. induction p as [p IH|p IH|]; simpl; by rewrite ?IH. Qed.

Lemma Zdigits2_log2 (m : Z) : (0 < m)%Z -> Zdigits2 m = (Z.log2 m + 1)%Z.
Proof.
  intros H. destruct m as [|p|p]; try lia. simpl. rewrite digits2_pos_size.
  destruct p as [p|p|]; simpl; lia.
Qed.

Lemma shr_1_m (mrs : shr_record) :
  (0 <= shr_m mrs)%Z -> shr_m (shr_1 mrs) = (shr_m mrs / 2)%Z.
Proof.
  destruct mrs as [m r s]. simpl. intros H. rewrite <- Z.div2_div.
  destruct m as [|[p|p|]|p]; try reflexivity. lia.
Qed.

Lemma iter_shr_1_m (p : positive) (mrs : shr_record) :
  (0 <= shr_m mrs)%Z ->
  shr_m (SpecFloat.iter_pos shr_1 p mrs) = (shr_m mrs / 2 ^ Z.pos p)%Z.
Proof.
  revert mrs. induction p as [p IH|p IH|]; intros mrs H; simpl.
  - assert (H1 : (0 <= shr_m (shr_1 mrs))%Z)
      by (rewrite shr_1_m by done; apply Z.div_pos; lia).
    assert (H2 : (0 <= shr_m (SpecFloat.iter_pos shr_1 p (shr_1 mrs)))%Z)
      by (rewrite IH by done; apply Z.div_pos; lia).
    rewrite IH, IH, shr_1_m by done.
    rewrite !Z.div_div by lia. f_equal.
    replace (Z.pos p~1) with (1 + Z.pos p + Z.pos p)%Z by lia.
    rewrite !Z.pow_add_r by lia. lia.
  - assert (H2 : (0 <= shr_m (SpecFloat.iter_pos shr_1 p mrs))%Z)
      by (rewrite IH by done; apply Z.div_pos; lia).
    rewrite IH, IH by done.
    rewrite !Z.div_div by lia. f_equal.
    replace (Z.pos p~0) with (Z.pos p + Z.pos p)%Z by lia.
    rewrite !Z.pow_add_r by lia. lia.
  - by apply shr_1_m.
Qed.

(** The shift of [shr_fexp]. *)
Lemma shr_fexp_m (m e : Z) (l : location) :
  (0 < m)%Z ->
  let n := (fexp 53 1024 (Zdigits2 m + e) - e)%Z in
  shr_fexp 53 1024 m e l
  = (fst (shr_fexp 53 1024 m e l), snd (shr_fexp 53 1024 m e l)) /\
  shr_m (fst (shr_fexp 53 1024 m e l)) = (m / 2 ^ Z.max 0 n)%Z /\
  snd (shr_fexp 53 1024 m e l) = (e + Z.max 0 n)%Z.
Proof.
  intros Hm n. split; [by destruct (shr_fexp _ _ _ _ _)|].
  unfold shr_fexp. fold n.
  assert (Hrec : shr_m (shr_record_of_loc m l) = m) by (by destruct l as [|[]]).
  unfold shr. destruct n as [|p|p]; simpl.
  - rewrite Hrec, Z.div_1_r. split; [done|lia].
  - rewrite iter_shr_1_m by (rewrite Hrec; lia). by rewrite Hrec.
  - rewrite Hrec, Z.div_1_r. split; [done|lia].
Qed.

(** A positive mantissa stays positive when it is shifted to its exponent. *)
Lemma shr_fexp_pos (m e : Z) (l : location) :
  (0 < m)%Z -> (-1074 < Zdigits2 m + e)%Z ->
  let m' := shr_m (fst (shr_fexp 53 1024 m e l)) in
  let e' := snd (shr_fexp 53 1024 m e l) in
  (0 < m' /\ Zdigits2 m' + e' = Zdigits2 m + e /\
   e' = Z.max e (fexp 53 1024 (Zdigits2 m + e)) /\ -1074 <= e')%Z.
Proof.
  intros Hm Hd m' e'.
  destruct (shr_fexp_m m e l Hm) as (_ & Hm' & He').
  fold m' in Hm'. fold e' in He'.
  set (n := (fexp 53 1024 (Zdigits2 m + e) - e)%Z) in *.
  pose proof (Z.log2_nonneg m) as Hlog0.
  pose proof (Zdigits2_log2 m Hm) as HD.
  assert (Hn : (Z.max 0 n <= Z.log2 m)%Z).
  { unfold n, fexp, emin. lia. }
  assert (Hpow : (2 ^ Z.max 0 n <= m)%Z).
  { etransitivity; [apply Z.pow_le_mono_r; [lia|exact Hn]|].
    by apply Z.log2_spec. }
  assert (Hpos : (0 < m')%Z).
  { rewrite Hm'. apply Z.div_str_pos. split; [apply Z.pow_pos_nonneg; lia|done]. }
  split; [done|].
  assert (Hlog : Z.log2 m' = (Z.log2 m - Z.max 0 n)%Z).
  { rewrite Hm', <- Z.shiftr_div_pow2, Z.log2_shiftr by lia. lia. }
  rewrite (Zdigits2_log2 m' Hpos), Hlog, He'.
  unfold n, fexp, emin. lia.
Qed.

Lemma round_nearest_even_bounds (m : Z) (l : location) :
  (m <= round_nearest_even m l <= m + 1)%Z.
Proof. destruct l as [|[]]; simpl; try lia. destruct (Z.even m); lia. Qed.

(** Rounding a positive mantissa gives a float of the same sign that is not
    zero, and a finite one when the exponent leaves room. *)
Lemma binary_round_aux_pos (sx : bool) (mx ex : Z) (lx : location) :
  (0 < mx)%Z -> (-1074 < Zdigits2 mx + ex)%Z ->
  (binary_round_aux 53 1024 sx mx ex lx = S754_infinity sx /\
   (971 < ex \/ 1023 < Zdigits2 mx + ex)%Z)
  \/ exists m e, binary_round_aux 53 1024 sx mx ex lx = S754_finite sx m e.
Proof.
  intros Hm Hd. unfold binary_round_aux.
  destruct (shr_fexp_m mx ex lx Hm) as (Heq & _).
  destruct (shr_fexp_pos mx ex lx Hm Hd) as (Hm1 & Hd1 & He1 & Hlow1).
  rewrite Heq.
  set (m1 := shr_m (fst (shr_fexp 53 1024 mx ex lx))) in *.
  set (e1 := snd (shr_fexp 53 1024 mx ex lx)) in *.
  set (r := round_nearest_even m1 (loc_of_shr_record (fst (shr_fexp 53 1024 mx ex lx)))).
  pose proof (round_nearest_even_bounds m1
                (loc_of_shr_record (fst (shr_fexp 53 1024 mx ex lx)))) as Hr.
  fold r in Hr.
  assert (Hr0 : (0 < r)%Z) by lia.
  assert (Hdr : (Zdigits2 m1 <= Zdigits2 r <= Zdigits2 m1 + 1)%Z).
  { rewrite (Zdigits2_log2 m1 Hm1), (Zdigits2_log2 r Hr0).
    pose proof (Z.log2_le_mono m1 r ltac:(lia)).
    pose proof (Z.log2_le_mono r (Z.succ m1) ltac:(lia)).
    pose proof (Z.log2_succ_le m1). lia. }
  pose proof (Zdigits2_log2 m1 Hm1) as HD1. pose proof (Z.log2_nonneg m1).
  assert (Hd2 : (-1074 < Zdigits2 r + e1)%Z) by lia.
  destruct (shr_fexp_m r e1 loc_Exact Hr0) as (Heq2 & _).
  destruct (shr_fexp_pos r e1 loc_Exact Hr0 Hd2) as (Hm2 & _ & He2 & _).
  rewrite Heq2.
  set (m2 := shr_m (fst (shr_fexp 53 1024 r e1 loc_Exact))) in *.
  set (e2 := snd (shr_fexp 53 1024 r e1 loc_Exact)) in *.
  destruct m2 as [|p|p]; try lia.
  change (1024 - 53)%Z with 971%Z.
  destruct (e2 <=? 971)%Z eqn:E; [right; eauto|].
  left. split; [done|]. apply Z.leb_gt in E.
  unfold fexp, emin in *. lia.
Qed.

Lemma digits2_pos_iter_xO (m d : positive) :
  Z.pos (digits2_pos (Pos.iter xO m d)) = (Z.pos (digits2_pos m) + Z.pos d)%Z.
Proof.
  revert m. induction d as [|d IH] using Pos.peano_ind; intros m.
  - simpl. lia.
  - rewrite Pos.iter_succ. cbn [digits2_pos]. rewrite !Pos2Z.inj_succ, IH. lia.
Qed.

Lemma binary_round_pos (sx : bool) (mx : positive) (ex : Z) :
  (-1074 < Z.pos (digits2_pos mx) + ex)%Z ->
  (binary_round 53 1024 sx mx ex = S754_infinity sx /\
   (971 < ex \/ 1023 < Z.pos (digits2_pos mx) + ex)%Z)
  \/ exists m e, binary_round 53 1024 sx mx ex = S754_finite sx m e.
Proof.
  intros Hd. unfold binary_round, shl_align.
  set (fe := fexp 53 1024 (Z.pos (digits2_pos mx) + ex)).
  destruct (fe - ex)%Z as [|d|d] eqn:E.
  - destruct (binary_round_aux_pos sx (Z.pos mx) ex loc_Exact) as [[-> H]|H];
      [lia|simpl; lia|left; split; [done|simpl in H; lia]|by right].
  - destruct (binary_round_aux_pos sx (Z.pos mx) ex loc_Exact) as [[-> H]|H];
      [lia|simpl; lia|left; split; [done|simpl in H; lia]|by right].
  - destruct (binary_round_aux_pos sx (Z.pos (Pos.iter xO mx d)) fe loc_Exact)
      as [[-> H]|H]; [lia|..].
    + simpl. rewrite digits2_pos_iter_xO. lia.
    + left. split; [done|]. simpl in H. rewrite digits2_pos_iter_xO in H.
      unfold fe, fexp, emin in *. lia.
    + by right.
Qed.

(** The float of an integer that is not zero has its sign and is not zero;
    it is finite below [2^1023]. *)
Lemma Z2F_shape (z : Z) :
  z <> 0%Z ->
  (Z2F z = S754_infinity (z <? 0)%Z /\ (2 ^ 1023 <= Z.abs z)%Z)
  \/ exists m e, Z2F z = S754_finite (z <? 0)%Z m e.
Proof.
  intros Hz. unfold Z2F, binary_normalize.
  assert (Hbig : forall p, (1023 < Z.pos (digits2_pos p) + 0)%Z -> (2 ^ 1023 <= Z.pos p)%Z).
  { intros p H. pose proof (Zdigits2_log2 (Z.pos p) ltac:(lia)) as HD.
    change (Zdigits2 (Z.pos p)) with (Z.pos (digits2_pos p)) in HD.
    etransitivity; [|apply (Z.log2_spec (Z.pos p)); lia].
    apply Z.pow_le_mono_r; lia. }
  destruct z as [|p|p]; [done|..].
  - destruct (binary_round_pos false p 0) as [[-> H]|H]; [lia| |by right].
    left. split; [done|]. destruct H as [H|H]; [lia|]. by apply Hbig.
  - destruct (binary_round_pos true p 0) as [[-> H]|H]; [lia| |by right].
    left. split; [done|]. destruct H as [H|H]; [lia|].
    change (Z.abs (Z.neg p)) with (Z.pos p). by apply Hbig.
Qed.

Lemma float_of_int_ok (z : Z) :
  (Z.abs z < 2 ^ 1023)%Z -> float_of_int z = Ok (Z2F z).
Proof.
  intros Hz. unfold float_of_int.
  destruct (Z.eq_dec z 0%Z) as [->|Hne]; [done|].
  destruct (Z2F_shape z Hne) as [[_ H]|(m & e & ->)]; [lia|done].
Qed.

(** A conversion that does not raise gives the nearest float. *)
Lemma float_of_int_Ok (z : Z) (f : spec_float) :
  float_of_int z = Ok f -> f = Z2F z.
Proof. unfold float_of_int. destruct (Z2F z); by intros [= <-]. Qed.

Lemma float_of_int_Raise (z : Z) (e : exn) :
  float_of_int z = Raise e -> e = OverflowError.
Proof. unfold float_of_int. destruct (Z2F z); by intros [= <-]. Qed.

Lemma Z2F_pos_not_zero (z : Z) : (0 < z)%Z -> is_zero (Z2F z) = false.
Proof.
  intros Hz. destruct (Z2F_shape z ltac:(lia)) as [[-> _]|(m & e & ->)]; done.
Qed.

(** ** Arithmetic on Python numbers *)

Lemma within_mono (n n' : Z) (v : pyval) :
  (0 <= n <= n')%Z -> within n v -> within n' v.
Proof.
  intros Hn. destruct v as [|z|f]; simpl; try done.
  intros H. eapply Z.lt_le_trans; [exact H|]. apply Z.pow_le_mono_r; lia.
Qed.

Lemma to_float_ok (n : Z) (v : pyval) :
  (0 <= n <= 1023)%Z -> v <> PNone -> within n v -> to_float v = Ok (as_float v).
Proof.
  intros Hn Hv Hw. destruct v as [|z|f]; simpl in *; [done| |done].
  apply float_of_int_ok. eapply Z.lt_le_trans; [exact Hw|].
  apply Z.pow_le_mono_r; lia.
Qed.

Lemma to_float_Ok (v : pyval) (f : spec_float) :
  to_float v = Ok f -> f = as_float v /\ v <> PNone.
Proof.
  destruct v as [|z|g]; simpl; [done| |by intros [= <-]].
  intros H. by apply float_of_int_Ok in H.
Qed.

Lemma to_float_Raise (v : pyval) (e : exn) :
  to_float v = Raise e -> e = TypeError \/ e = OverflowError.
Proof.
  destruct v as [|z|g]; simpl; [intros [= <-]; by left| |done].
  intros H. right. by apply float_of_int_Raise in H.
Qed.

(** A subtraction that does not raise is the difference of two numbers. *)
Lemma py_sub_Ok (a b v : pyval) :
  py_sub a b = Ok v -> v = num_sub a b /\ a <> PNone /\ b <> PNone /\ v <> PNone.
Proof.
  destruct a as [|x|x], b as [|y|y]; simpl; try done;
    try (intros [= <-]; done);
    repeat match goal with
    | |- context [float_of_int ?z] =>
        let E := fresh "E" in
        destruct (float_of_int z) eqn:E; simpl; [apply float_of_int_Ok in E; subst|done]
    end;
    by intros [= <-].
Qed.

Lemma py_add_Ok (a b v : pyval) :
  py_add a b = Ok v -> v = num_add a b /\ a <> PNone /\ b <> PNone /\ v <> PNone.
Proof.
  destruct a as [|x|x], b as [|y|y]; simpl; try done;
    try (intros [= <-]; done);
    repeat match goal with
    | |- context [float_of_int ?z] =>
        let E := fresh "E" in
        destruct (float_of_int z) eqn:E; simpl; [apply float_of_int_Ok in E; subst|done]
    end;
    by intros [= <-].
Qed.

Lemma py_gt0_Ok (v : pyval) (b : bool) : py_gt0 v = Ok b -> b = num_pos v.
Proof. destruct v; simpl; [done|by intros [= <-]..]. Qed.

Lemma py_percent_Ok (hits total v : pyval) :
  py_percent hits total = Ok v ->
  v = PFloat (SFdiv 53 1024 (SFmul 53 1024 f100 (as_float hits)) (as_float total)).
Proof.
  unfold py_percent.
  destruct (to_float hits) as [h|] eqn:Eh; simpl; [|done].
  destruct (to_float total) as [t|] eqn:Et; simpl; [|done].
  apply to_float_Ok in Eh as [-> _]. apply to_float_Ok in Et as [-> _].
  destruct (is_zero _); [done|]. by intros [= <-].
Qed.

(** On numbers whose integers are within [n] bits the operations do not
    raise. *)
Lemma py_sub_ok (n : Z) (a b : pyval) :
  (0 <= n <= 1022)%Z -> a <> PNone -> b <> PNone -> within n a -> within n b ->
  py_sub a b = Ok (num_sub a b) /\ within (n + 1) (num_sub a b) /\ num_sub a b <> PNone.
Proof.
  intros Hn Ha Hb Wa Wb.
  destruct a as [|x|x], b as [|y|y]; try done; simpl in *;
    rewrite ?float_of_int_ok
      by (eapply Z.lt_le_trans; [eassumption|apply Z.pow_le_mono_r; lia]);
    simpl; repeat split; try done.
  rewrite Z.pow_add_r by lia. lia.
Qed.

Lemma py_add_ok (n : Z) (a b : pyval) :
  (0 <= n <= 1022)%Z -> a <> PNone -> b <> PNone -> within n a -> within n b ->
  py_add a b = Ok (num_add a b) /\ within (n + 1) (num_add a b) /\ num_add a b <> PNone.
Proof.
  intros Hn Ha Hb Wa Wb.
  destruct a as [|x|x], b as [|y|y]; try done; simpl in *;
    rewrite ?float_of_int_ok
      by (eapply Z.lt_le_trans; [eassumption|apply Z.pow_le_mono_r; lia]);
    simpl; repeat split; try done.
  rewrite Z.pow_add_r by lia. lia.
Qed.

Lemma num_pos_not_zero (v : pyval) : num_pos v = true -> is_zero (as_float v) = false.
Proof.
  destruct v as [|z|f]; simpl; [done| |].
  - intros H. apply Z2F_pos_not_zero. by apply Z.ltb_lt.
  - by destruct f.
Qed.

Lemma py_percent_ok (n : Z) (hits total : pyval) :
  (0 <= n <= 1023)%Z -> hits <> PNone -> total <> PNone ->
  within n hits -> within n total -> num_pos total = true ->
  py_percent hits total
  = Ok (PFloat (SFdiv 53 1024 (SFmul 53 1024 f100 (as_float hits)) (as_float total))).
Proof.
  intros Hn Hh Ht Wh Wt Hpos. unfold py_percent.
  rewrite (to_float_ok n hits), (to_float_ok n total) by done. simpl.
  by rewrite (num_pos_not_zero total Hpos).
Qed.

(** On two integers the percentage is that of their quotient. *)
Lemma percentage_ints (hits misses : Z) :
  percentage (PInt hits) (PInt misses)
  = if (0 <? hits + misses)%Z
    then PFloat (round2 (SFdiv 53 1024 (SFmul 53 1024 f100 (Z2F hits))
                                        (Z2F (hits + misses))))
    else PInt 0.
Proof. reflexivity. Qed.

(** ** The percentage of a field of the hit percent graph *)

Lemma dict_in_true k (d : pydict) : dict_in k d = true <-> is_Some (d !! k).
Proof. unfold dict_in. apply bool_decide_eq_true. Qed.

Lemma dict_in_Some k (d : pydict) v : d !! k = Some v -> dict_in k d = true.
Proof. intros H. apply dict_in_true. eauto. Qed.

Lemma dict_item_Some k (d : pydict) v : d !! k = Some v -> dict_item d k = Ok v.
Proof. intros H. unfold dict_item. by rewrite H. Qed.

Lemma truthy_Some (d : pydict) k v : d !! k = Some v -> truthy (Some d) = true.
Proof.
  intros H. simpl. apply negb_true_iff, bool_decide_eq_false.
  intros ->. by rewrite lookup_empty in H.
Qed.

(** A turn of the loop that does not raise, on counters that are in the
    current and in the previous statistics: the counters are numbers, and the
    value is the percentage of their differences. *)
Lemma hitpct_field_value stats prev fname h m ch cm ph pm vals :
  stats !! h = Some ch -> stats !! m = Some cm ->
  prev !! h = Some ph -> prev !! m = Some pm ->
  hitpct_field stats (Some prev) (fname, h, m) = Ok vals ->
  (ch <> PNone /\ cm <> PNone /\ ph <> PNone /\ pm <> PNone) /\
  vals = [("memcached_hitpct", fname, percentage (num_sub ch ph) (num_sub cm pm))].
Proof.
  intros Hch Hcm Hph Hpm. unfold hitpct_field.
  rewrite (truthy_Some prev h ph) by done. simpl.
  rewrite !(dict_in_Some _ _ _ Hch), !(dict_in_Some _ _ _ Hcm),
    !(dict_in_Some _ _ _ Hph), !(dict_in_Some _ _ _ Hpm). simpl.
  rewrite (dict_item_Some _ _ _ Hch), (dict_item_Some _ _ _ Hph),
    (dict_item_Some _ _ _ Hcm), (dict_item_Some _ _ _ Hpm). simpl.
  destruct (py_sub ch ph) as [hits|] eqn:Eh; simpl; [|done].
  destruct (py_sub cm pm) as [misses|] eqn:Em; simpl; [|done].
  destruct (py_add hits misses) as [total|] eqn:Et; simpl; [|done].
  destruct (py_gt0 total) as [positive|] eqn:Ep; simpl; [|done].
  apply py_sub_Ok in Eh as (-> & Nch & Nph & _).
  apply py_sub_Ok in Em as (-> & Ncm & Npm & _).
  apply py_add_Ok in Et as (-> & _).
  apply py_gt0_Ok in Ep as ->.
  unfold percentage. cbv zeta.
  destruct (num_pos _) eqn:Hpos.
  - destruct (py_percent _ _) as [val|] eqn:Ev; simpl; [|done].
    apply py_percent_Ok in Ev as ->. simpl. by intros [= <-].
  - simpl. by intros [= <-].
Qed.

(** ** Well-formed statistics *)

Lemma dict_lookup l k v : dict l !! k = Some v -> exists z, v = PInt z /\ In (k, z) l.
Proof.
  unfold dict. induction l as [|[k' z] l IH]; simpl.
  - by rewrite lookup_empty.
  - destruct (decide (k' = k)) as [->|Hne].
    + rewrite lookup_insert_eq. intros [= <-]. eauto.
    + rewrite lookup_insert_ne by done. intros H.
      destruct (IH H) as (z' & -> & Hin). eauto.
Qed.

(** A dictionary of integers within 64 bits. *)
Lemma dict_numeric l :
  forallb (fun p => (Z.abs (snd p) <? 2 ^ 64)%Z) l = true -> numeric (dict l).
Proof.
  intros Hall k v H. apply dict_lookup in H as (z & -> & Hin).
  split; [done|]. rewrite forallb_forall in Hall.
  apply Hall in Hin. simpl in *. by apply Z.ltb_lt.
Qed.

Lemma numeric_saved_ok d : numeric d -> saved_ok d.
Proof.
  intros H k v Hk. destruct (H k v Hk) as [Hne Hw].
  split; [by apply (within_mono 64)|done].
Qed.

Lemma set_hits_misses_lookup raw stats k :
  set_hits_misses raw = Ok stats -> k <> "set_hits" -> k <> "set_misses" ->
  stats !! k = raw !! k.
Proof.
  unfold set_hits_misses.
  destruct (dict_in "cmd_set" _ && dict_in "total_items" _).
  - destruct (dict_item _ "cmd_set") as [a|]; simpl; [|done].
    destruct (dict_item _ "total_items") as [b|]; simpl; [|done].
    destruct (py_sub a b) as [v|]; simpl; [|done].
    intros [= <-] H1 H2. by rewrite !lookup_insert_ne.
  - intros [= <-] H1 H2. by rewrite !lookup_insert_ne.
Qed.

Lemma set_hits_misses_set_hits raw stats :
  set_hits_misses raw = Ok stats ->
  stats !! "set_hits" = Some (dict_get raw "total_items").
Proof.
  unfold set_hits_misses.
  destruct (dict_in "cmd_set" _ && dict_in "total_items" _).
  - destruct (dict_item _ "cmd_set") as [a|]; simpl; [|done].
    destruct (dict_item _ "total_items") as [b|]; simpl; [|done].
    destruct (py_sub a b) as [v|]; simpl; [|done].
    intros [= <-]. rewrite lookup_insert_ne by done. apply lookup_insert_eq.
  - intros [= <-]. apply lookup_insert_eq.
Qed.

(** The value of [set_misses] after lines 315 and 316. *)
Lemma set_hits_misses_set_misses raw stats :
  set_hits_misses raw = Ok stats ->
  match raw !! "cmd_set", raw !! "total_items" with
  | Some a, Some b => exists v, py_sub a b = Ok v /\ stats !! "set_misses" = Some v
  | _, _ => stats !! "set_misses" = raw !! "set_misses"
  end.
Proof.
  unfold set_hits_misses, dict_in, dict_item.
  rewrite !lookup_insert_ne by done.
  destruct (raw !! "cmd_set") as [a|], (raw !! "total_items") as [b|]; simpl;
    try (intros [= <-]; by rewrite lookup_insert_ne).
  rewrite ?bool_decide_eq_true_2 by eauto. simpl.
  destruct (py_sub a b) as [v|]; simpl; [|done].
  intros [= <-]. exists v. split; [done|]. apply lookup_insert_eq.
Qed.

Lemma set_hits_misses_reported raw :
  reported raw -> exists stats, set_hits_misses raw = Ok stats /\ saved_ok stats.
Proof.
  intros [Hnum Hset].
  assert (Hsub : forall a b, raw !! "cmd_set" = Some a -> raw !! "total_items" = Some b ->
            py_sub a b = Ok (num_sub a b) /\ within 65 (num_sub a b)
            /\ num_sub a b <> PNone).
  { intros a b Ha Hb. destruct (Hnum _ _ Ha) as [Na Wa], (Hnum _ _ Hb) as [Nb Wb].
    by apply (py_sub_ok 64). }
  assert (Hok : exists stats, set_hits_misses raw = Ok stats).
  { unfold set_hits_misses, dict_in, dict_item.
    rewrite !lookup_insert_ne by done.
    destruct (raw !! "cmd_set") as [a|] eqn:Ha, (raw !! "total_items") as [b|] eqn:Hb;
      simpl; rewrite ?bool_decide_eq_true_2 by eauto; simpl; eauto.
    destruct (Hsub a b eq_refl eq_refl) as (-> & _). simpl. eauto. }
  destruct Hok as [stats Hstats]. exists stats. split; [done|].
  intros k v Hk.
  pose proof (set_hits_misses_set_hits _ _ Hstats) as Hh.
  pose proof (set_hits_misses_set_misses _ _ Hstats) as Hm.
  destruct (decide (k = "set_hits")) as [->|Hk1].
  - rewrite Hh in Hk. injection Hk as <-. unfold dict_get.
    destruct (raw !! "total_items") as [b|] eqn:Hb; simpl.
    + destruct (Hnum _ _ Hb) as [Nb Wb]. split; [by apply (within_mono 64)|done].
    + split; [done|]. intros _. split; [done|].
      assert (Hm' : stats !! "set_misses" = raw !! "set_misses")
        by (by destruct (raw !! "cmd_set")).
      rewrite Hm'. destruct (raw !! "set_misses") eqn:E; [|done].
      destruct Hset as [? ?]; [eauto|done].
  - destruct (decide (k = "set_misses")) as [->|Hk2].
    + destruct (raw !! "cmd_set") as [a|] eqn:Ha, (raw !! "total_items") as [b|] eqn:Hb;
        try (rewrite Hm in Hk; destruct (Hnum _ _ Hk) as [Nv Wv];
             split; [by apply (within_mono 64)|done]).
      destruct Hm as (v' & Hv & Hm). rewrite Hm in Hk. injection Hk as <-.
      destruct (Hsub a b eq_refl eq_refl) as (Hv' & Hw & Hne).
      rewrite Hv' in Hv. injection Hv as <-. by split.
    + rewrite (set_hits_misses_lookup _ _ _ Hstats) in Hk by done.
      destruct (Hnum _ _ Hk) as [Nv Wv]. split; [by apply (within_mono 64)|done].
Qed.

(** ** The loop over the fields of the hit percent graph *)

Ltac case_bind :=
  match goal with
  | |- context [mbind _ ?m] =>
      let E := fresh "E" in destruct m eqn:E; simpl; try discriminate
  end.

(** One turn of the loop sets at most the field it is about. *)
Lemma hitpct_field_shape stats prev_stats fname h m vals :
  hitpct_field stats prev_stats (fname, h, m) = Ok vals ->
  vals = [] \/ exists v, vals = [("memcached_hitpct", fname, v)].
Proof.
  unfold hitpct_field.
  destruct (truthy prev_stats); [|intros [= <-]; by left].
  destruct (_ && _); [|intros [= <-]; by left].
  repeat case_bind. intros [= <-]. right. eauto.
Qed.

Lemma hitpct_field_written stats prev_stats fname h m vals f :
  hitpct_field stats prev_stats (fname, h, m) = Ok vals ->
  f <> fname -> written ("memcached_hitpct", f) vals = None.
Proof.
  intros H Hne. apply hitpct_field_shape in H as [->|[v ->]]; [done|].
  simpl. destruct (String.eqb fname f) eqn:E; [|done].
  apply String.eqb_eq in E. congruence.
Qed.

Lemma hitpct_field_no_prev stats fld : hitpct_field stats None fld = Ok [].
Proof. by destruct fld as [[fname h] m]. Qed.

(** With well-formed statistics no turn of the loop raises. *)
Lemma hitpct_field_ok stats prev_stats fld :
  In fld hitpct_fields -> saved_ok stats -> prev_ok prev_stats ->
  exists vals, hitpct_field stats prev_stats fld = Ok vals.
Proof.
  intros Hin Hstats Hprev.
  destruct prev_stats as [prev|]; [|rewrite hitpct_field_no_prev; eauto].
  specialize (Hprev prev eq_refl).
  destruct fld as [[fname h] m].
  destruct (truthy (Some prev)) eqn:Ht;
    [|unfold hitpct_field; rewrite Ht; eauto].
  destruct (dict_in h stats && dict_in h prev
            && dict_in m stats && dict_in m prev) eqn:Hg;
    [|unfold hitpct_field; rewrite Ht; simpl; rewrite Hg; eauto].
  unfold hitpct_field. rewrite Ht. simpl. rewrite Hg.
  rewrite !andb_true_iff, !dict_in_true in Hg.
  destruct Hg as [[[[ch Hch] [ph Hph]] [cm Hcm]] [pm Hpm]].
  assert (Hnum : ch <> PNone /\ ph <> PNone /\ cm <> PNone /\ pm <> PNone).
  { repeat split; intros ->;
      match goal with
      | H : ?d !! ?k = Some PNone, Hd : saved_ok ?d |- _ =>
          destruct (proj2 (Hd _ _ H) eq_refl) as [Heq Hnone]
      end;
      simpl in Hin; intuition (simplify_eq; congruence). }
  destruct Hnum as (Nch & Nph & Ncm & Npm).
  pose proof (proj1 (Hstats _ _ Hch)) as Wch. pose proof (proj1 (Hstats _ _ Hcm)) as Wcm.
  pose proof (proj1 (Hprev _ _ Hph)) as Wph. pose proof (proj1 (Hprev _ _ Hpm)) as Wpm.
  rewrite (dict_item_Some _ _ _ Hch), (dict_item_Some _ _ _ Hph),
    (dict_item_Some _ _ _ Hcm), (dict_item_Some _ _ _ Hpm). simpl.
  destruct (py_sub_ok 65 ch ph) as (-> & Wh & Nh); try done. simpl.
  destruct (py_sub_ok 65 cm pm) as (-> & Wm & Nm); try done. simpl.
  destruct (py_add_ok 66 (num_sub ch ph) (num_sub cm pm)) as (-> & Wt & Nt); try done.
  simpl.
  set (hits := num_sub ch ph) in *. set (total := num_add hits (num_sub cm pm)) in *.
  assert (Hgt : py_gt0 total = Ok (num_pos total)) by (by destruct total).
  rewrite Hgt. simpl.
  destruct (num_pos total) eqn:Hpos; simpl; [|eauto].
  rewrite (py_percent_ok 67 hits total); try done.
  - simpl. eauto.
  - by apply (within_mono 66).
Qed.

Arguments hitpct_field : simpl never.

Lemma vals_hitpct_no_prev self stats :
  _prev_stats self = None -> vals_hitpct self stats = Ok [].
Proof.
  intros H. unfold vals_hitpct. rewrite H. by destruct (hasGraph self _).
Qed.

Lemma vals_hitpct_ok self stats :
  saved_ok stats -> prev_ok (_prev_stats self) ->
  exists vals, vals_hitpct self stats = Ok vals.
Proof.
  intros Hstats Hprev. unfold vals_hitpct.
  destruct (hasGraph self _); [|eauto].
  unfold hitpct_fields. simpl.
  repeat match goal with
  | |- context [hitpct_field stats (_prev_stats self) ?fld] =>
      let vals := fresh "vals" in
      let E := fresh "E" in
      destruct (hitpct_field_ok stats (_prev_stats self) fld) as [vals E];
        [unfold hitpct_fields; simpl; tauto | done | done |];
      rewrite E; simpl
  end.
  eauto.
Qed.

(** The value that the loop gives to a field is the one its turn gives. *)
Lemma vals_hitpct_written self stats vals fname h m turn :
  hasGraph self "memcached_hitpct" = true ->
  vals_hitpct self stats = Ok vals ->
  In (fname, h, m) hitpct_fields ->
  hitpct_field stats (_prev_stats self) (fname, h, m) = Ok turn ->
  written ("memcached_hitpct", fname) vals = written ("memcached_hitpct", fname) turn.
Proof.
  intros Hg Hvals Hin Hturn. unfold vals_hitpct in Hvals. rewrite Hg in Hvals.
  unfold hitpct_fields in Hvals. simpl in Hvals.
  repeat match type of Hvals with
  | context [hitpct_field stats (_prev_stats self) ?fld] =>
      let r := fresh "r" in
      let E := fresh "E" in
      destruct (hitpct_field stats (_prev_stats self) fld) as [r|] eqn:E;
        simpl in Hvals; [|discriminate]
  end.
  injection Hvals as <-.
  rewrite !written_app. simpl.
  assert (Hother : forall n h' m' vs,
            hitpct_field stats (_prev_stats self) (n, h', m') = Ok vs ->
            n <> fname -> written ("memcached_hitpct", fname) vs = None).
  { intros n h' m' vs Hr Hne. eapply hitpct_field_written; eauto. }
  unfold hitpct_fields in Hin. simpl in Hin.
  destruct Hin as [Hin|[Hin|[Hin|[Hin|[Hin|[Hin|[]]]]]]];
    injection Hin as <- <- <-;
    repeat match goal with
    | H : hitpct_field _ _ (?n, _, _) = Ok ?r |- _ =>
        first [ rewrite (Hother _ _ _ _ H) by discriminate; clear H
              | rewrite H in Hturn; injection Hturn as <-; clear H ]
    end;
    by destruct (written _ _).
Qed.

(** When the loop does not raise, none of its turns does. *)
Lemma vals_hitpct_turn self stats vals fld :
  hasGraph self "memcached_hitpct" = true ->
  vals_hitpct self stats = Ok vals ->
  In fld hitpct_fields ->
  exists turn, hitpct_field stats (_prev_stats self) fld = Ok turn.
Proof.
  intros Hg Hvals Hin. unfold vals_hitpct in Hvals. rewrite Hg in Hvals.
  unfold hitpct_fields in Hvals. simpl in Hvals.
  repeat match type of Hvals with
  | context [hitpct_field stats (_prev_stats self) ?fld] =>
      let r := fresh "r" in
      let E := fresh "E" in
      destruct (hitpct_field stats (_prev_stats self) fld) as [r|] eqn:E;
        simpl in Hvals; [|discriminate]
  end.
  unfold hitpct_fields in Hin. simpl in Hin.
  destruct Hin as [Hin|[Hin|[Hin|[Hin|[Hin|[Hin|[]]]]]]]; subst fld; eauto.
Qed.

(** ** The values of the counter graphs *)

Lemma if_same {A} (c : bool) (x : A) : (if c then x else x) = x.
Proof. by destruct c. Qed.

Ltac unfold_counter_vals :=
  unfold counter_vals, vals_connections, vals_items, vals_memory,
    vals_connrate, vals_traffic, vals_reqrate, vals_statget, vals_statset,
    vals_statdel, vals_statcas, vals_statincrdecr, vals_statevict, vals_statauth.

Ltac written_simpl :=
  repeat (rewrite ?written_app, ?written_if; simpl; rewrite ?if_same).

(** Lines 318 to 416 set no field of the hit percent graph. *)
Lemma counter_vals_hitpct safe_sum self stats f :
  written ("memcached_hitpct", f) (counter_vals safe_sum self stats) = None.
Proof. unfold_counter_vals. by written_simpl. Qed.
(** ** Cycles on well-formed statistics *)

(** A cycle on what a server reports, with a previous state that an earlier
    cycle saved, does not raise. *)
Lemma retrieveVals_ok safe_sum self server raw :
  current_stats self server = Some raw -> reported raw -> prev_ok (_prev_stats self) ->
  exists stats vals,
    set_hits_misses raw = Ok stats /\ saved_ok stats /\
    vals_hitpct self stats = Ok vals /\
    retrieveVals safe_sum server self = Ok (after_cycle safe_sum self stats vals).
Proof.
  intros Hcur Hraw Hprev.
  destruct (set_hits_misses_reported raw Hraw) as (stats & Hstats & Hok).
  destruct (vals_hitpct_ok self stats Hok Hprev) as [vals Hvals].
  exists stats, vals. split; [done|]. split; [done|]. split; [done|].
  rewrite retrieveVals_eq, Hcur, Hstats. simpl. by rewrite Hvals.
Qed.

Lemma retrieveVals_inv safe_sum server self self' :
  retrieveVals safe_sum server self = Ok self' ->
  exists raw stats vals,
    current_stats self server = Some raw /\
    set_hits_misses raw = Ok stats /\
    vals_hitpct self stats = Ok vals /\
    self' = after_cycle safe_sum self stats vals.
Proof.
  intros Hrun. rewrite retrieveVals_eq in Hrun.
  destruct (current_stats self server) as [raw|]; [|done].
  destruct (set_hits_misses raw) as [stats|] eqn:Hstats; simpl in Hrun; [|done].
  destruct (vals_hitpct self stats) as [vals|] eqn:Hvals; simpl in Hrun; [|done].
  injection Hrun as <-. by exists raw, stats, vals.
Qed.

Lemma ended_Ok r : is_ok r = true -> r = Ok (ended r).
Proof. by destruct r. Qed.

Lemma after_cycle_hitpct safe_sum self stats vals fname h m turn :
  hasGraph self "memcached_hitpct" = true ->
  vals_hitpct self stats = Ok vals ->
  In (fname, h, m) hitpct_fields ->
  hitpct_field stats (_prev_stats self) (fname, h, m) = Ok turn ->
  graph_vals (after_cycle safe_sum self stats vals) !! ("memcached_hitpct", fname)
  = match written ("memcached_hitpct", fname) turn with
    | Some v => Some v
    | None => graph_vals self !! ("memcached_hitpct", fname)
    end.
Proof.
  intros Hg Hvals Hin Hturn. unfold after_cycle. cbn [graph_vals].
  rewrite setGraphVals_lookup, written_app, counter_vals_hitpct.
  rewrite (vals_hitpct_written self stats vals fname h m turn) by done.
  by destruct (written _ turn).
Qed.

(** The value of a field of the hit percent graph after a cycle. *)
Lemma after_cycle_percentage safe_sum self stats vals prev fname h m ch cm ph pm :
  hasGraph self "memcached_hitpct" = true ->
  vals_hitpct self stats = Ok vals ->
  _prev_stats self = Some prev ->
  In (fname, h, m) hitpct_fields ->
  stats !! h = Some ch -> stats !! m = Some cm ->
  prev !! h = Some ph -> prev !! m = Some pm ->
  (ch <> PNone /\ cm <> PNone /\ ph <> PNone /\ pm <> PNone) /\
  graph_vals (after_cycle safe_sum self stats vals) !! ("memcached_hitpct", fname)
  = Some (percentage (num_sub ch ph) (num_sub cm pm)).
Proof.
  intros Hg Hvals Hprev Hin Hch Hcm Hph Hpm.
  destruct (vals_hitpct_turn self stats vals _ Hg Hvals Hin) as [turn Hturn].
  pose proof Hturn as Hturn'. rewrite Hprev in Hturn'.
  destruct (hitpct_field_value _ _ _ _ _ _ _ _ _ _ Hch Hcm Hph Hpm Hturn')
    as [Hnum ->].
  split; [done|].
  rewrite (after_cycle_hitpct _ _ _ _ _ h m _ Hg Hvals Hin Hturn).
  simpl. by rewrite !String.eqb_refl.
Qed.

(** Without the hit percent graph, or without a previous state, a cycle sets
    no field of the hit percent graph. *)
Lemma after_cycle_no_hitpct safe_sum self stats vals fname :
  hasGraph self "memcached_hitpct" = false \/ _prev_stats self = None ->
  vals_hitpct self stats = Ok vals ->
  graph_vals (after_cycle safe_sum self stats vals) !! ("memcached_hitpct", fname)
  = graph_vals self !! ("memcached_hitpct", fname).
Proof.
  intros Hno Hvals.
  assert (Hnil : vals = []).
  { destruct Hno as [Hg|Hp].
    - unfold vals_hitpct in Hvals. rewrite Hg in Hvals. by injection Hvals as <-.
    - rewrite (vals_hitpct_no_prev self stats Hp) in Hvals. by injection Hvals as <-. }
  subst vals. unfold after_cycle. cbn [graph_vals].
  by rewrite app_nil_r, setGraphVals_lookup, counter_vals_hitpct.
Qed.

(** ** The fields of the hit percent graph after a cycle *)

(** C1, as stated, fails: in the invocation that restores
    [{get_hits: 10, get_misses: 5}] and gets [{get_hits: 25, get_misses: 10}]
    from the server, the field [get] of the hit percent graph has no value,
    not 75.0: the graph is built only when [cmd_set] and [cmd_get] are in
    the statistics that [__init__] builds from. *)
Lemma hitpct_needs_graph :
  let prev := dict [("get_hits", 10%Z); ("get_misses", 5%Z)] in
  let cur := dict [("get_hits", 25%Z); ("get_misses", 10%Z)] in
  exists self',
    invocation safe_sum_spec all_graphs (Some prev) (Some cur) = Ok self' /\
    hasGraph self' "memcached_hitpct" = false /\
    graph_vals self' !! ("memcached_hitpct", "get") = None.
Proof.
  intros prev cur.
  exists (ended (invocation safe_sum_spec all_graphs (Some prev) (Some cur))).
  split; [apply ended_Ok; vm_compute; reflexivity|].
  split; vm_compute; reflexivity.
Qed.

(** C1, amended.  Percentage derivation.  In a cycle of a plugin that has
    the hit percent graph: for every field of the graph whose hit counter
    and miss counter are in the current and in the previous statistics, the
    counters are numbers and, with [hits] and [misses] the differences of
    the current and the previous counters and [total] their sum, the value
    of the field is [round(100.0 * hits / total, 2)], in float arithmetic,
    when [total > 0], and [0] when it is not, as when [total = 0].  When the
    plugin has no hit percent graph, or when there is no previous state, the
    cycle sets no field of the graph.  The cycle does not raise on
    statistics that a server reports, with a previous state that an earlier
    cycle saved. *)
Theorem hitpct_derivation safe_sum self server raw :
  current_stats self server = Some raw ->
  (reported raw -> prev_ok (_prev_stats self) ->
   is_ok (retrieveVals safe_sum server self) = true) /\
  forall self',
    retrieveVals safe_sum server self = Ok self' ->
    exists stats,
      set_hits_misses raw = Ok stats /\
      (hasGraph self "memcached_hitpct" = true ->
       forall prev fname h m ch cm ph pm,
         _prev_stats self = Some prev ->
         In (fname, h, m) hitpct_fields ->
         stats !! h = Some ch -> stats !! m = Some cm ->
         prev !! h = Some ph -> prev !! m = Some pm ->
         let hits := num_sub ch ph in
         let misses := num_sub cm pm in
         let total := num_add hits misses in
         (ch <> PNone /\ cm <> PNone /\ ph <> PNone /\ pm <> PNone) /\
         (num_pos total = true ->
          graph_vals self' !! ("memcached_hitpct", fname)
          = Some (PFloat (round2 (SFdiv 53 1024 (SFmul 53 1024 f100 (as_float hits))
                                                 (as_float total))))) /\
         (num_pos total = false ->
          graph_vals self' !! ("memcached_hitpct", fname) = Some (PInt 0))) /\
      (hasGraph self "memcached_hitpct" = false \/ _prev_stats self = None ->
       forall fname,
         graph_vals self !! ("memcached_hitpct", fname) = None ->
         field_value self' "memcached_hitpct" fname = None).
Proof.
  intros Hcur. split.
  - intros Hraw Hprev.
    destruct (retrieveVals_ok safe_sum self server raw Hcur Hraw Hprev)
      as (stats & vals & _ & _ & _ & ->).
    done.
  - intros self' Hrun.
    destruct (retrieveVals_inv _ _ _ _ Hrun) as (raw' & stats & vals & Hcur' & Hstats & Hvals & ->).
    rewrite Hcur in Hcur'. injection Hcur' as <-.
    exists stats. split; [done|]. split.
    + intros Hg prev fname h m ch cm ph pm Hp Hin Hch Hcm Hph Hpm hits misses total.
      destruct (after_cycle_percentage safe_sum self stats vals prev fname h m
                  ch cm ph pm) as [Hnum ->]; try done.
      split; [done|]. unfold percentage. fold hits misses. cbv zeta. fold total.
      split; intros ->; reflexivity.
    + intros Hno fname Hfresh. unfold field_value.
      by rewrite (after_cycle_no_hitpct _ _ _ _ _ Hno Hvals), Hfresh.
Qed.

(** The plugin is built from the previous statistics, which have [cmd_set]
    and [cmd_get]: previous [{get_hits: 10, get_misses: 5}] and current
    [{get_hits: 25, get_misses: 10}] give 75.0 for the field [get]. *)
Lemma hitpct_derivation_witness :
  let prev := dict [("cmd_set", 1%Z); ("cmd_get", 1%Z);
                    ("get_hits", 10%Z); ("get_misses", 5%Z)] in
  let cur := dict [("cmd_set", 1%Z); ("cmd_get", 1%Z);
                   ("get_hits", 25%Z); ("get_misses", 10%Z)] in
  exists self',
    retrieveVals safe_sum_spec (Some cur) (built all_graphs (Some prev) None) = Ok self' /\
    graph_vals self' !! ("memcached_hitpct", "get") = Some (PFloat (Z2F 75)).
Proof.
  intros prev cur.
  pose proof (eq_refl : hasGraph (built all_graphs (Some prev) None) "memcached_hitpct"
                        = true) as Hg.
  pose proof (eq_refl : _prev_stats (built all_graphs (Some prev) None) = Some prev) as Hp.
  assert (Hrep : reported cur).
  { split; [by apply dict_numeric|].
    intros [v Hv]. vm_compute in Hv. discriminate. }
  destruct (set_hits_misses_reported cur Hrep) as (stats0 & Hstats0 & _).
  set (self := built all_graphs (Some prev) None) in *.
  destruct (hitpct_derivation safe_sum_spec self (Some cur) cur eq_refl) as [Hok Hvals].
  assert (Hrun : is_ok (retrieveVals safe_sum_spec (Some cur) self) = true).
  { apply Hok; [done|]. rewrite Hp. intros p [= <-].
    by apply numeric_saved_ok, dict_numeric. }
  apply ended_Ok in Hrun.
  set (self' := ended (retrieveVals safe_sum_spec (Some cur) self)) in *.
  clearbody self'. clearbody self.
  destruct (Hvals self' Hrun) as (stats & Hstats & Hval & _).
  exists self'. split; [exact Hrun|].
  destruct (Hval Hg prev "get" "get_hits" "get_misses"
              (PInt 25) (PInt 10) (PInt 10) (PInt 5) Hp)
    as (_ & Hpos & _);
    rewrite ?(set_hits_misses_lookup _ _ _ Hstats) by discriminate;
    try (vm_compute; reflexivity).
  - right; left; reflexivity.
  - rewrite Hpos by reflexivity. reflexivity.
Defined.

(** C4. Counter resets.  When a current counter of a field of the hit
    percent graph is below the previous one, the negative difference goes
    into the percentage as it is: the value of the field is the percentage of
    the signed differences, and it is the same in every cycle on the same
    pair of current and previous statistics.  The cycle does not raise on
    statistics that a server reports, with a previous state that an earlier
    cycle saved. *)
Theorem hitpct_counter_reset safe_sum self server raw stats prev fname h m
    (ch cm ph pm : Z) :
  hasGraph self "memcached_hitpct" = true ->
  current_stats self server = Some raw ->
  set_hits_misses raw = Ok stats ->
  _prev_stats self = Some prev ->
  In (fname, h, m) hitpct_fields ->
  stats !! h = Some (PInt ch) -> stats !! m = Some (PInt cm) ->
  prev !! h = Some (PInt ph) -> prev !! m = Some (PInt pm) ->
  (ch < ph \/ cm < pm)%Z ->
  let hits := (ch - ph)%Z in
  let misses := (cm - pm)%Z in
  let total := (hits + misses)%Z in
  (reported raw -> saved_ok prev ->
   is_ok (retrieveVals safe_sum server self) = true) /\
  forall self',
    retrieveVals safe_sum server self = Ok self' ->
    graph_vals self' !! ("memcached_hitpct", fname)
    = Some (if (0 <? total)%Z
            then PFloat (round2 (SFdiv 53 1024 (SFmul 53 1024 f100 (Z2F hits))
                                                (Z2F total)))
            else PInt 0) /\
    forall safe_sum2 self2 server2 self2',
      hasGraph self2 "memcached_hitpct" = true ->
      current_stats self2 server2 = Some raw ->
      _prev_stats self2 = Some prev ->
      retrieveVals safe_sum2 server2 self2 = Ok self2' ->
      graph_vals self2' !! ("memcached_hitpct", fname)
      = graph_vals self' !! ("memcached_hitpct", fname).
Proof.
  intros Hg Hcur Hstats Hprev Hin Hch Hcm Hph Hpm _ hits misses total.
  assert (Hany : forall ss s srv s',
            hasGraph s "memcached_hitpct" = true ->
            current_stats s srv = Some raw -> _prev_stats s = Some prev ->
            retrieveVals ss srv s = Ok s' ->
            graph_vals s' !! ("memcached_hitpct", fname)
            = Some (if (0 <? total)%Z
                    then PFloat (round2 (SFdiv 53 1024 (SFmul 53 1024 f100 (Z2F hits))
                                                        (Z2F total)))
                    else PInt 0)).
  { intros ss s srv s' Hg' Hcur' Hprev' Hrun.
    destruct (retrieveVals_inv _ _ _ _ Hrun)
      as (raw' & stats' & vals & Hcur'' & Hstats' & Hvals & ->).
    rewrite Hcur' in Hcur''. injection Hcur'' as <-.
    rewrite Hstats in Hstats'. injection Hstats' as <-.
    destruct (after_cycle_percentage ss s stats vals prev fname h m
                (PInt ch) (PInt cm) (PInt ph) (PInt pm)) as [_ ->]; try done. }
  split.
  - intros Hraw Hok.
    destruct (retrieveVals_ok safe_sum self server raw Hcur Hraw)
      as (stats' & vals & _ & _ & _ & ->); [|done].
    intros p Hp. rewrite Hprev in Hp. by injection Hp as <-.
  - intros self' Hrun. split; [by apply (Hany safe_sum self server)|].
    intros ss2 self2 server2 self2' Hg2 Hcur2 Hprev2 Hrun2.
    by rewrite (Hany ss2 self2 server2 self2'), (Hany safe_sum self server self').
Qed.

(** The plugin is built from the previous statistics.  A reset of
    [get_hits] from 10 to 9, with 4001 new misses: [hits] is -1 and [total]
    is 4000, the float [100.0 * -1 / 4000] is below -0.025 and the value is
    -0.03. *)
Lemma hitpct_counter_reset_witness :
  let prev := dict [("cmd_set", 1%Z); ("cmd_get", 1%Z);
                    ("get_hits", 10%Z); ("get_misses", 0%Z)] in
  let cur := dict [("cmd_set", 1%Z); ("cmd_get", 1%Z);
                   ("get_hits", 9%Z); ("get_misses", 4001%Z)] in
  exists self',
    retrieveVals safe_sum_spec (Some cur) (built all_graphs (Some prev) None) = Ok self' /\
    graph_vals self' !! ("memcached_hitpct", "get") = Some (PFloat (decimal2 true 3)).
Proof.
  intros prev cur.
  pose proof (eq_refl : hasGraph (built all_graphs (Some prev) None) "memcached_hitpct"
                        = true) as Hg.
  pose proof (eq_refl : _prev_stats (built all_graphs (Some prev) None) = Some prev) as Hp.
  assert (Hrep : reported cur).
  { split; [by apply dict_numeric|].
    intros [v Hv]. vm_compute in Hv. discriminate. }
  assert (Hsaved : saved_ok prev) by (by apply numeric_saved_ok, dict_numeric).
  destruct (set_hits_misses_reported cur Hrep) as (stats & Hstats & _).
  set (self := built all_graphs (Some prev) None) in *.
  destruct (hitpct_counter_reset safe_sum_spec self (Some cur) cur stats
              prev "get" "get_hits" "get_misses" 9 4001 10 0 Hg eq_refl Hstats Hp)
    as (Hok & Hval);
    rewrite ?(set_hits_misses_lookup _ _ _ Hstats) by discriminate;
    try (vm_compute; reflexivity).
  - right; left; reflexivity.
  - left. lia.
  - specialize (Hok Hrep Hsaved).
    apply ended_Ok in Hok.
    set (self' := ended (retrieveVals safe_sum_spec (Some cur) self)) in *.
    clearbody self'.
    exists self'. split; [exact Hok|]. exact (proj1 (Hval self' Hok)).
Defined.
(** ** Fields of the counter graphs after a cycle *)

Lemma vals_hitpct_graph self stats vals g f :
  vals_hitpct self stats = Ok vals -> g <> "memcached_hitpct" ->
  written (g, f) vals = None.
Proof.
  intros Hvals Hne.
  assert (Hturn : forall fld r,
            hitpct_field stats (_prev_stats self) fld = Ok r -> written (g, f) r = None).
  { intros [[n h] m] r Hr. apply hitpct_field_shape in Hr as [->|[v ->]]; [done|].
    cbn [written fst snd].
    destruct (String.eqb "memcached_hitpct" g) eqn:E; [|done].
    apply String.eqb_eq in E. congruence. }
  unfold vals_hitpct in Hvals.
  destruct (hasGraph self _); [|by inversion Hvals].
  unfold hitpct_fields in Hvals. simpl in Hvals.
  repeat match type of Hvals with
  | context [hitpct_field stats (_prev_stats self) ?fld] =>
      let r := fresh "r" in
      let E := fresh "E" in
      destruct (hitpct_field stats (_prev_stats self) fld) as [r|] eqn:E;
        simpl in Hvals; [apply Hturn in E|discriminate]
  end.
  injection Hvals as <-. rewrite !written_app. simpl.
  repeat match goal with H : written _ _ = None |- _ => rewrite H; clear H end.
  done.
Qed.

Lemma after_cycle_counter safe_sum self stats vals g f :
  vals_hitpct self stats = Ok vals -> g <> "memcached_hitpct" ->
  graph_vals (after_cycle safe_sum self stats vals) !! (g, f)
  = match written (g, f) (counter_vals safe_sum self stats) with
    | Some v => Some v
    | None => graph_vals self !! (g, f)
    end.
Proof.
  intros Hvals Hne. unfold after_cycle. cbn [graph_vals].
  by rewrite setGraphVals_lookup, written_app, (vals_hitpct_graph self stats vals g f).
Qed.

Lemma counter_vals_combined safe_sum self stats g f ks :
  In (g, f, ks) combined_fields ->
  hasGraph self g = true -> graphHasField self g f = true ->
  written (g, f) (counter_vals safe_sum self stats)
  = Some (safe_sum (map (dict_get stats) ks)).
Proof.
  intros Hin Hg Hf. unfold combined_fields in Hin. simpl in Hin.
  destruct Hin as [Hin|[Hin|[Hin|[Hin|[Hin|[Hin|[Hin|[Hin|[Hin|[]]]]]]]]]];
    injection Hin as <- <- <-;
    unfold_counter_vals; rewrite ?Hg, ?Hf; by written_simpl.
Qed.

(** ** Sums of counters *)

Lemma safe_sum_spec_absent seq :
  Forall (fun v => v = PNone) seq -> safe_sum_spec seq = PNone.
Proof.
  intros H. unfold safe_sum_spec.
  rewrite (proj2 (forallb_forall _ seq)); [done|].
  intros v Hv. rewrite Forall_forall in H. rewrite (H v); [done|].
  by apply list_elem_of_In.
Qed.

Lemma safe_sum_spec_present seq :
  Exists (fun v => v <> PNone) seq -> Forall int_or_absent seq ->
  safe_sum_spec seq = PInt (sum_Z (map int_or_zero seq)).
Proof.
  intros Hex Hint. unfold safe_sum_spec.
  assert (Hb : forallb (fun v => match v with PNone => true | _ => false end) seq = false).
  { apply not_true_is_false. intros Hall. rewrite forallb_forall in Hall.
    apply Exists_exists in Hex as (v & Hv & Hne).
    apply list_elem_of_In, Hall in Hv. by destruct v. }
  rewrite Hb. clear Hb Hex.
  assert (Hgen : forall acc,
            fold_left (fun acc v =>
                         match v with
                         | PNone => acc
                         | _ => match py_add acc v with Ok r => r | Raise _ => acc end
                         end) seq (PInt acc)
            = PInt (acc + sum_Z (map int_or_zero seq))).
  { induction Hint as [|v seq Hv Hint IH]; intros acc; simpl.
    - f_equal. lia.
    - destruct v as [|z|q]; simpl in *; [| |done].
      + rewrite IH. f_equal.
      + rewrite IH. f_equal. unfold sum_Z. lia. }
  by rewrite Hgen.
Qed.

(** C2. Combined sums.  With [safe_sum] as the specification describes it,
    in a cycle of a plugin that has the field, the value of each of the
    fields [del], [cas], [incr], [decr] of the request rate graph and of each
    [total] field is absent when every counter of the list of the field is
    absent from the current statistics, and otherwise the sum of the
    counters that are present, an absent one counting as 0.  The cycle does
    not raise on statistics that a server reports, with a previous state
    that an earlier cycle saved. *)
Theorem combined_sum self server raw g f ks :
  In (g, f, ks) combined_fields ->
  hasGraph self g = true -> graphHasField self g f = true ->
  current_stats self server = Some raw ->
  (reported raw -> prev_ok (_prev_stats self) ->
   is_ok (retrieveVals safe_sum_spec server self) = true) /\
  forall self',
    retrieveVals safe_sum_spec server self = Ok self' ->
    exists stats,
      set_hits_misses raw = Ok stats /\
      (Forall (fun k => dict_get stats k = PNone) ks ->
       field_value self' g f = None) /\
      (Exists (fun k => dict_get stats k <> PNone) ks ->
       Forall (fun k => int_or_absent (dict_get stats k)) ks ->
       graph_vals self' !! (g, f)
       = Some (PInt (sum_Z (map (fun k => int_or_zero (dict_get stats k)) ks)))).
Proof.
  intros Hin Hg Hf Hcur. split.
  - intros Hraw Hprev.
    destruct (retrieveVals_ok safe_sum_spec self server raw Hcur Hraw Hprev)
      as (stats & vals & _ & _ & _ & ->).
    done.
  - intros self' Hrun.
    destruct (retrieveVals_inv _ _ _ _ Hrun)
      as (raw' & stats & vals & Hcur' & Hstats & Hvals & ->).
    rewrite Hcur in Hcur'. injection Hcur' as <-.
    exists stats. split; [done|].
    assert (Hne : g <> "memcached_hitpct").
    { unfold combined_fields in Hin. simpl in Hin.
      intuition (simplify_eq; discriminate). }
    assert (Hval : graph_vals (after_cycle safe_sum_spec self stats vals) !! (g, f)
                   = Some (safe_sum_spec (map (dict_get stats) ks))).
    { rewrite after_cycle_counter by done.
      by rewrite (counter_vals_combined _ _ _ _ _ ks). }
    split.
    + intros Habs. unfold field_value. rewrite Hval.
      rewrite safe_sum_spec_absent; [done|]. by rewrite Forall_map.
    + intros Hex Hint. rewrite Hval. f_equal.
      rewrite safe_sum_spec_present.
      * by rewrite map_map.
      * by rewrite Exists_map.
      * by rewrite Forall_map.
Qed.

Lemma built_prev_stats enabled state server :
  _prev_stats (built enabled state server) = state.
Proof.
  unfold built, __init__. simpl.
  destruct state as [prev|]; simpl; [done|]. by destruct server.
Qed.

(** [incr_hits] absent and [incr_misses = 5]: the field [incr] of the
    request rate graph is 5. *)
Lemma combined_sum_witness :
  let prev := dict [("cmd_set", 1%Z); ("cmd_get", 1%Z); ("incr_hits", 2%Z)] in
  let cur := dict [("cmd_set", 1%Z); ("cmd_get", 1%Z); ("incr_misses", 5%Z)] in
  exists self',
    retrieveVals safe_sum_spec (Some cur) (built all_graphs (Some prev) None) = Ok self' /\
    graph_vals self' !! ("memcached_reqrate", "incr") = Some (PInt 5).
Proof.
  intros prev cur.
  destruct (combined_sum (built all_graphs (Some prev) None) (Some cur) cur
              "memcached_reqrate" "incr" ["incr_hits"; "incr_misses"])
    as (Hok & Hvals);
    try (vm_compute; reflexivity).
  - do 2 right; left; reflexivity.
  - assert (Hrun : is_ok (retrieveVals safe_sum_spec (Some cur)
                            (built all_graphs (Some prev) None)) = true).
    { apply Hok.
      - split; [by apply dict_numeric|].
        intros [v Hv]. vm_compute in Hv. discriminate.
      - rewrite built_prev_stats. intros p [= <-].
        by apply numeric_saved_ok, dict_numeric. }
    apply ended_Ok in Hrun.
    set (self' := ended (retrieveVals safe_sum_spec (Some cur)
                           (built all_graphs (Some prev) None))) in *.
    clearbody self'.
    destruct (Hvals self' Hrun) as (stats & Hstats & _ & Hval).
    exists self'. split; [exact Hrun|].
    assert (Hh : dict_get stats "incr_hits" = PNone).
    { unfold dict_get. rewrite (set_hits_misses_lookup _ _ _ Hstats) by discriminate.
      vm_compute. reflexivity. }
    assert (Hm : dict_get stats "incr_misses" = PInt 5).
    { unfold dict_get. rewrite (set_hits_misses_lookup _ _ _ Hstats) by discriminate.
      vm_compute. reflexivity. }
    rewrite Hval.
    + simpl. by rewrite Hh, Hm.
    + apply Exists_cons_tl, Exists_cons_hd. by rewrite Hm.
    + repeat constructor; by rewrite ?Hh, ?Hm.
Defined.

(** C3. Set misses.  A cycle on statistics with [cmd_set] and [total_items]
    puts [set_misses = cmd_set - total_items] into the statistics before any
    value is set: the saved statistics have it, and the fields of the set
    graph are computed from it.  [safe_sum] is any function that adds two
    integers that are both present.  The cycle does not raise on statistics
    that a server reports, with a previous state that an earlier cycle
    saved. *)
Theorem set_misses_enrichment safe_sum self server raw (cmd_set total_items : Z) :
  (forall x y, safe_sum [PInt x; PInt y] = PInt (x + y)) ->
  current_stats self server = Some raw ->
  raw !! "cmd_set" = Some (PInt cmd_set) ->
  raw !! "total_items" = Some (PInt total_items) ->
  (reported raw -> prev_ok (_prev_stats self) ->
   is_ok (retrieveVals safe_sum server self) = true) /\
  forall self',
    retrieveVals safe_sum server self = Ok self' ->
    exists stats,
      set_hits_misses raw = Ok stats /\
      state_file self' = Some stats /\
      stats !! "set_misses" = Some (PInt (cmd_set - total_items)) /\
      (hasGraph self "memcached_statset" = true ->
       graph_vals self' !! ("memcached_statset", "hit") = Some (PInt total_items) /\
       graph_vals self' !! ("memcached_statset", "miss")
       = Some (PInt (cmd_set - total_items)) /\
       graph_vals self' !! ("memcached_statset", "total")
       = Some (PInt (total_items + (cmd_set - total_items)))).
Proof.
  intros Hsum Hcur Hset Htotal. split.
  - intros Hraw Hprev.
    destruct (retrieveVals_ok safe_sum self server raw Hcur Hraw Hprev)
      as (stats & vals & _ & _ & _ & ->).
    done.
  - intros self' Hrun.
    destruct (retrieveVals_inv _ _ _ _ Hrun)
      as (raw' & stats & vals & Hcur' & Hstats & Hvals & ->).
    rewrite Hcur in Hcur'. injection Hcur' as <-.
    exists stats. split; [done|]. split; [done|].
    pose proof (set_hits_misses_set_hits _ _ Hstats) as Hh.
    pose proof (set_hits_misses_set_misses _ _ Hstats) as Hm.
    rewrite Hset, Htotal in Hm. destruct Hm as (v & Hv & Hm).
    simpl in Hv. injection Hv as <-.
    split; [done|]. intros Hg.
    assert (Hhits : dict_get stats "set_hits" = PInt total_items).
    { unfold dict_get at 1. rewrite Hh. simpl. unfold dict_get. by rewrite Htotal. }
    assert (Hmisses : dict_get stats "set_misses" = PInt (cmd_set - total_items)).
    { unfold dict_get. by rewrite Hm. }
    rewrite !after_cycle_counter by done.
    unfold_counter_vals. rewrite Hg, Hhits, Hmisses, Hsum. by written_simpl.
Qed.

(** Current [{cmd_set: 100, total_items: 90}]: [set_misses] is 10, and the
    fields of the set graph are hit 90, miss 10 and total 100. *)
Lemma set_misses_enrichment_witness :
  let cur := dict [("cmd_set", 100%Z); ("total_items", 90%Z)] in
  exists self' stats,
    retrieveVals safe_sum_spec (Some cur) (built all_graphs None (Some cur)) = Ok self' /\
    state_file self' = Some stats /\
    stats !! "set_misses" = Some (PInt 10) /\
    graph_vals self' !! ("memcached_statset", "hit") = Some (PInt 90) /\
    graph_vals self' !! ("memcached_statset", "miss") = Some (PInt 10) /\
    graph_vals self' !! ("memcached_statset", "total") = Some (PInt 100).
Proof.
  intros cur.
  destruct (set_misses_enrichment safe_sum_spec (built all_graphs None (Some cur))
              (Some cur) cur 100 90)
    as (Hok & Hvals);
    try (vm_compute; reflexivity).
  assert (Hrun : is_ok (retrieveVals safe_sum_spec (Some cur)
                          (built all_graphs None (Some cur))) = true).
  { apply Hok.
    - split; [by apply dict_numeric|].
      intros [v Hv]. vm_compute in Hv. discriminate.
    - rewrite built_prev_stats. intros p [=]. }
  apply ended_Ok in Hrun.
  pose proof (eq_refl : hasGraph (built all_graphs None (Some cur)) "memcached_statset"
                        = true) as Hg.
  set (self' := ended (retrieveVals safe_sum_spec (Some cur)
                         (built all_graphs None (Some cur)))) in *.
  clearbody self'.
  destruct (Hvals self' Hrun) as (stats & _ & Hsaved & Hmiss & Hset).
  exists self', stats. split; [exact Hrun|]. split; [exact Hsaved|].
  split; [exact Hmiss|]. exact (Hset Hg).
Defined.
(** ** The graphs that [__init__] builds *)

Lemma existsb_if {A} (f : A -> bool) (c : bool) (l : list A) :
  existsb f (if c then l else []) = c && existsb f l.
Proof. by destruct c. Qed.

Lemma has_field_if (c : bool) g1 g2 f :
  has_field (if c then g1 else g2) f = if c then has_field g1 f else has_field g2 f.
Proof. by destruct c. Qed.

Lemma if_true_false (c : bool) : (if c then true else false) = c.
Proof. by destruct c. Qed.

Lemma has_field_addField name draw type g f :
  has_field (addField name draw type g) f = has_field g f || String.eqb name f.
Proof.
  unfold has_field, addField. simpl. rewrite existsb_app. simpl.
  by rewrite orb_false_r.
Qed.

Lemma has_field_add_fields_in stats draw type flds g f :
  has_field (add_fields_in stats draw type flds g) f
  = has_field g f
    || existsb (fun '(fname, fstat, _) => String.eqb fname f && dict_in fstat stats) flds.
Proof.
  unfold add_fields_in. revert g.
  induction flds as [|[[fname fstat] fstr] flds IH]; intros g; simpl.
  - by rewrite orb_false_r.
  - rewrite IH, has_field_if, has_field_addField.
    destruct (dict_in fstat stats), (has_field g f), (String.eqb fname f); simpl;
      by rewrite ?orb_true_r.
Qed.

Arguments add_fields_in : simpl never.

Lemma existsb_appended P self stats :
  existsb P (appended_graphs self stats)
  = existsb P (graph_connections self stats) || (existsb P (graph_items self stats)
    || (existsb P (graph_memory self stats) || (existsb P (graph_connrate self stats)
    || (existsb P (graph_traffic self stats) || (existsb P (graph_reqrate self stats)
    || (existsb P (graph_statget self stats) || (existsb P (graph_statset self stats)
    || (existsb P (graph_statdel self stats) || (existsb P (graph_statcas self stats)
    || (existsb P (graph_statincrdecr self stats) || (existsb P (graph_statevict self stats)
    || (existsb P (graph_statauth self stats) || existsb P (graph_hitpct self stats))))))))))))).
Proof. unfold appended_graphs. by rewrite !existsb_app. Qed.

Ltac block g := unfold g; rewrite existsb_if; simpl.

Ltac blocks :=
  rewrite existsb_appended;
  block graph_connections; block graph_items; block graph_memory;
  block graph_connrate; block graph_traffic; block graph_reqrate;
  block graph_statget; block graph_statset; block graph_statdel;
  block graph_statcas; block graph_statincrdecr; block graph_statevict;
  block graph_statauth; block graph_hitpct;
  rewrite ?has_field_add_fields_in, ?has_field_if; simpl;
  rewrite ?andb_false_r, ?andb_true_r, ?orb_false_r, ?if_same, ?if_true_false; simpl.

Lemma appended_graphs_has self stats g reqs :
  In (g, reqs) graph_catalog ->
  graph_reqs g = reqs /\
  existsb (fun p => String.eqb (fst p) g) (appended_graphs self stats)
  = graphEnabled self g && forallb (fun k => dict_in k stats) reqs.
Proof.
  intros Hin. unfold graph_catalog in Hin. simpl in Hin.
  repeat (destruct Hin as [Hin|Hin]; [injection Hin as <- <-|]); [..|done];
    (split; [reflexivity|]); blocks; by rewrite <- ?andb_assoc.
Qed.

Lemma appended_graphs_field self stats g f cond :
  In (g, f, cond) field_catalog ->
  existsb (fun p => String.eqb (fst p) g && has_field (snd p) f)
          (appended_graphs self stats)
  = graphEnabled self g && forallb (fun k => dict_in k stats) (graph_reqs g)
    && field_condition stats cond.
Proof.
  intros Hin. unfold field_catalog in Hin. simpl in Hin.
  repeat (destruct Hin as [Hin|Hin]; [injection Hin as <- <- <-|]); [..|done];
    blocks; by rewrite <- ?andb_assoc, ?andb_true_r.
Qed.

Lemma init_Ok enabled state server stats :
  build_stats state server = Some stats ->
  exists self,
    __init__ enabled state server = Ok self /\
    enabled_graphs self = enabled /\
    _prev_stats self = state /\
    _stats self = match state with None => server | Some _ => None end /\
    graph_vals self = ∅ /\
    graphs self = appended_graphs self stats.
Proof.
  unfold build_stats, __init__. destruct state as [prev|]; simpl.
  - intros [= <-]. eexists. split; [reflexivity|]. by repeat split.
  - intros ->. eexists. split; [reflexivity|]. by repeat split.
Qed.

Lemma forallb_dict_in stats ks :
  forallb (fun k => dict_in k stats) ks = true
  <-> Forall (fun k => is_Some (stats !! k)) ks.
Proof.
  rewrite forallb_forall, Forall_forall. split; intros H k Hk.
  - apply dict_in_true, H. by apply list_elem_of_In.
  - apply dict_in_true, H. by apply list_elem_of_In.
Qed.

(** C5, as stated, fails: built from [{cmd_set: 1, cmd_get: 1}], the hit
    percent graph has the fields [set] and [get], while [set_hits] and
    [get_hits] are absent. *)
Lemma hitpct_fields_not_gated_on_hit_counters :
  let stats := dict [("cmd_set", 1%Z); ("cmd_get", 1%Z)] in
  exists self,
    __init__ all_graphs None (Some stats) = Ok self /\
    hasGraph self "memcached_hitpct" = true /\
    ~ gated_on_hit_counters self stats.
Proof.
  intros stats. eexists. split; [reflexivity|]. split; [vm_compute; reflexivity|].
  intros H. destruct (H "get" "get_hits" "get_misses") as [Hget _].
  - right; left; reflexivity.
  - destruct Hget as [v Hv]; [vm_compute; reflexivity|].
    vm_compute in Hv. discriminate.
Qed.

(** C5, amended.  [__init__] builds a graph of the catalog exactly when its
    name is enabled and all the counters it requires are in the statistics
    it builds from, and a graph that is built has a field of the catalog
    exactly when the counter of the field, if it has one, is in these
    statistics.  In the hit percent graph, [set] has no counter, [get] has
    [cmd_get], and [del], [cas], [incr], [decr] have their hit counters. *)
Theorem schema_inclusion enabled state server stats :
  build_stats state server = Some stats ->
  exists self,
    __init__ enabled state server = Ok self /\
    (forall g reqs,
        In (g, reqs) graph_catalog ->
        hasGraph self g = true
        <-> g ∈ enabled /\ Forall (fun k => is_Some (stats !! k)) reqs) /\
    (forall g f cond,
        In (g, f, cond) field_catalog ->
        hasGraph self g = true ->
        graphHasField self g f = true
        <-> match cond with
            | None => True
            | Some k => is_Some (stats !! k)
            end).
Proof.
  intros Hbuild.
  destruct (init_Ok enabled state server stats Hbuild)
    as (self & Hinit & Hen & _ & _ & _ & Hgraphs).
  exists self. split; [done|].
  assert (Hhas : forall g reqs,
            In (g, reqs) graph_catalog ->
            graph_reqs g = reqs /\
            hasGraph self g
            = graphEnabled self g && forallb (fun k => dict_in k stats) reqs).
  { intros g reqs Hin. unfold hasGraph. rewrite Hgraphs.
    by apply appended_graphs_has. }
  split.
  - intros g reqs Hin. destruct (Hhas g reqs Hin) as [_ ->].
    rewrite andb_true_iff, forallb_dict_in. unfold graphEnabled.
    by rewrite bool_decide_eq_true, Hen.
  - intros g f cond Hin Hg.
    assert (Hcat : exists reqs, In (g, reqs) graph_catalog).
    { unfold field_catalog in Hin. simpl in Hin. unfold graph_catalog. simpl.
      repeat (destruct Hin as [Hin|Hin]; [injection Hin as <- <- <-; eauto 20|]).
      done. }
    destruct Hcat as [reqs Hcat]. destruct (Hhas g reqs Hcat) as [Hreqs Hgb].
    unfold graphHasField. rewrite Hgraphs, (appended_graphs_field _ _ _ _ cond Hin).
    rewrite Hreqs, <- Hgb, Hg. simpl.
    destruct cond as [k|]; simpl; [apply dict_in_true|done].
Qed.

(** Built from [{cmd_set: 1, cmd_get: 1, delete_hits: 1}]: there is no
    connections graph, and the hit percent graph has [del] but not [cas]. *)
Lemma schema_inclusion_witness :
  let stats := dict [("cmd_set", 1%Z); ("cmd_get", 1%Z); ("delete_hits", 1%Z)] in
  exists self,
    __init__ all_graphs (Some stats) None = Ok self /\
    hasGraph self "memcached_connections" = false /\
    hasGraph self "memcached_hitpct" = true /\
    graphHasField self "memcached_hitpct" "del" = true /\
    graphHasField self "memcached_hitpct" "cas" = false.
Proof.
  intros stats.
  destruct (schema_inclusion all_graphs (Some stats) None stats eq_refl)
    as (self & Hinit & Hgraph & Hfield).
  exists self. split; [exact Hinit|].
  assert (Hconn : hasGraph self "memcached_connections" = false).
  { apply not_true_is_false. intros H.
    apply (Hgraph "memcached_connections" ["curr_connections"]) in H.
    - destruct H as [_ H]. inversion H as [|k ks [v Hv] _]. vm_compute in Hv.
      discriminate.
    - left; reflexivity. }
  assert (Hpct : hasGraph self "memcached_hitpct" = true).
  { apply (Hgraph "memcached_hitpct" ["cmd_set"; "cmd_get"]).
    - do 13 right; left; reflexivity.
    - split; [vm_compute; reflexivity|].
      repeat constructor; eexists; vm_compute; reflexivity. }
  split; [exact Hconn|]. split; [exact Hpct|]. split.
  - apply (Hfield "memcached_hitpct" "del" (Some "delete_hits")); [|exact Hpct|].
    + do 36 right; left; reflexivity.
    + eexists; vm_compute; reflexivity.
  - apply not_true_is_false. intros H.
    apply (Hfield "memcached_hitpct" "cas" (Some "cas_hits")) in H; [|..|exact Hpct].
    + destruct H as [v Hv]. vm_compute in Hv. discriminate.
    + do 37 right; left; reflexivity.
Defined.

(** ** Values are set for fields of the graphs only *)

Lemma init_inv enabled state server self :
  __init__ enabled state server = Ok self ->
  exists stats,
    build_stats state server = Some stats /\
    _prev_stats self = state /\
    graph_vals self = ∅ /\
    (forall g reqs,
        In (g, reqs) graph_catalog ->
        hasGraph self g
        = graphEnabled self g && forallb (fun k => dict_in k stats) reqs) /\
    (forall g f cond,
        In (g, f, cond) field_catalog ->
        graphHasField self g f = hasGraph self g && field_condition stats cond).
Proof.
  intros Hinit.
  destruct (build_stats state server) as [stats|] eqn:Hbuild.
  - destruct (init_Ok enabled state server stats Hbuild)
      as (self0 & Hinit0 & _ & Hprev & _ & Hvals & Hgraphs).
    rewrite Hinit in Hinit0. injection Hinit0 as <-.
    exists stats. split; [done|]. split; [done|]. split; [done|].
    assert (Hhas : forall g reqs,
              In (g, reqs) graph_catalog ->
              graph_reqs g = reqs /\
              hasGraph self g
              = graphEnabled self g && forallb (fun k => dict_in k stats) reqs).
    { intros g reqs Hin. unfold hasGraph. rewrite Hgraphs.
      by apply appended_graphs_has. }
    split; [intros g reqs Hin; by apply Hhas|].
    intros g f cond Hin.
    assert (Hcat : exists reqs, In (g, reqs) graph_catalog).
    { unfold field_catalog in Hin. simpl in Hin. unfold graph_catalog. simpl.
      repeat (destruct Hin as [Hin|Hin]; [injection Hin as <- <- <-; eauto 20|]).
      done. }
    destruct Hcat as [reqs Hcat]. destruct (Hhas g reqs Hcat) as [Hreqs ->].
    unfold graphHasField.
    by rewrite Hgraphs, (appended_graphs_field _ _ _ _ cond Hin), Hreqs.
  - unfold build_stats in Hbuild. unfold __init__ in Hinit.
    destruct state; [done|]. simpl in *. by subst server.
Qed.

Ltac catalog_in :=
  unfold field_catalog, graph_catalog; simpl;
  repeat (first [left; reflexivity | right]).

Lemma counter_vals_in_schema safe_sum self stats0 stats w :
  schema_ok self stats0 ->
  In w (counter_vals safe_sum self stats) ->
  graphHasField self (fst (fst w)) (snd (fst w)) = true.
Proof.
  intros [Hgraph Hfield] Hw.
  assert (Hreq : hasGraph self "memcached_reqrate" = true ->
            dict_in "cmd_set" stats0 = true /\ dict_in "cmd_get" stats0 = true).
  { rewrite (Hgraph "memcached_reqrate" ["cmd_set"; "cmd_get"]) by catalog_in.
    simpl. rewrite !andb_true_iff. tauto. }
  assert (Hset : forall g f cond,
            In (g, f, cond) field_catalog -> hasGraph self g = true ->
            field_condition stats0 cond = true -> graphHasField self g f = true).
  { intros g f cond Hin Hg Hc. by rewrite (Hfield g f cond Hin), Hg, Hc. }
  unfold counter_vals in Hw. rewrite !in_app_iff in Hw.
  unfold vals_connections, vals_items, vals_memory, vals_connrate, vals_traffic,
    vals_reqrate, vals_statget, vals_statset, vals_statdel, vals_statcas,
    vals_statincrdecr, vals_statevict, vals_statauth in Hw.
  repeat match type of Hw with
  | _ \/ _ => destruct Hw as [Hw|Hw]
  end;
  match type of Hw with
  | In _ (if hasGraph self ?g then _ else _) =>
      destruct (hasGraph self g) eqn:Hg; [|done]
  end;
  try (destruct Hreq as [Hcs Hcg]; [done|]);
  rewrite ?in_app_iff in Hw;
  repeat match type of Hw with
  | _ \/ _ => destruct Hw as [Hw|Hw]
  end;
  try match type of Hw with
  | In _ (if graphHasField self ?g ?f then _ else _) =>
      destruct (graphHasField self g f) eqn:Hgf; [|done]
  end;
  simpl in Hw;
  repeat match type of Hw with
  | _ \/ _ => destruct Hw as [Hw|Hw]
  end;
  try done; subst w; simpl; try done;
  (eapply Hset; [catalog_in|done|done]).
Qed.

Lemma hitpct_field_guard stats prev_stats fname h m vals w :
  hitpct_field stats prev_stats (fname, h, m) = Ok vals ->
  In w vals ->
  fst w = ("memcached_hitpct", fname) /\
  exists prev, prev_stats = Some prev /\ dict_in h prev = true.
Proof.
  intros Hvals Hw.
  pose proof (hitpct_field_shape _ _ _ _ _ _ Hvals) as [->|[v ->]]; [done|].
  destruct Hw as [<-|[]]. split; [done|].
  unfold hitpct_field in Hvals.
  destruct prev_stats as [prev|]; [|done].
  destruct (truthy (Some prev)); [|done].
  destruct (dict_in h stats && dict_in h (default ∅ (Some prev))
            && dict_in m stats && dict_in m (default ∅ (Some prev))) eqn:Hg; [|done].
  rewrite !andb_true_iff in Hg. exists prev. split; [done|]. simpl in Hg. tauto.
Qed.

Lemma vals_hitpct_in_schema self stats0 stats vals w :
  schema_ok self stats0 ->
  (forall prev, _prev_stats self = Some prev -> stats0 = prev) ->
  vals_hitpct self stats = Ok vals ->
  In w vals ->
  graphHasField self (fst (fst w)) (snd (fst w)) = true.
Proof.
  intros [Hgraph Hfield] Hprev Hvals Hw.
  unfold vals_hitpct in Hvals.
  destruct (hasGraph self "memcached_hitpct") eqn:Hg; [|by inversion Hvals; subst].
  assert (Hreq : dict_in "cmd_set" stats0 = true /\ dict_in "cmd_get" stats0 = true).
  { rewrite (Hgraph "memcached_hitpct" ["cmd_set"; "cmd_get"]) in Hg by catalog_in.
    simpl in Hg. rewrite !andb_true_iff in Hg. tauto. }
  destruct Hreq as [Hcs Hcg].
  assert (Hset : forall f cond,
            In ("memcached_hitpct", f, cond) field_catalog ->
            field_condition stats0 cond = true ->
            graphHasField self "memcached_hitpct" f = true).
  { intros f cond Hin Hc. by rewrite (Hfield _ f cond Hin), Hg, Hc. }
  unfold hitpct_fields in Hvals. simpl in Hvals.
  repeat match type of Hvals with
  | context [hitpct_field stats (_prev_stats self) ?fld] =>
      let r := fresh "r" in
      let E := fresh "E" in
      destruct (hitpct_field stats (_prev_stats self) fld) as [r|] eqn:E;
        simpl in Hvals; [|discriminate]
  end.
  injection Hvals as <-. rewrite !in_app_iff in Hw.
  repeat match type of Hw with
  | _ \/ _ => destruct Hw as [Hw|Hw]
  end;
  try done;
  match goal with
  | E : hitpct_field _ _ _ = Ok ?r, H : In w ?r |- _ =>
      destruct (hitpct_field_guard _ _ _ _ _ _ _ E H) as (Hk & prev & Hp & Hin)
  end;
  apply Hprev in Hp; subst prev;
  destruct w as [[g f] v]; simpl in Hk; injection Hk as -> ->; simpl;
  (eapply Hset; [catalog_in|done]).
Qed.

(** One cycle keeps the graphs, and sets values for their fields only. *)
Lemma retrieveVals_in_schema safe_sum stats0 self server self' :
  schema_ok self stats0 ->
  (forall prev, _prev_stats self = Some prev -> stats0 = prev) ->
  retrieveVals safe_sum server self = Ok self' ->
  graphs self' = graphs self /\
  _prev_stats self' = _prev_stats self /\
  forall g f v,
    graph_vals self' !! (g, f) = Some v ->
    graph_vals self !! (g, f) = Some v \/ graphHasField self g f = true.
Proof.
  intros Hschema Hprev Hrun. rewrite retrieveVals_eq in Hrun.
  destruct (current_stats self server) as [raw|]; [|done].
  destruct (set_hits_misses raw) as [stats|]; simpl in Hrun; [|done].
  destruct (vals_hitpct self stats) as [vals|] eqn:Hvals; simpl in Hrun; [|done].
  injection Hrun as <-. split; [done|]. split; [done|].
  intros g f v. unfold after_cycle. cbn [graph_vals].
  rewrite setGraphVals_lookup.
  destruct (written (g, f) _) as [v'|] eqn:Hw; [|by left].
  intros [= ->]. right. apply written_In in Hw. simpl in Hw.
  apply in_app_iff in Hw as [Hw|Hw].
  - by apply (counter_vals_in_schema safe_sum self stats0 stats (g, f, v)).
  - by apply (vals_hitpct_in_schema self stats0 stats vals (g, f, v)).
Qed.
(** ** Several cycles *)

Lemma cycles_Raise safe_sum servers e :
  fold_left (fun r server => self ← r; retrieveVals safe_sum server self)
            servers (Raise e) = Raise e.
Proof. induction servers as [|server servers IH]; simpl; done. Qed.

Lemma cycles_cons safe_sum server servers self :
  cycles safe_sum (server :: servers) self
  = self1 ← retrieveVals safe_sum server self; cycles safe_sum servers self1.
Proof.
  unfold cycles. simpl.
  destruct (retrieveVals safe_sum server self) as [self1|e]; simpl; [done|].
  apply cycles_Raise.
Qed.

Lemma schema_ok_ext s1 s2 stats0 :
  graphs s1 = graphs s2 -> enabled_graphs s1 = enabled_graphs s2 ->
  schema_ok s1 stats0 -> schema_ok s2 stats0.
Proof.
  intros Hg He [H1 H2]. unfold schema_ok, hasGraph, graphHasField, graphEnabled in *.
  rewrite <- Hg, <- He. by split.
Qed.

Lemma retrieveVals_enabled safe_sum server self self' :
  retrieveVals safe_sum server self = Ok self' ->
  enabled_graphs self' = enabled_graphs self.
Proof.
  intros Hrun. rewrite retrieveVals_eq in Hrun.
  destruct (current_stats self server) as [raw|]; [|done].
  destruct (set_hits_misses raw) as [stats|]; simpl in Hrun; [|done].
  destruct (vals_hitpct self stats) as [vals|]; simpl in Hrun; [|done].
  by injection Hrun as <-.
Qed.

Lemma cycles_in_schema safe_sum stats0 servers self self' :
  schema_ok self stats0 ->
  (forall prev, _prev_stats self = Some prev -> stats0 = prev) ->
  cycles safe_sum servers self = Ok self' ->
  graphs self' = graphs self /\
  forall g f v,
    graph_vals self' !! (g, f) = Some v ->
    graph_vals self !! (g, f) = Some v \/ graphHasField self g f = true.
Proof.
  revert self. induction servers as [|server servers IH]; intros self Hschema Hprev Hrun.
  - injection Hrun as <-. split; [done|]. intros g f v H. by left.
  - rewrite cycles_cons in Hrun.
    destruct (retrieveVals safe_sum server self) as [self1|] eqn:Hstep;
      simpl in Hrun; [|done].
    destruct (retrieveVals_in_schema _ _ _ _ _ Hschema Hprev Hstep)
      as (Hg1 & Hp1 & Hv1).
    pose proof (retrieveVals_enabled _ _ _ _ Hstep) as He1.
    destruct (IH self1) as [Hg Hv]; try done.
    + by apply (schema_ok_ext self).
    + by rewrite Hp1.
    + split; [by rewrite Hg|]. intros g f v H.
      destruct (Hv g f v H) as [H'|H'].
      * by apply Hv1.
      * right. unfold graphHasField in *. by rewrite <- Hg1.
Qed.

(** C6. The graphs and their fields are decided by [__init__] and no cycle
    changes them: after any number of cycles on the plugin, whatever the
    server reports in them, the graphs are those that [__init__] built, and
    every value that is set belongs to a field of these graphs. *)
Theorem schema_frozen safe_sum enabled state server servers self self' :
  __init__ enabled state server = Ok self ->
  cycles safe_sum servers self = Ok self' ->
  graphs self' = graphs self /\
  (forall g, hasGraph self' g = hasGraph self g) /\
  (forall g f, graphHasField self' g f = graphHasField self g f) /\
  (forall g f v, graph_vals self' !! (g, f) = Some v -> graphHasField self g f = true).
Proof.
  intros Hinit Hrun.
  destruct (init_inv enabled state server self Hinit)
    as (stats0 & Hbuild & Hprev & Hvals & Hgraph & Hfield).
  destruct (cycles_in_schema safe_sum stats0 servers self self') as [Hg Hv].
  - by split.
  - intros prev Hp. rewrite Hprev in Hp. rewrite Hp in Hbuild. simpl in Hbuild.
    congruence.
  - done.
  - split; [done|]. unfold hasGraph, graphHasField. rewrite Hg.
    split; [done|]. split; [done|].
    intros g f v H. destruct (Hv g f v H) as [H'|H']; [|done].
    by rewrite Hvals, lookup_empty in H'.
Qed.

(** Built from a restored [{cmd_get: 1}]; in the cycles that follow the
    server reports [cmd_set] as well: the request rate graph and the hit percent graph still
    have no field [set], and no value is set for it. *)
Lemma schema_frozen_witness :
  let first := dict [("cmd_get", 1%Z)] in
  let later := dict [("cmd_get", 2%Z); ("cmd_set", 1%Z)] in
  let self := built all_graphs (Some first) None in
  exists self',
    __init__ all_graphs (Some first) None = Ok self /\
    cycles safe_sum_spec [Some later; Some later] self = Ok self' /\
    graphs self' = graphs self /\
    graphHasField self' "memcached_reqrate" "set" = false /\
    graphHasField self' "memcached_hitpct" "set" = false /\
    graph_vals self' !! ("memcached_reqrate", "set") = None /\
    graph_vals self' !! ("memcached_hitpct", "set") = None.
Proof.
  intros first later self.
  assert (Hinit : __init__ all_graphs (Some first) None = Ok self)
    by (vm_compute; reflexivity).
  pose proof (ended_Ok (cycles safe_sum_spec [Some later; Some later] self)) as Hrun.
  set (self' := ended (cycles safe_sum_spec [Some later; Some later] self)) in *.
  specialize (Hrun ltac:(vm_compute; reflexivity)).
  destruct (schema_frozen safe_sum_spec all_graphs (Some first) None
              [Some later; Some later] self self' Hinit Hrun)
    as (Hg & _ & Hf & Hv).
  assert (Hreq : graphHasField self "memcached_reqrate" "set" = false)
    by (vm_compute; reflexivity).
  assert (Hpct : graphHasField self "memcached_hitpct" "set" = false)
    by (vm_compute; reflexivity).
  exists self'. split; [exact Hinit|]. split; [exact Hrun|].
  split; [exact Hg|]. rewrite !Hf. split; [exact Hreq|]. split; [exact Hpct|].
  split.
  - destruct (graph_vals self' !! ("memcached_reqrate", "set")) as [v|] eqn:E;
      [|reflexivity].
    apply Hv in E. congruence.
  - destruct (graph_vals self' !! ("memcached_hitpct", "set")) as [v|] eqn:E;
      [|reflexivity].
    apply Hv in E. congruence.
Defined.

(** ** The order of the calls *)

Lemma invocation_calls safe_sum enabled state server self' :
  invocation safe_sum enabled state server = Ok self' ->
  exists raw stats vals,
    server = Some raw /\
    set_hits_misses raw = Ok stats /\
    state_file self' = Some stats /\
    calls self' = RestoreState :: GetStats :: SaveState stats :: map set_event vals /\
    forall k, graph_vals self' !! k = written k vals.
Proof.
  unfold invocation. unfold __init__ at 1.
  destruct state as [prev|]; simpl.
  - rewrite retrieveVals_eq. unfold current_stats. simpl.
    destruct server as [raw|]; [|done].
    destruct (set_hits_misses raw) as [stats|] eqn:Hstats; simpl; [|done].
    destruct (vals_hitpct _ stats) as [vals|]; simpl; [|done].
    intros [= <-]. exists raw, stats. eexists.
    split; [done|]. split; [done|]. split; [done|]. split; [done|].
    intros k. unfold after_cycle. cbn [graph_vals].
    rewrite setGraphVals_lookup. unfold appendGraphs. cbn [graph_vals].
    rewrite lookup_empty. by destruct (written k _).
  - destruct server as [raw|]; simpl; [|done].
    rewrite retrieveVals_eq. unfold current_stats. simpl.
    destruct (set_hits_misses raw) as [stats|] eqn:Hstats; simpl; [|done].
    destruct (vals_hitpct _ stats) as [vals|]; simpl; [|done].
    intros [= <-]. exists raw, stats. eexists.
    split; [done|]. split; [done|]. split; [done|]. split; [done|].
    intros k. unfold after_cycle. cbn [graph_vals].
    rewrite setGraphVals_lookup. unfold appendGraphs. cbn [graph_vals].
    rewrite lookup_empty. by destruct (written k _).
Qed.

(** C7, as stated, fails: in the invocation on [{cmd_get: 1, get_hits: 1}]
    the statistics are saved before the values of the get graph are set. *)
Lemma saved_before_values :
  let raw := dict [("cmd_get", 1%Z); ("get_hits", 1%Z)] in
  exists self',
    invocation safe_sum_spec all_graphs None (Some raw) = Ok self' /\
    ~ saved_after_values (calls self').
Proof.
  intros raw.
  exists (ended (invocation safe_sum_spec all_graphs None (Some raw))).
  split; [apply ended_Ok; vm_compute; reflexivity|].
  intros H.
  assert (3 < 2)%nat; [|lia].
  eapply (H 2%nat 3%nat _ "memcached_statget" "hit" (PInt 1));
    vm_compute; reflexivity.
Qed.

(** C7, amended.  In every invocation the previous state is restored first,
    the server is asked next, and the statistics are saved once: right after
    [set_hits] and [set_misses] are assigned, and before every value of the
    cycle is set.  The calls of the invocation are [restoreState],
    [getStats], [saveState] of the statistics of the server with [set_hits]
    and [set_misses] assigned, and then the [setGraphVal] calls, which give
    the values of the cycle. *)
Theorem saved_before_first_value safe_sum enabled state server self' :
  invocation safe_sum enabled state server = Ok self' ->
  exists raw stats vals,
    server = Some raw /\
    set_hits_misses raw = Ok stats /\
    state_file self' = Some stats /\
    calls self'
    = [RestoreState; GetStats; SaveState stats] ++ map set_event vals /\
    (forall k, graph_vals self' !! k = written k vals) /\
    Forall (fun e => is_set e = true) (map set_event vals).
Proof.
  intros Hrun.
  destruct (invocation_calls _ _ _ _ _ Hrun)
    as (raw & stats & vals & Hserver & Hstats & Hsaved & Hcalls & Hvals).
  exists raw, stats, vals.
  split; [done|]. split; [done|]. split; [done|]. split; [done|]. split; [done|].
  rewrite Forall_map. apply Forall_forall. by intros [[g f] v] _.
Qed.

(** The invocation on [{cmd_get: 1, get_hits: 1}], with no previous state:
    the saved statistics have [set_hits], and the three fields of the get
    graph are set after they are saved. *)
Lemma saved_before_first_value_witness :
  let raw := dict [("cmd_get", 1%Z); ("get_hits", 1%Z)] in
  let stats := <["set_hits" := PNone]> raw in
  exists self',
    invocation safe_sum_spec all_graphs None (Some raw) = Ok self' /\
    set_hits_misses raw = Ok stats /\
    calls self'
    = [RestoreState; GetStats; SaveState stats;
       SetGraphVal "memcached_statget" "hit" (PInt 1);
       SetGraphVal "memcached_statget" "miss" PNone;
       SetGraphVal "memcached_statget" "total" (PInt 1)].
Proof.
  intros raw stats.
  pose proof (ended_Ok (invocation safe_sum_spec all_graphs None (Some raw))) as Hrun.
  assert (Hcalls :
            calls (ended (invocation safe_sum_spec all_graphs None (Some raw)))
            = [RestoreState; GetStats; SaveState stats;
               SetGraphVal "memcached_statget" "hit" (PInt 1);
               SetGraphVal "memcached_statget" "miss" PNone;
               SetGraphVal "memcached_statget" "total" (PInt 1)])
    by (vm_compute; reflexivity).
  set (self' := ended (invocation safe_sum_spec all_graphs None (Some raw))) in *.
  specialize (Hrun ltac:(vm_compute; reflexivity)).
  clearbody self'.
  destruct (saved_before_first_value safe_sum_spec all_graphs None (Some raw) self' Hrun)
    as (raw' & stats' & vals & Hserver & Hstats & _ & Hcalls' & _).
  injection Hserver as <-.
  pose proof Hcalls as Hcalls2.
  rewrite Hcalls' in Hcalls2. injection Hcalls2 as Heq _.
  exists self'. split; [exact Hrun|]. split; [|exact Hcalls].
  rewrite Hstats. f_equal. exact Heq.
Defined.

(** ** The saved statistics *)

(** C8, as stated, fails: the statistics handed to [saveState] for a server
    that reports [{cmd_set: 100, total_items: 90}] are not what the server
    reported; [set_hits] and [set_misses] have been added. *)
Lemma saved_not_reported :
  let raw := dict [("cmd_set", 100%Z); ("total_items", 90%Z)] in
  exists self' stats,
    invocation safe_sum_spec all_graphs None (Some raw) = Ok self' /\
    state_file self' = Some stats /\
    stats <> raw /\
    raw !! "set_hits" = None /\ stats !! "set_hits" = Some (PInt 90) /\
    raw !! "set_misses" = None /\ stats !! "set_misses" = Some (PInt 10).
Proof.
  intros raw.
  exists (ended (invocation safe_sum_spec all_graphs None (Some raw))).
  exists (default ∅ (state_file (ended (invocation safe_sum_spec all_graphs None
                                            (Some raw))))).
  split; [apply ended_Ok; vm_compute; reflexivity|].
  split; [vm_compute; reflexivity|].
  split; [|repeat split; vm_compute; reflexivity].
  intros H. apply (f_equal (fun d : pydict => d !! "set_hits")) in H.
  vm_compute in H. discriminate.
Qed.

(** C8, amended.  The statistics handed to [saveState] are those the cycle
    works on, changed by lines 314 to 316 only: [set_hits] is
    [stats.get('total_items')], [set_misses] is [cmd_set - total_items] when
    both are there and is unchanged otherwise, and every other counter is
    unchanged. *)
Theorem saved_stats safe_sum self server raw self' :
  current_stats self server = Some raw ->
  retrieveVals safe_sum server self = Ok self' ->
  exists stats,
    state_file self' = Some stats /\
    In (SaveState stats) (calls self') /\
    (forall k, k <> "set_hits" -> k <> "set_misses" -> stats !! k = raw !! k) /\
    stats !! "set_hits" = Some (dict_get raw "total_items") /\
    match raw !! "cmd_set", raw !! "total_items" with
    | Some cmd_set, Some total_items =>
        exists set_misses,
          py_sub cmd_set total_items = Ok set_misses /\
          stats !! "set_misses" = Some set_misses
    | _, _ => stats !! "set_misses" = raw !! "set_misses"
    end.
Proof.
  intros Hcur Hrun. rewrite retrieveVals_eq, Hcur in Hrun.
  destruct (set_hits_misses raw) as [stats|] eqn:Hstats; simpl in Hrun; [|done].
  destruct (vals_hitpct self stats) as [vals|]; simpl in Hrun; [|done].
  injection Hrun as <-. exists stats. split; [done|]. split.
  - simpl. rewrite !in_app_iff. right. right. by left.
  - split; [intros k; by apply set_hits_misses_lookup|].
    split; [by apply set_hits_misses_set_hits|].
    by apply set_hits_misses_set_misses.
Qed.

(** For [{cmd_set: 100, total_items: 90, curr_items: 7}]: [curr_items] is
    saved as it is, [set_hits] is 90 and [set_misses] is 10. *)
Lemma saved_stats_witness :
  let raw := dict [("cmd_set", 100%Z); ("total_items", 90%Z); ("curr_items", 7%Z)] in
  let self := built all_graphs None (Some raw) in
  exists self' stats,
    retrieveVals safe_sum_spec None self = Ok self' /\
    state_file self' = Some stats /\
    stats !! "curr_items" = Some (PInt 7) /\
    stats !! "set_hits" = Some (PInt 90) /\
    stats !! "set_misses" = Some (PInt 10).
Proof.
  intros raw self.
  pose proof (ended_Ok (retrieveVals safe_sum_spec None self)) as Hrun.
  set (self' := ended (retrieveVals safe_sum_spec None self)) in *.
  specialize (Hrun ltac:(vm_compute; reflexivity)).
  destruct (saved_stats safe_sum_spec self None raw self' eq_refl Hrun)
    as (stats & Hsaved & _ & Hother & Hhits & Hmisses).
  exists self', stats. split; [exact Hrun|]. split; [exact Hsaved|].
  split; [|split].
  - rewrite Hother by discriminate. vm_compute. reflexivity.
  - rewrite Hhits. vm_compute. reflexivity.
  - assert (Hset : raw !! "cmd_set" = Some (PInt 100)) by (vm_compute; reflexivity).
    assert (Htot : raw !! "total_items" = Some (PInt 90)) by (vm_compute; reflexivity).
    rewrite Hset, Htot in Hmisses. destruct Hmisses as (v & Hv & ->).
    simpl in Hv. by injection Hv as <-.
Defined.

(** ** A missing counter that raises *)

(** C9.  A server that reports [set_misses] but not [total_items]: the first
    invocation saves [set_hits = None] next to [set_misses], and in the
    second invocation [stats['set_hits'] - prev_stats['set_hits']] raises
    [TypeError]. *)
Theorem set_hits_None_raises :
  let raw := dict [("cmd_set", 1%Z); ("cmd_get", 1%Z); ("set_misses", 5%Z)] in
  exists self1 saved,
    invocation safe_sum_spec all_graphs None (Some raw) = Ok self1 /\
    state_file self1 = Some saved /\
    raw !! "total_items" = None /\
    saved !! "set_hits" = Some PNone /\
    saved !! "set_misses" = Some (PInt 5) /\
    invocation safe_sum_spec all_graphs (Some saved) (Some raw) = Raise TypeError.
Proof.
  intros raw.
  exists (ended (invocation safe_sum_spec all_graphs None (Some raw))).
  exists (default ∅ (state_file (ended (invocation safe_sum_spec all_graphs None
                                            (Some raw))))).
  split; [apply ended_Ok; vm_compute; reflexivity|].
  repeat split; vm_compute; reflexivity.
Qed.

(** ** Running a cycle twice *)

Lemma set_hits_misses_idempotent raw stats :
  set_hits_misses raw = Ok stats -> set_hits_misses stats = Ok stats.
Proof.
  intros Hstats.
  pose proof (set_hits_misses_set_hits _ _ Hstats) as Hh.
  pose proof (set_hits_misses_set_misses _ _ Hstats) as Hm.
  assert (Hcs : stats !! "cmd_set" = raw !! "cmd_set")
    by (by apply (set_hits_misses_lookup raw)).
  assert (Hti : stats !! "total_items" = raw !! "total_items")
    by (by apply (set_hits_misses_lookup raw)).
  unfold set_hits_misses.
  assert (Hid : <["set_hits" := dict_get stats "total_items"]> stats = stats).
  { apply insert_id. rewrite Hh. unfold dict_get. by rewrite Hti. }
  rewrite Hid. unfold dict_in, dict_item. rewrite Hcs, Hti.
  destruct (raw !! "cmd_set") as [a|], (raw !! "total_items") as [b|]; simpl;
    try done.
  destruct Hm as (v & -> & Hv). simpl. unfold mret, result_ret. f_equal.
  by apply insert_id.
Qed.

(** C10.  A second cycle on the same plugin object, with the same answer of
    the server, sets the same values and saves the same statistics as the
    first one. *)
Theorem retrieveVals_idempotent safe_sum server self self1 :
  retrieveVals safe_sum server self = Ok self1 ->
  exists self2,
    retrieveVals safe_sum server self1 = Ok self2 /\
    graph_vals self2 = graph_vals self1 /\
    state_file self2 = state_file self1 /\
    graphs self2 = graphs self1.
Proof.
  intros Hrun. rewrite retrieveVals_eq in Hrun.
  destruct (current_stats self server) as [raw|] eqn:Hcur; [|done].
  destruct (set_hits_misses raw) as [stats|] eqn:Hstats; simpl in Hrun; [|done].
  destruct (vals_hitpct self stats) as [vals|] eqn:Hvals; simpl in Hrun; [|done].
  injection Hrun as <-.
  set (self1 := after_cycle safe_sum self stats vals).
  assert (Hcur1 : exists raw1,
            current_stats self1 server = Some raw1 /\ set_hits_misses raw1 = Ok stats).
  { unfold current_stats in *. simpl.
    destruct (_stats self) as [kept|].
    - injection Hcur as ->. exists stats. split; [done|].
      by apply (set_hits_misses_idempotent raw).
    - exists raw. by split. }
  destruct Hcur1 as (raw1 & Hcur1 & Hstats1).
  assert (Hvals1 : vals_hitpct self1 stats = Ok vals).
  { by rewrite (vals_hitpct_ext self1 self). }
  exists (after_cycle safe_sum self1 stats vals).
  split; [|split; [|done]].
  - rewrite retrieveVals_eq, Hcur1, Hstats1. simpl. by rewrite Hvals1.
  - unfold after_cycle at 1. cbn [graph_vals].
    rewrite (counter_vals_ext safe_sum self1 self) by done.
    rewrite (setGraphVals_vals_ext _ self1
               (setGraphVals (counter_vals safe_sum self stats ++ vals) self)) by done.
    apply setGraphVals_twice.
Qed.

(** Two cycles of the plugin that has restored
    [{cmd_set: 1, cmd_get: 1, get_hits: 10, get_misses: 5}]. *)
Lemma retrieveVals_idempotent_witness :
  let prev := dict [("cmd_set", 1%Z); ("cmd_get", 1%Z);
                    ("get_hits", 10%Z); ("get_misses", 5%Z)] in
  let cur := dict [("cmd_set", 3%Z); ("cmd_get", 21%Z);
                   ("get_hits", 25%Z); ("get_misses", 10%Z)] in
  let self := built all_graphs (Some prev) None in
  exists self1 self2,
    retrieveVals safe_sum_spec (Some cur) self = Ok self1 /\
    retrieveVals safe_sum_spec (Some cur) self1 = Ok self2 /\
    graph_vals self2 = graph_vals self1 /\
    graph_vals self1 !! ("memcached_hitpct", "get") = Some (PFloat (Z2F 75)).
Proof.
  intros prev cur self.
  pose proof (ended_Ok (retrieveVals safe_sum_spec (Some cur) self)) as Hrun.
  set (self1 := ended (retrieveVals safe_sum_spec (Some cur) self)) in *.
  specialize (Hrun ltac:(vm_compute; reflexivity)).
  destruct (retrieveVals_idempotent safe_sum_spec (Some cur) self self1 Hrun)
    as (self2 & Hrun2 & Hvals & _).
  exists self1, self2. split; [exact Hrun|]. split; [exact Hrun2|].
  split; [exact Hvals|]. vm_compute. reflexivity.
Defined.
(** * Further properties of [retrieveVals] and [__init__] *)

(** ** Fields that pass a counter through *)

Lemma counter_vals_counter safe_sum self stats g f k :
  In (g, f, k) counter_fields ->
  hasGraph self g = true -> graphHasField self g f = true ->
  written (g, f) (counter_vals safe_sum self stats) = Some (dict_get stats k).
Proof.
  intros Hin Hg Hf. unfold counter_fields in Hin. simpl in Hin.
  repeat (destruct Hin as [Hin|Hin]; [injection Hin as <- <- <-|]); [..|done];
    unfold_counter_vals; rewrite ?Hg, ?Hf; by written_simpl.
Qed.

Lemma graphHasField_hasGraph self g f :
  graphHasField self g f = true -> hasGraph self g = true.
Proof.
  unfold graphHasField, hasGraph. rewrite !existsb_exists.
  intros (p & Hp & Hc). exists p. split; [done|].
  by apply andb_true_iff in Hc as [Hc _].
Qed.

(** X1.  In every cycle that returns, each field of the plugin that passes a
    counter through has the value [stats.get(counter)] of the statistics the
    cycle works on (after lines 314 to 316); when the counter is missing the
    value is [None] and nothing is raised for it. *)
Theorem counter_field_value safe_sum self server self' g f k :
  In (g, f, k) counter_fields ->
  graphHasField self g f = true ->
  retrieveVals safe_sum server self = Ok self' ->
  exists raw stats,
    current_stats self server = Some raw /\
    set_hits_misses raw = Ok stats /\
    graph_vals self' !! (g, f) = Some (dict_get stats k) /\
    (stats !! k = None -> field_value self' g f = None).
Proof.
  intros Hin Hf Hrun.
  destruct (retrieveVals_inv _ _ _ _ Hrun)
    as (raw & stats & vals & Hcur & Hstats & Hvals & ->).
  exists raw, stats. split; [done|]. split; [done|].
  assert (Hne : g <> "memcached_hitpct").
  { unfold counter_fields in Hin. simpl in Hin.
    intuition (simplify_eq; discriminate). }
  assert (Hval : graph_vals (after_cycle safe_sum self stats vals) !! (g, f)
                 = Some (dict_get stats k)).
  { rewrite after_cycle_counter by done.
    rewrite (counter_vals_counter _ _ _ _ _ _ Hin); [done| |done].
    by apply (graphHasField_hasGraph self g f). }
  split; [done|]. intros Hnone. unfold field_value. rewrite Hval.
  unfold dict_get. by rewrite Hnone.
Qed.

(** A server that reports [cmd_set] and [cmd_get] but not [get_hits]. *)
Lemma counter_field_value_witness :
  let cur := dict [("cmd_set", 3%Z); ("cmd_get", 7%Z)] in
  let self := built all_graphs None (Some cur) in
  exists self',
    retrieveVals safe_sum_spec None self = Ok self' /\
    graph_vals self' !! ("memcached_reqrate", "get") = Some (PInt 7) /\
    graph_vals self' !! ("memcached_statget", "hit") = Some PNone /\
    field_value self' "memcached_statget" "hit" = None.
Proof.
  intros cur self.
  pose proof (ended_Ok (retrieveVals safe_sum_spec None self)) as Hrun.
  set (self' := ended (retrieveVals safe_sum_spec None self)) in *.
  specialize (Hrun ltac:(vm_compute; reflexivity)). clearbody self'.
  exists self'. split; [exact Hrun|].
  destruct (counter_field_value safe_sum_spec self None self'
              "memcached_reqrate" "get" "cmd_get")
    as (raw & stats & Hcur & Hstats & Hget & _);
    [do 7 right; left; reflexivity | vm_compute; reflexivity | exact Hrun |].
  destruct (counter_field_value safe_sum_spec self None self'
              "memcached_statget" "hit" "get_hits")
    as (raw' & stats' & Hcur' & Hstats' & Hhit & Habs);
    [do 8 right; left; reflexivity | vm_compute; reflexivity | exact Hrun |].
  rewrite Hcur in Hcur'. injection Hcur' as <-.
  rewrite Hstats in Hstats'. injection Hstats' as <-.
  assert (Hraw : current_stats self None = Some cur) by (vm_compute; reflexivity).
  rewrite Hraw in Hcur. injection Hcur as <-.
  assert (Hk : stats !! "get_hits" = None).
  { rewrite (set_hits_misses_lookup _ _ _ Hstats) by discriminate.
    vm_compute. reflexivity. }
  assert (Hc : stats !! "cmd_get" = Some (PInt 7)).
  { rewrite (set_hits_misses_lookup _ _ _ Hstats) by discriminate.
    vm_compute. reflexivity. }
  split; [|split].
  - rewrite Hget. unfold dict_get. by rewrite Hc.
  - rewrite Hhit. unfold dict_get. by rewrite Hk.
  - by apply Habs.
Defined.

(** ** Every field of a counter graph gets a value *)

Lemma field_catalog_cases g f cond :
  In (g, f, cond) field_catalog ->
  g = "memcached_hitpct"
  \/ (exists k, In (g, f, k) counter_fields)
  \/ (exists ks, In (g, f, ks) combined_fields).
Proof.
  intros Hin. unfold field_catalog in Hin. simpl in Hin.
  repeat (destruct Hin as [Hin|Hin];
          [injection Hin as <- <- <-;
           first [ by left
                 | right; left; eexists; unfold counter_fields; simpl;
                   repeat (first [left; reflexivity | right]); fail
                 | right; right; eexists; unfold combined_fields; simpl;
                   repeat (first [left; reflexivity | right]); fail ]|]).
  done.
Qed.

(** X2.  In every cycle that returns, a value is set for every field that
    the plugin has in a graph other than the hit percent graph. *)
Theorem counter_fields_all_set safe_sum self server self' g f cond :
  In (g, f, cond) field_catalog ->
  g <> "memcached_hitpct" ->
  graphHasField self g f = true ->
  retrieveVals safe_sum server self = Ok self' ->
  is_Some (graph_vals self' !! (g, f)).
Proof.
  intros Hin Hne Hf Hrun.
  destruct (retrieveVals_inv _ _ _ _ Hrun)
    as (raw & stats & vals & Hcur & Hstats & Hvals & ->).
  pose proof (graphHasField_hasGraph self g f Hf) as Hg.
  rewrite after_cycle_counter by done.
  destruct (field_catalog_cases g f cond Hin) as [Heq|[[k Hk]|[ks Hks]]]; [done| |].
  - by rewrite (counter_vals_counter _ _ _ _ _ _ Hk).
  - by rewrite (counter_vals_combined _ _ _ _ _ _ Hks).
Qed.

(** The plugin built from [{cmd_set: 3, cmd_get: 7}]: its request rate graph
    has the field [get], which gets a value. *)
Lemma counter_fields_all_set_witness :
  let cur := dict [("cmd_set", 3%Z); ("cmd_get", 7%Z)] in
  let self := built all_graphs None (Some cur) in
  exists self',
    retrieveVals safe_sum_spec None self = Ok self' /\
    is_Some (graph_vals self' !! ("memcached_reqrate", "get")).
Proof.
  intros cur self.
  pose proof (ended_Ok (retrieveVals safe_sum_spec None self)) as Hrun.
  set (self' := ended (retrieveVals safe_sum_spec None self)) in *.
  specialize (Hrun ltac:(vm_compute; reflexivity)). clearbody self'.
  exists self'. split; [exact Hrun|].
  apply (counter_fields_all_set safe_sum_spec self None self'
           "memcached_reqrate" "get" (Some "cmd_get")).
  - do 7 right; left; reflexivity.
  - discriminate.
  - vm_compute. reflexivity.
  - exact Hrun.
Defined.

(** ** Fields of the hit percent graph that are skipped *)

Lemma dict_in_None k (d : pydict) : d !! k = None -> dict_in k d = false.
Proof.
  intros H. unfold dict_in. apply bool_decide_eq_false. rewrite H. by intros [? ?].
Qed.

Lemma hitpct_field_skip stats prev_stats fname h m :
  truthy prev_stats = false
  \/ stats !! h = None \/ stats !! m = None
  \/ (exists prev, prev_stats = Some prev /\ (prev !! h = None \/ prev !! m = None)) ->
  hitpct_field stats prev_stats (fname, h, m) = Ok [].
Proof.
  intros H. unfold hitpct_field.
  destruct (truthy prev_stats) eqn:Ht; [|done].
  destruct H as [H|[H|[H|(prev & -> & [H|H])]]]; [done|..]; simpl;
    rewrite (dict_in_None _ _ H), ?andb_false_r; done.
Qed.

(** X3.  In every cycle that returns, a field of the hit percent graph whose
    hit counter or miss counter is missing from the current or from the
    previous statistics, or whose previous statistics are [None] or empty,
    is skipped: no value is set for it. *)
Theorem hitpct_field_skipped safe_sum self server self' fname h m :
  In (fname, h, m) hitpct_fields ->
  retrieveVals safe_sum server self = Ok self' ->
  exists raw stats,
    current_stats self server = Some raw /\
    set_hits_misses raw = Ok stats /\
    (truthy (_prev_stats self) = false
     \/ stats !! h = None \/ stats !! m = None
     \/ (exists prev, _prev_stats self = Some prev
                      /\ (prev !! h = None \/ prev !! m = None)) ->
     graph_vals self' !! ("memcached_hitpct", fname)
     = graph_vals self !! ("memcached_hitpct", fname)).
Proof.
  intros Hin Hrun.
  destruct (retrieveVals_inv _ _ _ _ Hrun)
    as (raw & stats & vals & Hcur & Hstats & Hvals & ->).
  exists raw, stats. split; [done|]. split; [done|]. intros Hskip.
  destruct (hasGraph self "memcached_hitpct") eqn:Hg.
  - rewrite (after_cycle_hitpct safe_sum self stats vals fname h m []); try done.
    by apply hitpct_field_skip.
  - unfold vals_hitpct in Hvals. rewrite Hg in Hvals. injection Hvals as <-.
    unfold after_cycle. cbn [graph_vals].
    by rewrite app_nil_r, setGraphVals_lookup, counter_vals_hitpct.
Qed.

(** The server stops reporting [get_misses]: the field [get] keeps no value. *)
Lemma hitpct_field_skipped_witness :
  let prev := dict [("get_hits", 10%Z); ("get_misses", 5%Z)] in
  let cur := dict [("get_hits", 25%Z)] in
  exists self',
    retrieveVals safe_sum_spec (Some cur) (hitpct_plugin prev) = Ok self' /\
    graph_vals self' !! ("memcached_hitpct", "get") = None.
Proof.
  intros prev cur.
  pose proof (ended_Ok (retrieveVals safe_sum_spec (Some cur) (hitpct_plugin prev)))
    as Hrun.
  set (self' := ended (retrieveVals safe_sum_spec (Some cur) (hitpct_plugin prev))) in *.
  specialize (Hrun ltac:(vm_compute; reflexivity)). clearbody self'.
  exists self'. split; [exact Hrun|].
  destruct (hitpct_field_skipped safe_sum_spec (hitpct_plugin prev) (Some cur) self'
              "get" "get_hits" "get_misses")
    as (raw & stats & Hcur & Hstats & Hskip);
    [right; left; reflexivity | exact Hrun |].
  injection Hcur as <-.
  rewrite Hskip; [reflexivity|].
  right. right. left.
  rewrite (set_hits_misses_lookup _ _ _ Hstats) by discriminate.
  vm_compute. reflexivity.
Defined.
(** ** The field [set] of the hit percent graph *)

Lemma set_hits_misses_ints raw stats (cmd_set total_items : Z) :
  set_hits_misses raw = Ok stats ->
  raw !! "cmd_set" = Some (PInt cmd_set) ->
  raw !! "total_items" = Some (PInt total_items) ->
  stats !! "set_hits" = Some (PInt total_items) /\
  stats !! "set_misses" = Some (PInt (cmd_set - total_items)).
Proof.
  intros Hstats Hset Htotal.
  pose proof (set_hits_misses_set_hits _ _ Hstats) as Hh.
  pose proof (set_hits_misses_set_misses _ _ Hstats) as Hm.
  rewrite Hset, Htotal in Hm. destruct Hm as (v & Hv & Hm).
  simpl in Hv. injection Hv as <-. split; [|done].
  rewrite Hh. unfold dict_get. by rewrite Htotal.
Qed.

(** X5.  When the server reports [cmd_set] and [total_items] in two
    consecutive invocations, the field [set] of the hit percent graph is the
    share of the set commands that stored an item:
    [round(100.0 * d_total_items / d_cmd_set, 2)], in float arithmetic, for
    the differences [d_total_items] and [d_cmd_set] between the two reports
    when [d_cmd_set > 0], and [0] otherwise. *)
Theorem hitpct_set_share safe_sum self server self' raw prev_raw prev
    (cmd_set total_items prev_cmd_set prev_total_items : Z) :
  hasGraph self "memcached_hitpct" = true ->
  retrieveVals safe_sum server self = Ok self' ->
  current_stats self server = Some raw ->
  _prev_stats self = Some prev ->
  set_hits_misses prev_raw = Ok prev ->
  raw !! "cmd_set" = Some (PInt cmd_set) ->
  raw !! "total_items" = Some (PInt total_items) ->
  prev_raw !! "cmd_set" = Some (PInt prev_cmd_set) ->
  prev_raw !! "total_items" = Some (PInt prev_total_items) ->
  let d_cmd_set := (cmd_set - prev_cmd_set)%Z in
  let d_total_items := (total_items - prev_total_items)%Z in
  graph_vals self' !! ("memcached_hitpct", "set")
  = Some (if (0 <? d_cmd_set)%Z
          then PFloat (round2 (SFdiv 53 1024 (SFmul 53 1024 f100 (Z2F d_total_items))
                                              (Z2F d_cmd_set)))
          else PInt 0).
Proof.
  intros Hg Hrun Hcur Hprev Hsaved Hc Ht Hpc Hpt d_cmd_set d_total_items.
  destruct (retrieveVals_inv _ _ _ _ Hrun)
    as (raw' & stats & vals & Hcur' & Hstats & Hvals & ->).
  rewrite Hcur in Hcur'. injection Hcur' as <-.
  destruct (set_hits_misses_ints _ _ _ _ Hstats Hc Ht) as [Hh Hm].
  destruct (set_hits_misses_ints _ _ _ _ Hsaved Hpc Hpt) as [Hph Hpm].
  destruct (after_cycle_percentage safe_sum self stats vals prev
              "set" "set_hits" "set_misses"
              (PInt total_items) (PInt (cmd_set - total_items))
              (PInt prev_total_items) (PInt (prev_cmd_set - prev_total_items)))
    as [_ ->]; try done; [by left|].
  cbn [num_sub]. rewrite percentage_ints.
  replace (total_items - prev_total_items
           + (cmd_set - total_items - (prev_cmd_set - prev_total_items)))%Z
    with d_cmd_set by (unfold d_cmd_set; lia).
  done.
Qed.

(** 4000 new set commands, one of which stored an item: the float
    [100.0 * 1 / 4000] is above 0.025, and the value is 0.03. *)
Lemma hitpct_set_share_witness :
  let prev_raw := dict [("cmd_set", 100%Z); ("cmd_get", 1%Z); ("total_items", 90%Z)] in
  let cur := dict [("cmd_set", 4100%Z); ("cmd_get", 1%Z); ("total_items", 91%Z)] in
  exists prev self2,
    set_hits_misses prev_raw = Ok prev /\
    invocation safe_sum_spec all_graphs (Some prev) (Some cur) = Ok self2 /\
    graph_vals self2 !! ("memcached_hitpct", "set") = Some (PFloat (decimal2 false 3)).
Proof.
  intros prev_raw cur.
  assert (Hrep : reported prev_raw).
  { split; [by apply dict_numeric|].
    intros _. eexists. vm_compute. reflexivity. }
  assert (Hrep' : reported cur).
  { split; [by apply dict_numeric|].
    intros _. eexists. vm_compute. reflexivity. }
  destruct (set_hits_misses_reported prev_raw Hrep) as (prev & Hsaved & Hsaved_ok).
  set (self := built all_graphs (Some prev) None).
  assert (Hinit : __init__ all_graphs (Some prev) (Some cur) = Ok self).
  { unfold self, built, __init__. simpl. reflexivity. }
  assert (Hset : dict_in "cmd_set" prev = true).
  { apply (dict_in_Some _ _ (PInt 100)).
    rewrite (set_hits_misses_lookup _ _ _ Hsaved) by discriminate.
    vm_compute. reflexivity. }
  assert (Hget : dict_in "cmd_get" prev = true).
  { apply (dict_in_Some _ _ (PInt 1)).
    rewrite (set_hits_misses_lookup _ _ _ Hsaved) by discriminate.
    vm_compute. reflexivity. }
  assert (Hgraph : hasGraph self "memcached_hitpct" = true).
  { destruct (init_inv _ _ _ _ Hinit) as (stats0 & Hbuild & _ & _ & Hhas & _).
    injection Hbuild as <-.
    rewrite (Hhas "memcached_hitpct" ["cmd_set"; "cmd_get"])
      by (do 13 right; left; reflexivity).
    simpl. rewrite Hset, Hget. unfold graphEnabled.
    change (enabled_graphs self) with all_graphs. vm_compute. reflexivity. }
  assert (Hok : is_ok (retrieveVals safe_sum_spec (Some cur) self) = true).
  { destruct (retrieveVals_ok safe_sum_spec self (Some cur) cur)
      as (stats & vals & _ & _ & _ & ->); [reflexivity|exact Hrep'| |reflexivity].
    intros p [= <-]. exact Hsaved_ok. }
  apply ended_Ok in Hok.
  set (self2 := ended (retrieveVals safe_sum_spec (Some cur) self)) in *.
  clearbody self2.
  exists prev, self2. split; [exact Hsaved|].
  split; [unfold invocation; rewrite Hinit; exact Hok|].
  exact (hitpct_set_share safe_sum_spec self (Some cur) self2 cur prev_raw prev
           4100 91 100 90 Hgraph Hok eq_refl eq_refl Hsaved
           ltac:(vm_compute; reflexivity) ltac:(vm_compute; reflexivity)
           ltac:(vm_compute; reflexivity) ltac:(vm_compute; reflexivity)).
Defined.
(** ** What a cycle raises *)

Lemma to_float_arith_error v e : to_float v = Raise e -> arith_error e.
Proof. apply to_float_Raise. Qed.

Lemma py_sub_Raise a b e : py_sub a b = Raise e -> arith_error e.
Proof.
  destruct a as [|x|x], b as [|y|y]; simpl; try (intros [= <-]; by left); try done;
    repeat match goal with
    | |- context [float_of_int ?z] =>
        let E := fresh "E" in
        destruct (float_of_int z) eqn:E; simpl;
          [|apply float_of_int_Raise in E; intros [= <-]; by right]
    end; done.
Qed.

Lemma py_add_Raise a b e : py_add a b = Raise e -> arith_error e.
Proof.
  destruct a as [|x|x], b as [|y|y]; simpl; try (intros [= <-]; by left); try done;
    repeat match goal with
    | |- context [float_of_int ?z] =>
        let E := fresh "E" in
        destruct (float_of_int z) eqn:E; simpl;
          [|apply float_of_int_Raise in E; intros [= <-]; by right]
    end; done.
Qed.

(** The division is guarded by [total > 0]: it does not raise
    [ZeroDivisionError]. *)
Lemma py_percent_Raise hits total e :
  num_pos total = true -> py_percent hits total = Raise e -> arith_error e.
Proof.
  intros Hpos. unfold py_percent.
  destruct (to_float hits) as [h|e1] eqn:Eh; simpl;
    [|intros [= <-]; by apply to_float_arith_error in Eh].
  destruct (to_float total) as [t|e2] eqn:Et; simpl;
    [|intros [= <-]; by apply to_float_arith_error in Et].
  apply to_float_Ok in Et as [-> _].
  by rewrite (num_pos_not_zero total Hpos).
Qed.

Lemma set_hits_misses_Raise raw e : set_hits_misses raw = Raise e -> arith_error e.
Proof.
  unfold set_hits_misses, dict_in, dict_item.
  rewrite !lookup_insert_ne by done.
  destruct (raw !! "cmd_set") as [a|], (raw !! "total_items") as [b|]; simpl;
    try discriminate.
  rewrite ?bool_decide_eq_true_2 by eauto. simpl.
  destruct (py_sub a b) as [v|e'] eqn:E; simpl; [discriminate|].
  intros [= <-]. by apply py_sub_Raise in E.
Qed.

Lemma hitpct_field_Raise stats prev_stats fld e :
  hitpct_field stats prev_stats fld = Raise e -> arith_error e.
Proof.
  destruct fld as [[fname h] m]. unfold hitpct_field.
  destruct (truthy prev_stats); [|discriminate].
  destruct (dict_in h stats && dict_in h (default ∅ prev_stats)
            && dict_in m stats && dict_in m (default ∅ prev_stats)) eqn:Hg;
    [|discriminate].
  rewrite !andb_true_iff, !dict_in_true in Hg.
  destruct Hg as [[[[ch Hch] [ph Hph]] [cm Hcm]] [pm Hpm]].
  rewrite (dict_item_Some _ _ _ Hch), (dict_item_Some _ _ _ Hph),
    (dict_item_Some _ _ _ Hcm), (dict_item_Some _ _ _ Hpm). simpl.
  destruct (py_sub ch ph) as [hits|e1] eqn:E1; simpl;
    [|intros [= <-]; by apply py_sub_Raise in E1].
  destruct (py_sub cm pm) as [misses|e2] eqn:E2; simpl;
    [|intros [= <-]; by apply py_sub_Raise in E2].
  destruct (py_add hits misses) as [total|e3] eqn:E3; simpl;
    [|intros [= <-]; by apply py_add_Raise in E3].
  apply py_add_Ok in E3 as (_ & _ & _ & Nt).
  destruct (py_gt0 total) as [positive|e4] eqn:E4; simpl; [|by destruct total].
  apply py_gt0_Ok in E4 as ->.
  destruct (num_pos total) eqn:Hpos; simpl; [|discriminate].
  destruct (py_percent hits total) as [val|e5] eqn:E5; simpl;
    [|intros [= <-]; by apply (py_percent_Raise hits total)].
  apply py_percent_Ok in E5 as ->. simpl. discriminate.
Qed.

Lemma vals_hitpct_Raise self stats e :
  vals_hitpct self stats = Raise e -> arith_error e.
Proof.
  unfold vals_hitpct. destruct (hasGraph self _); [|discriminate].
  unfold hitpct_fields. simpl.
  repeat match goal with
  | |- context [hitpct_field stats (_prev_stats self) ?fld] =>
      let r := fresh "r" in
      let E := fresh "E" in
      destruct (hitpct_field stats (_prev_stats self) fld) as [r|] eqn:E; simpl;
        [|intros [= <-]; by apply hitpct_field_Raise in E]
  end.
  discriminate.
Qed.

Lemma retrieveVals_Raise_arith safe_sum server self raw e :
  current_stats self server = Some raw ->
  retrieveVals safe_sum server self = Raise e ->
  arith_error e.
Proof.
  intros Hcur. rewrite retrieveVals_eq, Hcur.
  destruct (set_hits_misses raw) as [stats|e1] eqn:E1; simpl;
    [|intros [= <-]; by apply set_hits_misses_Raise in E1].
  destruct (vals_hitpct self stats) as [vals|e2] eqn:E2; simpl;
    [discriminate|intros [= <-]; by apply vals_hitpct_Raise in E2].
Qed.

(** X6.  [retrieveVals] raises the exception of line 313 exactly when it has
    no statistics to work on; every other exception it raises is a
    [TypeError] of an operation on [None] or an [OverflowError] of an
    integer beyond the range of a float.  It never raises [KeyError]: every
    [stats[...]] and [prev_stats[...]] is guarded by an [in] test; and it
    never raises [ZeroDivisionError]: the division is guarded by
    [total > 0]. *)
Theorem retrieveVals_raises safe_sum server self :
  (current_stats self server = None <->
   retrieveVals safe_sum server self = Raise no_stats) /\
  forall e,
    retrieveVals safe_sum server self = Raise e ->
    e = no_stats \/ e = TypeError \/ e = OverflowError.
Proof.
  destruct (current_stats self server) as [raw|] eqn:Hcur.
  - split.
    + split; [done|]. intros H.
      by destruct (retrieveVals_Raise_arith _ _ _ _ _ Hcur H).
    + intros e H. right. exact (retrieveVals_Raise_arith _ _ _ _ _ Hcur H).
  - rewrite retrieveVals_eq, Hcur. split; [done|]. intros e [= <-]. by left.
Qed.

(** ** Consecutive invocations *)

Lemma invocation_ok safe_sum enabled state raw :
  reported raw -> prev_ok state ->
  exists self stats,
    invocation safe_sum enabled state (Some raw) = Ok self /\
    state_file self = Some stats /\
    set_hits_misses raw = Ok stats /\
    saved_ok stats.
Proof.
  intros Hraw Hprev.
  assert (Hbuild : exists stats0, build_stats state (Some raw) = Some stats0)
    by (destruct state; simpl; eauto).
  destruct Hbuild as [stats0 Hbuild].
  destruct (init_Ok enabled state (Some raw) stats0 Hbuild)
    as (self0 & Hinit & _ & Hp & Hs & _ & _).
  assert (Hcur : current_stats self0 (Some raw) = Some raw).
  { unfold current_stats. rewrite Hs. by destruct state. }
  destruct (retrieveVals_ok safe_sum self0 (Some raw) raw Hcur Hraw)
    as (stats & vals & Hstats & Hok & _ & Hrun); [by rewrite Hp|].
  exists (after_cycle safe_sum self0 stats vals), stats.
  split; [|done]. unfold invocation. rewrite Hinit. exact Hrun.
Qed.

(** X7.  Consecutive invocations, each restoring the state that the one
    before it saved, never raise as long as the server answers with numbers
    and reports no [set_misses] of its own without [total_items]; the state
    file then holds the last answer with [set_hits] and [set_misses]
    assigned, which is again a state the next invocation can start from. *)
Theorem invocations_never_raise safe_sum enabled state raws :
  Forall reported raws ->
  prev_ok state ->
  exists final,
    invocations safe_sum enabled state (Some <$> raws) = Ok final /\
    prev_ok final /\
    (forall raw, last raws = Some raw ->
                 exists stats, final = Some stats /\ set_hits_misses raw = Ok stats).
Proof.
  intros Hraws. revert state.
  induction Hraws as [|raw raws Hraw Hraws IH]; intros state Hprev.
  - exists state. split; [done|]. split; [done|]. by intros raw.
  - destruct (invocation_ok safe_sum enabled state raw Hraw Hprev)
      as (self & stats & Hrun & Hfile & Hstats & Hok).
    destruct (IH (Some stats)) as (final & Hrest & Hfinal & Hlast).
    { intros p Hp. by injection Hp as <-. }
    exists final. split; [|split; [done|]].
    + simpl. rewrite Hrun. simpl. by rewrite Hfile.
    + intros raw'. destruct raws as [|raw2 raws'].
      * simpl. intros [= <-]. simpl in Hrest. injection Hrest as <-. eauto.
      * intros Hl. apply Hlast. by rewrite last_cons_cons in Hl.
Qed.

(** Three invocations; the server's counters grow and [set_misses] is never
    reported by the server itself. *)
Lemma invocations_never_raise_witness :
  let r1 := dict [("cmd_set", 10%Z); ("cmd_get", 4%Z); ("total_items", 9%Z)] in
  let r2 := dict [("cmd_set", 12%Z); ("cmd_get", 4%Z); ("total_items", 11%Z)] in
  let r3 := dict [("cmd_set", 15%Z); ("cmd_get", 9%Z)] in
  exists final,
    invocations safe_sum_spec all_graphs None [Some r1; Some r2; Some r3] = Ok final /\
    prev_ok final.
Proof.
  intros r1 r2 r3.
  assert (H1 : reported r1).
  { split; [by apply dict_numeric|]. intros _. eexists. vm_compute. reflexivity. }
  assert (H2 : reported r2).
  { split; [by apply dict_numeric|]. intros _. eexists. vm_compute. reflexivity. }
  assert (H3 : reported r3).
  { split; [by apply dict_numeric|]. intros [v Hv]. vm_compute in Hv. discriminate. }
  destruct (invocations_never_raise safe_sum_spec all_graphs None [r1; r2; r3])
    as (final & Hrun & Hok & _).
  - constructor; [exact H1|]. constructor; [exact H2|].
    constructor; [exact H3|]. constructor.
  - intros p [=].
  - exists final. split; [exact Hrun | exact Hok].
Defined.
(** ** The graphs depend on which counters are there *)

Lemma appended_graphs_ext self1 self2 (s1 s2 : pydict) :
  enabled_graphs self1 = enabled_graphs self2 ->
  (forall k, k <> "set_hits" -> k <> "set_misses" -> dict_in k s1 = dict_in k s2) ->
  appended_graphs self1 s1 = appended_graphs self2 s2.
Proof.
  intros He H.
  unfold appended_graphs, graph_connections, graph_items, graph_memory,
    graph_connrate, graph_traffic, graph_reqrate, graph_statget, graph_statset,
    graph_statdel, graph_statcas, graph_statincrdecr, graph_statevict,
    graph_statauth, graph_hitpct, graphEnabled, add_fields_in, reqrate_fields,
    hitpct_loop_fields.
  cbn [fold_left]. rewrite He.
  repeat match goal with
  | |- context [dict_in ?k s1] => rewrite (H k) by discriminate
  end.
  reflexivity.
Qed.

Lemma init_graphs enabled state server self :
  __init__ enabled state server = Ok self ->
  exists stats,
    build_stats state server = Some stats /\
    enabled_graphs self = enabled /\
    graphs self = appended_graphs self stats.
Proof.
  intros Hinit.
  destruct (init_inv _ _ _ _ Hinit) as (stats & Hbuild & _).
  destruct (init_Ok enabled state server stats Hbuild)
    as (self0 & Hinit0 & He & _ & _ & _ & Hg).
  rewrite Hinit in Hinit0. injection Hinit0 as <-. by exists stats.
Qed.

(** X8.  The graphs and fields that [__init__] builds depend only on which
    counters are in the statistics it builds from, not on their values. *)
Theorem graphs_depend_on_presence enabled state1 server1 state2 server2
    (stats1 stats2 : pydict) self1 self2 :
  build_stats state1 server1 = Some stats1 ->
  build_stats state2 server2 = Some stats2 ->
  dom stats1 = dom stats2 ->
  __init__ enabled state1 server1 = Ok self1 ->
  __init__ enabled state2 server2 = Ok self2 ->
  graphs self1 = graphs self2.
Proof.
  intros Hb1 Hb2 Hdom Hi1 Hi2.
  destruct (init_graphs _ _ _ _ Hi1) as (s1 & Hb1' & He1 & ->).
  destruct (init_graphs _ _ _ _ Hi2) as (s2 & Hb2' & He2 & ->).
  rewrite Hb1 in Hb1'. injection Hb1' as <-.
  rewrite Hb2 in Hb2'. injection Hb2' as <-.
  apply appended_graphs_ext; [congruence|].
  intros k _ _. unfold dict_in. apply bool_decide_ext.
  by rewrite <- !elem_of_dom, Hdom.
Qed.

(** The same counters with other values give the same graphs. *)
Lemma graphs_depend_on_presence_witness :
  let s1 := dict [("cmd_set", 1%Z); ("cmd_get", 2%Z); ("cas_hits", 0%Z)] in
  let s2 := dict [("cmd_set", 50%Z); ("cmd_get", 70%Z); ("cas_hits", 9%Z)] in
  graphs (built all_graphs (Some s1) None) = graphs (built all_graphs None (Some s2)).
Proof.
  intros s1 s2.
  apply (graphs_depend_on_presence all_graphs (Some s1) None None (Some s2) s1 s2).
  - reflexivity.
  - reflexivity.
  - vm_compute. reflexivity.
  - reflexivity.
  - reflexivity.
Defined.

(** X9.  The graphs of an invocation that restores a saved state are those
    of the statistics that the invocation before it fetched: a counter that
    the server starts to report gets its graph or field one invocation
    later. *)
Theorem graphs_follow_previous_fetch safe_sum enabled state raw self1 server2 self2 :
  invocation safe_sum enabled state (Some raw) = Ok self1 ->
  __init__ enabled (state_file self1) server2 = Ok self2 ->
  exists fresh,
    __init__ enabled None (Some raw) = Ok fresh /\
    graphs self2 = graphs fresh.
Proof.
  intros Hrun Hinit2. unfold invocation in Hrun.
  destruct (__init__ enabled state (Some raw)) as [self0|] eqn:Hinit0;
    simpl in Hrun; [|done].
  destruct (init_inv _ _ _ _ Hinit0) as (stats0 & Hbuild0 & _).
  destruct (init_Ok enabled state (Some raw) stats0 Hbuild0)
    as (self0' & Hinit0' & _ & _ & Hs & _ & _).
  rewrite Hinit0 in Hinit0'. injection Hinit0' as <-.
  destruct (retrieveVals_inv _ _ _ _ Hrun)
    as (raw' & stats & vals & Hcur & Hstats & _ & ->).
  assert (Hraw : raw' = raw).
  { unfold current_stats in Hcur. rewrite Hs in Hcur. destruct state; congruence. }
  subst raw'. simpl in Hinit2.
  destruct (init_Ok enabled None (Some raw) raw eq_refl)
    as (fresh & Hfresh & Hef & _ & _ & _ & Hgf).
  exists fresh. split; [done|].
  destruct (init_graphs _ _ _ _ Hinit2) as (s2 & Hb2 & He2 & ->).
  injection Hb2 as <-. rewrite Hgf.
  apply appended_graphs_ext; [congruence|].
  intros k Hk1 Hk2. unfold dict_in.
  by rewrite (set_hits_misses_lookup _ _ _ Hstats).
Qed.

(** The first invocation fetches [{cmd_get: 1}], the second [cmd_set] as
    well: the second has the graphs of [{cmd_get: 1}] only. *)
Lemma graphs_follow_previous_fetch_witness :
  let r1 := dict [("cmd_get", 1%Z)] in
  let r2 := dict [("cmd_get", 2%Z); ("cmd_set", 1%Z)] in
  exists self1 self2,
    invocation safe_sum_spec all_graphs None (Some r1) = Ok self1 /\
    __init__ all_graphs (state_file self1) (Some r2) = Ok self2 /\
    graphs self2 = graphs (built all_graphs None (Some r1)) /\
    hasGraph self2 "memcached_reqrate" = false.
Proof.
  intros r1 r2.
  pose proof (ended_Ok (invocation safe_sum_spec all_graphs None (Some r1))) as H1.
  set (self1 := ended (invocation safe_sum_spec all_graphs None (Some r1))) in *.
  specialize (H1 ltac:(vm_compute; reflexivity)).
  pose proof (ended_Ok (__init__ all_graphs (state_file self1) (Some r2))) as H2.
  set (self2 := ended (__init__ all_graphs (state_file self1) (Some r2))) in *.
  specialize (H2 ltac:(vm_compute; reflexivity)).
  clearbody self2. clearbody self1.
  destruct (graphs_follow_previous_fetch safe_sum_spec all_graphs None r1 self1
              (Some r2) self2 H1 H2) as (fresh & Hfresh & Hg).
  assert (Hb : fresh = built all_graphs None (Some r1)).
  { unfold built. by rewrite Hfresh. }
  subst fresh.
  exists self1, self2. split; [exact H1|]. split; [exact H2|]. split; [exact Hg|].
  unfold hasGraph. rewrite Hg. vm_compute. reflexivity.
Defined.

(** ** The order of the graphs and of their fields *)

Lemma filter_cons_app {A} (f : A -> bool) x l :
  List.filter f (x :: l) = (if f x then [x] else []) ++ List.filter f l.
Proof. simpl. by destruct (f x). Qed.

Lemma app_eq2 {A} (a a' b b' : list A) : a = a' -> b = b' -> a ++ b = a' ++ b'.
Proof. by intros -> ->. Qed.

Ltac names_block :=
  match goal with
  | |- context [bool_decide ?P] => generalize (bool_decide P); intros [|]
  end; simpl; [|reflexivity];
  repeat match goal with
  | |- context [dict_in ?k ?s] => destruct (dict_in k s)
  end; reflexivity.

Lemma appended_graphs_names self stats :
  map fst (appended_graphs self stats) = catalog_graphs (enabled_graphs self) stats.
Proof.
  unfold appended_graphs, catalog_graphs. rewrite !map_app.
  cbn [map fst graph_catalog]. rewrite !filter_cons_app. cbn [List.filter].
  rewrite app_nil_r.
  unfold graph_connections, graph_items, graph_memory,
    graph_connrate, graph_traffic, graph_reqrate, graph_statget, graph_statset,
    graph_statdel, graph_statcas, graph_statincrdecr, graph_statevict,
    graph_statauth, graph_hitpct, graphEnabled.
  repeat (apply app_eq2; [names_block|]). names_block.
Qed.

Lemma catalog_graphs_NoDup enabled stats : NoDup (catalog_graphs enabled stats).
Proof.
  unfold catalog_graphs. apply NoDup_ListNoDup, List.NoDup_filter, NoDup_ListNoDup.
  apply (bool_decide_unpack _). vm_compute. reflexivity.
Qed.

Ltac fields_block H :=
  match type of H with
  | context [graphEnabled ?s ?g] => destruct (graphEnabled s g)
  end; simpl in H;
  repeat match type of H with
  | context [dict_in ?k ?s] => let E := fresh "E" in destruct (dict_in k s) eqn:E; simpl in H
  end; try done;
  destruct H as [H|[]]; injection H as <- <-;
  unfold catalog_fields, add_fields_in; cbn;
  repeat match goal with
  | E : dict_in ?k ?s = _ |- _ => rewrite ?E; clear E
  end;
  repeat match goal with
  | |- context [dict_in ?k ?s] => destruct (dict_in k s)
  end; reflexivity.

Lemma appended_graphs_fields self stats g G :
  In (g, G) (appended_graphs self stats) ->
  map field_name (graph_fields G) = catalog_fields stats g.
Proof.
  unfold appended_graphs. rewrite !in_app_iff.
  unfold graph_connections, graph_items, graph_memory,
    graph_connrate, graph_traffic, graph_reqrate, graph_statget, graph_statset,
    graph_statdel, graph_statcas, graph_statincrdecr, graph_statevict,
    graph_statauth, graph_hitpct.
  intros H.
  repeat (destruct H as [H|H]; [fields_block H|]). fields_block H.
Qed.

Lemma catalog_fields_NoDup stats g :
  In g (map fst graph_catalog) -> NoDup (catalog_fields stats g).
Proof.
  cbn [map fst graph_catalog]. intros H.
  repeat (destruct H as [<-|H]; [
    unfold catalog_fields; cbn;
    repeat match goal with
    | |- context [dict_in ?k ?s] => destruct (dict_in k s)
    end; apply (bool_decide_unpack _); vm_compute; reflexivity|]).
  destruct H.
Qed.

(** X10.  [__init__] appends the graphs in the order of the source, each at
    most once: the names of the graphs are the names of the catalog, in its
    order, that are enabled and whose required counters are in the
    statistics that [__init__] builds from. *)
Theorem graphs_in_catalog_order enabled state server self :
  __init__ enabled state server = Ok self ->
  exists stats,
    build_stats state server = Some stats /\
    map fst (graphs self) = catalog_graphs enabled stats /\
    NoDup (map fst (graphs self)).
Proof.
  intros Hinit.
  destruct (init_graphs _ _ _ _ Hinit) as (stats & Hbuild & He & Hg).
  exists stats. split; [done|].
  assert (Hn : map fst (graphs self) = catalog_graphs enabled stats)
    by (by rewrite Hg, appended_graphs_names, He).
  split; [done|]. rewrite Hn. apply catalog_graphs_NoDup.
Qed.

(** Only three graphs are enabled, in another order than the catalog; the
    restored state has the counters of two of them. *)
Lemma graphs_in_catalog_order_witness :
  let enabled : gset string :=
    list_to_set ["memcached_statget"; "memcached_items"; "memcached_memory"] in
  let prev := dict [("cmd_get", 3%Z); ("curr_items", 2%Z)] in
  map fst (graphs (built enabled (Some prev) None))
  = ["memcached_items"; "memcached_statget"].
Proof.
  intros enabled prev.
  destruct (graphs_in_catalog_order enabled (Some prev) None
              (built enabled (Some prev) None) eq_refl)
    as (stats & Hbuild & Hn & _).
  injection Hbuild as <-. rewrite Hn. vm_compute. reflexivity.
Defined.

(** X11.  The fields of every graph that [__init__] builds are the fields of
    the catalog for that graph, in the order of the source, whose counter,
    if they require one, is in the statistics; no graph has two fields of
    the same name. *)
Theorem fields_in_catalog_order enabled state server self g G :
  __init__ enabled state server = Ok self ->
  In (g, G) (graphs self) ->
  exists stats,
    build_stats state server = Some stats /\
    map field_name (graph_fields G) = catalog_fields stats g /\
    NoDup (map field_name (graph_fields G)).
Proof.
  intros Hinit Hin.
  destruct (init_graphs _ _ _ _ Hinit) as (stats & Hbuild & He & Hg).
  exists stats. split; [done|].
  assert (Hf : map field_name (graph_fields G) = catalog_fields stats g).
  { rewrite Hg in Hin. by apply (appended_graphs_fields self). }
  split; [done|]. rewrite Hf. apply catalog_fields_NoDup.
  assert (Hn : In g (map fst (graphs self))) by (apply (in_map fst _ _ Hin)).
  rewrite Hg, appended_graphs_names in Hn. unfold catalog_graphs in Hn.
  by apply filter_In in Hn as [Hn _].
Qed.

(** The request rate graph for a server that reports no CAS and no
    increment counters. *)
Lemma fields_in_catalog_order_witness :
  let raw := dict [("cmd_set", 1%Z); ("cmd_get", 3%Z); ("decr_hits", 0%Z);
                   ("delete_hits", 2%Z)] in
  exists G,
    In ("memcached_reqrate", G) (graphs (built all_graphs None (Some raw))) /\
    map field_name (graph_fields G) = ["set"; "get"; "del"; "decr"].
Proof.
  intros raw.
  set (G := nth 0 (map snd (graphs (built all_graphs None (Some raw)))) (newGraph "")).
  assert (Hin : In ("memcached_reqrate", G) (graphs (built all_graphs None (Some raw))))
    by (vm_compute; left; reflexivity).
  clearbody G.
  exists G. split; [exact Hin|].
  destruct (fields_in_catalog_order all_graphs None (Some raw)
              (built all_graphs None (Some raw)) "memcached_reqrate" G eq_refl Hin)
    as (stats & Hbuild & Hf & _).
  injection Hbuild as <-. rewrite Hf. vm_compute. reflexivity.
Defined.

(** X12.  A graph that is not enabled, or that is not one of the fourteen of
    the catalog, never gets a value, whatever the server reports and however
    many cycles run. *)
Theorem values_only_for_enabled_graphs safe_sum enabled state server servers
    self self' g f v :
  __init__ enabled state server = Ok self ->
  cycles safe_sum servers self = Ok self' ->
  graph_vals self' !! (g, f) = Some v ->
  g ∈ enabled /\ In g (map fst graph_catalog).
Proof.
  intros Hinit Hrun Hv.
  destruct (init_inv enabled state server self Hinit)
    as (stats0 & Hbuild & Hprev & Hvals & Hgraph & Hfield).
  destruct (cycles_in_schema safe_sum stats0 servers self self') as [_ Hin].
  - by split.
  - intros prev Hp. rewrite Hprev in Hp. rewrite Hp in Hbuild. simpl in Hbuild.
    congruence.
  - done.
  - destruct (Hin g f v Hv) as [H|H]; [by rewrite Hvals, lookup_empty in H|].
    unfold graphHasField in H. apply existsb_exists in H as ([g' G] & HG & Hg).
    simpl in Hg. apply andb_prop in Hg as [Hg _]. apply String.eqb_eq in Hg.
    subst g'.
    assert (Hn : In g (map fst (graphs self))) by (apply (in_map fst _ _ HG)).
    destruct (init_graphs _ _ _ _ Hinit) as (stats & _ & He & Hgr).
    rewrite Hgr, appended_graphs_names, He in Hn. unfold catalog_graphs in Hn.
    apply filter_In in Hn as [Hn Hc]. split; [|done].
    apply andb_prop in Hc as [Hc _]. by apply bool_decide_eq_true in Hc.
Qed.

(** Only the get graph is enabled; the server reports the counters of the
    set graph as well, over two cycles. *)
Lemma values_only_for_enabled_graphs_witness :
  let enabled : gset string := {["memcached_statget"]} in
  let raw := dict [("cmd_set", 1%Z); ("cmd_get", 3%Z); ("get_hits", 2%Z)] in
  exists self',
    cycles safe_sum_spec [Some raw; Some raw] (built enabled None (Some raw)) = Ok self' /\
    graph_vals self' !! ("memcached_statget", "hit") = Some (PInt 2) /\
    "memcached_statget" ∈ enabled.
Proof.
  intros enabled raw.
  pose proof (ended_Ok (cycles safe_sum_spec [Some raw; Some raw]
                          (built enabled None (Some raw)))) as Hrun.
  set (self' := ended (cycles safe_sum_spec [Some raw; Some raw]
                         (built enabled None (Some raw)))) in *.
  specialize (Hrun ltac:(vm_compute; reflexivity)).
  assert (Hv : graph_vals self' !! ("memcached_statget", "hit") = Some (PInt 2))
    by (vm_compute; reflexivity).
  clearbody self'.
  exists self'. split; [exact Hrun|]. split; [exact Hv|].
  exact (proj1 (values_only_for_enabled_graphs safe_sum_spec enabled None (Some raw)
                  [Some raw; Some raw] (built enabled None (Some raw)) self'
                  "memcached_statget" "hit" (PInt 2) eq_refl Hrun Hv)).
Defined.
(** ** A restored state without the counters of any enabled graph *)

Lemma counter_vals_no_graph safe_sum self stats :
  graphs self = [] -> counter_vals safe_sum self stats = [].
Proof.
  intros Hg. unfold_counter_vals. unfold hasGraph. rewrite Hg. reflexivity.
Qed.

(** X13.  When the restored state has the counters of no enabled graph, as
    the empty dictionary, the invocation builds no graph and sets no value;
    it still asks the server and saves the answer, from which the next
    invocation builds its graphs. *)
Theorem no_graph_no_value safe_sum enabled (prev raw stats : pydict) :
  catalog_graphs enabled prev = [] ->
  set_hits_misses raw = Ok stats ->
  exists self,
    invocation safe_sum enabled (Some prev) (Some raw) = Ok self /\
    graphs self = [] /\
    graph_vals self = ∅ /\
    state_file self = Some stats /\
    calls self = [RestoreState; GetStats; SaveState stats].
Proof.
  intros Hnone Hstats.
  destruct (init_Ok enabled (Some prev) (Some raw) prev eq_refl)
    as (self0 & Hinit & He & Hp & Hs & Hv & Hg).
  assert (Hg0 : graphs self0 = []).
  { apply (map_eq_nil fst). by rewrite Hg, appended_graphs_names, He. }
  assert (Hc : calls self0 = [RestoreState]).
  { unfold __init__ in Hinit. simpl in Hinit. by injection Hinit as <-. }
  assert (Hh : vals_hitpct self0 stats = Ok []).
  { unfold vals_hitpct, hasGraph. by rewrite Hg0. }
  exists (after_cycle safe_sum self0 stats []).
  split.
  - unfold invocation. rewrite Hinit. simpl. rewrite retrieveVals_eq.
    unfold current_stats. rewrite Hs, Hstats. simpl. by rewrite Hh.
  - simpl. rewrite counter_vals_no_graph by done. simpl.
    rewrite Hs, Hc. by repeat split.
Qed.

(** The state file holds the empty dictionary. *)
Lemma no_graph_no_value_witness :
  let raw := dict [("cmd_set", 1%Z); ("cmd_get", 3%Z)] in
  exists self stats,
    invocation safe_sum_spec all_graphs (Some ∅) (Some raw) = Ok self /\
    graphs self = [] /\
    state_file self = Some stats /\
    stats !! "cmd_get" = Some (PInt 3).
Proof.
  intros raw.
  set (stats := <["set_hits" := PNone]> raw).
  assert (Hstats : set_hits_misses raw = Ok stats) by (vm_compute; reflexivity).
  assert (Hget : stats !! "cmd_get" = Some (PInt 3)) by (vm_compute; reflexivity).
  clearbody stats.
  destruct (no_graph_no_value safe_sum_spec all_graphs ∅ raw stats) as (self & H).
  - vm_compute. reflexivity.
  - exact Hstats.
  - exists self, stats. destruct H as (H1 & H2 & _ & H4 & _). by repeat split.
Defined.

(** ** The calls to the server *)

Lemma filter_set_event vals : List.filter is_GetStats (map set_event vals) = [].
Proof. induction vals as [|[[g f] v] vals IH]; [done|]. simpl. exact IH. Qed.

Lemma retrieveVals_GetStats safe_sum server self self' :
  retrieveVals safe_sum server self = Ok self' ->
  (_stats self' = None <-> _stats self = None) /\
  length (List.filter is_GetStats (calls self'))
  = length (List.filter is_GetStats (calls self))
    + match _stats self with None => 1 | Some _ => 0 end.
Proof.
  intros Hrun.
  destruct (retrieveVals_inv _ _ _ _ Hrun) as (raw & stats & vals & _ & _ & _ & ->).
  simpl. rewrite !List.filter_app. simpl. rewrite filter_set_event, !length_app.
  destruct (_stats self); simpl; split; (done || lia).
Qed.

(** X14.  Without a saved state the server is asked once, by [__init__], and
    every cycle works on that answer; with a saved state [__init__] does not
    ask, and every cycle asks once. *)
Theorem getStats_call_count safe_sum enabled state server servers self self' :
  __init__ enabled state server = Ok self ->
  cycles safe_sum servers self = Ok self' ->
  length (List.filter is_GetStats (calls self'))
  = match state with
    | None => 1
    | Some _ => length servers
    end.
Proof.
  intros Hinit Hrun.
  assert (H0 : length (List.filter is_GetStats (calls self))
               = match state with None => 1 | Some _ => 0 end /\
               (_stats self = None <-> state <> None)).
  { unfold __init__ in Hinit. destruct state as [prev|]; simpl in Hinit.
    - injection Hinit as <-. simpl. split; [done|]. by split.
    - destruct server as [raw|]; simpl in Hinit; [|done].
      injection Hinit as <-. simpl. split; [done|]. by split. }
  destruct H0 as [Hn Hs].
  assert (Hgen : forall servers self self',
            cycles safe_sum servers self = Ok self' ->
            length (List.filter is_GetStats (calls self'))
            = length (List.filter is_GetStats (calls self))
              + match _stats self with None => length servers | Some _ => 0 end).
  { clear. induction servers as [|server servers IH]; intros self self' Hrun.
    - injection Hrun as <-. destruct (_stats self); simpl; lia.
    - rewrite cycles_cons in Hrun.
      destruct (retrieveVals safe_sum server self) as [self1|] eqn:Hstep;
        simpl in Hrun; [|done].
      destruct (retrieveVals_GetStats _ _ _ _ Hstep) as [Hs Hn].
      rewrite (IH _ _ Hrun), Hn.
      destruct (_stats self) as [s|], (_stats self1) as [s1|]; simpl; try lia.
      + destruct Hs as [Hs _]. by specialize (Hs eq_refl).
      + destruct Hs as [_ Hs]. by specialize (Hs eq_refl). }
  rewrite (Hgen _ _ _ Hrun), Hn.
  destruct state as [prev|].
  - destruct (_stats self); [|simpl; lia]. destruct Hs as [_ Hs]. by specialize (Hs ltac:(done)).
  - destruct (_stats self); [lia|]. destruct Hs as [Hs _]. by specialize (Hs eq_refl).
Qed.

(** Three cycles after a construction that restored a state. *)
Lemma getStats_call_count_witness :
  let prev := dict [("cmd_get", 1%Z)] in
  let raw := dict [("cmd_get", 3%Z)] in
  exists self',
    cycles safe_sum_spec [Some raw; Some raw; Some raw]
           (built all_graphs (Some prev) None) = Ok self' /\
    length (List.filter is_GetStats (calls self')) = 3.
Proof.
  intros prev raw.
  pose proof (ended_Ok (cycles safe_sum_spec [Some raw; Some raw; Some raw]
                          (built all_graphs (Some prev) None))) as Hrun.
  set (self' := ended (cycles safe_sum_spec [Some raw; Some raw; Some raw]
                         (built all_graphs (Some prev) None))) in *.
  specialize (Hrun ltac:(vm_compute; reflexivity)).
  clearbody self'.
  exists self'. split; [exact Hrun|].
  exact (getStats_call_count safe_sum_spec all_graphs (Some prev) None
           [Some raw; Some raw; Some raw] (built all_graphs (Some prev) None) self'
           eq_refl Hrun).
Defined.

(** ** What an invocation raises *)

(** X15.  An invocation raises the exception "Undetermined error accesing
    stats." exactly when the server gives no statistics, with or without a
    saved state: without one [__init__] raises it, with one [__init__]
    builds the graphs from the state and [retrieveVals] raises it.  The only
    other exceptions of an invocation are a [TypeError] of an operation on
    [None] and an [OverflowError] of an integer beyond the range of a
    float. *)
Theorem invocation_raises safe_sum enabled state server :
  (server = None <-> invocation safe_sum enabled state server = Raise no_stats) /\
  (state <> None -> is_ok (__init__ enabled state server) = true) /\
  forall e,
    invocation safe_sum enabled state server = Raise e ->
    e = no_stats \/ e = TypeError \/ e = OverflowError.
Proof.
  unfold invocation.
  destruct server as [raw|].
  - assert (Hbuild : exists stats0, build_stats state (Some raw) = Some stats0)
      by (destruct state; simpl; eauto).
    destruct Hbuild as [stats0 Hbuild].
    destruct (init_Ok enabled state (Some raw) stats0 Hbuild)
      as (self0 & Hinit & _ & _ & Hs & _ & _).
    rewrite Hinit. simpl.
    assert (Hcur : current_stats self0 (Some raw) = Some raw).
    { unfold current_stats. rewrite Hs. by destruct state. }
    split; [|split; [done|]].
    + split; [done|]. intros H.
      by destruct (retrieveVals_Raise_arith _ _ _ raw _ Hcur H).
    + intros e H. right. exact (retrieveVals_Raise_arith _ _ _ _ _ Hcur H).
  - destruct state as [prev|].
    + destruct (init_Ok enabled (Some prev) None prev eq_refl)
        as (self0 & Hinit & _ & _ & Hs & _ & _).
      rewrite Hinit. simpl. rewrite retrieveVals_eq. unfold current_stats.
      rewrite Hs. split; [done|]. split; [done|]. intros e [= <-]. by left.
    + simpl. split; [done|]. split; [done|]. intros e [= <-]. by left.
Qed.
